(** * Tunexa: the auto-audio catalog and its importer

    A shallow embedding of [python/main.py] (the catalog module) and
    [python/send_to_api.py] (the importer script), and the properties of
    the import exchange proved over it.

    Conventions of the embedding:
    - a Python [str] is a Rocq [string] holding its UTF-8 bytes; where the
      code counts, slices or iterates characters the bytes are grouped into
      code points first ([Py.utf8_chars]);
    - a Python [dict] is an association list in insertion order whose keys
      are pairwise different ([Py.wf]); keys are [str], which is all the
      catalog and a parsed JSON document ever hold;
    - console output, the requests sent and the files written are fields of
      an explicit [world]; what the network answers and whether the file
      system accepts a write are given by an [environment]; the console
      takes every character, so [print] does not fail;
    - exceptions are values ([Raise e]) threaded through a small monad;
      [str(e)] of an exception raised by the runtime is the message CPython
      gives it, and for a JSON decoding error the message without the
      position that follows it. *)

From Stdlib Require Import ZArith Ascii String Lia.
From stdpp Require Import base strings list gmap pretty.

Local Open Scope Z_scope.

(** ** Python values *)

Module Py.

(** The values the two scripts handle: the catalog literal, and whatever a
    JSON document decodes to.  A float is carried as the numeric literal
    it was read from; what Python computes from the denoted float is
    behind the [Builtins] interface. *)
#[local] Unset Elimination Schemes.
Inductive pyval : Type :=
| PyNone
| PyBool (b : bool)
| PyInt (z : Z)
| PyFloat (lit : string)
| PyStr (s : string)
| PyList (xs : list pyval)
| PyDict (kvs : list (string * pyval)).
#[local] Set Elimination Schemes.

(** Parts of the Python runtime that depend on IEEE arithmetic or on the
    Unicode character database. *)
Class Builtins := {
  float_bool : string -> bool;    (* bool(x) of the float a literal denotes *)
  float_repr : string -> string;  (* repr(x) of that float *)
  float_json : string -> string;  (* its JSON text: repr, or NaN/Infinity *)
  str_repr : string -> string     (* repr(s) of a str *)
}.

(** *** Exceptions *)

Inductive exc_class : Type :=
| BaseException | Exception | KeyboardInterrupt | SystemExit
| ArithmeticError_ | AttributeError | ImportError | KeyError | LookupError
| NameError | OSError | SyntaxError | IndentationError | TypeError
| ValueError | JSONDecodeError | UnicodeError | UnicodeEncodeError
(* requests.exceptions *)
| RequestException | HTTPError | ConnectionError | ProxyError | SSLError
| Timeout | ConnectTimeout | ReadTimeout | TooManyRedirects
| InvalidJSONError | RequestsJSONDecodeError | InvalidURL
| ChunkedEncodingError | ContentDecodingError.

#[export] Instance exc_class_eq_dec : EqDecision exc_class.
Proof. solve_decision. Defined.

(** Direct base classes, as declared by CPython and by
    [requests.exceptions]: there [ConnectTimeout] derives from both
    [ConnectionError] and [Timeout], and [ReadTimeout] from [Timeout]. *)
Definition bases (c : exc_class) : list exc_class :=
  match c with
  | BaseException => []
  | Exception | KeyboardInterrupt | SystemExit => [BaseException]
  | ArithmeticError_ | AttributeError | ImportError | LookupError
  | NameError | OSError | SyntaxError | TypeError | ValueError => [Exception]
  | KeyError => [LookupError]
  | IndentationError => [SyntaxError]
  | JSONDecodeError => [ValueError]
  | UnicodeError => [ValueError]
  | UnicodeEncodeError => [UnicodeError]
  | RequestException => [OSError]
  | HTTPError | ConnectionError | Timeout | TooManyRedirects
  | InvalidJSONError | ChunkedEncodingError | ContentDecodingError =>
      [RequestException]
  | ProxyError | SSLError => [ConnectionError]
  | ConnectTimeout => [ConnectionError; Timeout]
  | ReadTimeout => [Timeout]
  | RequestsJSONDecodeError => [InvalidJSONError; JSONDecodeError]
  | InvalidURL => [RequestException; ValueError]
  end.

(** [issubclass c d]; the hierarchy is six levels deep at most. *)
Fixpoint issubclass_upto (n : nat) (c d : exc_class) : bool :=
  bool_decide (c = d) ||
  match n with
  | O => false
  | S n' => existsb (fun b => issubclass_upto n' b d) (bases c)
  end.

Definition issubclass : exc_class -> exc_class -> bool := issubclass_upto 6.

(** An exception instance: its class and [str(e)]. *)
Record exn : Type := mkExn { exc_cls : exc_class; exc_str : string }.

Definition isinstance (e : exn) (c : exc_class) : bool :=
  issubclass (exc_cls e) c.

Inductive result (A : Type) : Type :=
| Ok (a : A)
| Raise (e : exn).
Arguments Ok {A} a.
Arguments Raise {A} e.

(** *** str *)

Definition is_ascii (c : ascii) : bool := (N_of_ascii c <? 128)%N.

Definition is_continuation (c : ascii) : bool :=
  let n := N_of_ascii c in ((128 <=? n) && (n <? 192))%N.

Definition starts_with_continuation (s : string) : bool :=
  match s with
  | String c _ => is_continuation c
  | EmptyString => false
  end.

(** The characters (code points) of a str, each as its own str. *)
Fixpoint utf8_chars (s : string) : list string :=
  match s with
  | EmptyString => []
  | String c s' =>
      if starts_with_continuation s' then
        match utf8_chars s' with
        | u :: us => String c u :: us
        | [] => [String c EmptyString]
        end
      else String c EmptyString :: utf8_chars s'
  end.

(** The str holds a surrogate code point, which here is the byte 237
    followed by a byte from 160 to 191.  The JSON decoder makes one from
    an escape such as \ud800 that has no partner; no UTF-8 stream can
    encode it. *)
Fixpoint has_surrogate (s : string) : bool :=
  match s with
  | String c s' =>
      (Ascii.eqb c "237"
       && match s' with
          | String d _ => (160 <=? N_of_ascii d)%N && (N_of_ascii d <? 192)%N
          | EmptyString => false
          end)
      || has_surrogate s'
  | EmptyString => false
  end.

Fixpoint concat_str (l : list string) : string :=
  match l with
  | [] => EmptyString
  | s :: l' => s +:+ concat_str l'
  end.

(** [sep.join(l)] *)
Fixpoint join (sep : string) (l : list string) : string :=
  match l with
  | [] => EmptyString
  | [s] => s
  | s :: l' => s +:+ sep +:+ join sep l'
  end.

(** *** dict *)

(** The value stored under [k], if any. *)
Fixpoint dict_lookup (k : string) (kvs : list (string * pyval)) : option pyval :=
  match kvs with
  | [] => None
  | (k', v) :: kvs' => if String.eqb k k' then Some v else dict_lookup k kvs'
  end.

(** [d[k] = v]: an existing key keeps its position, a new one goes last. *)
Fixpoint dict_setitem (k : string) (v : pyval) (kvs : list (string * pyval))
  : list (string * pyval) :=
  match kvs with
  | [] => [(k, v)]
  | (k', v') :: kvs' =>
      if String.eqb k k' then (k', v) :: kvs'
      else (k', v') :: dict_setitem k v kvs'
  end.

(** A dict display [{k1: v1, k2: v2, ...}], and [dict(pairs)]: the items
    are stored left to right, so a repeated key keeps its last value. *)
Definition dict_of_items (items : list (string * pyval)) : list (string * pyval) :=
  fold_left (fun d kv => dict_setitem kv.1 kv.2 d) items [].

Definition keys (kvs : list (string * pyval)) : list string := kvs.*1.

(** Every dict inside the value has pairwise different keys. *)
Fixpoint wf (v : pyval) : Prop :=
  match v with
  | PyList xs => (fix all xs := match xs with
                                | [] => True
                                | x :: xs' => wf x /\ all xs'
                                end) xs
  | PyDict kvs => NoDup kvs.*1 /\
                  (fix all kvs := match kvs with
                                  | [] => True
                                  | (_, x) :: kvs' => wf x /\ all kvs'
                                  end) kvs
  | _ => True
  end.

(** *** Built-in functions *)

Definition type_name (v : pyval) : string :=
  match v with
  | PyNone => "NoneType" | PyBool _ => "bool" | PyInt _ => "int"
  | PyFloat _ => "float" | PyStr _ => "str" | PyList _ => "list"
  | PyDict _ => "dict"
  end.

(** [len(v)] *)
Definition len (v : pyval) : result nat :=
  match v with
  | PyStr s => Ok (length (utf8_chars s))
  | PyList xs => Ok (length xs)
  | PyDict kvs => Ok (length kvs)
  | _ => Raise (mkExn TypeError
                  ("object of type '" +:+ type_name v +:+ "' has no len()"))
  end.

Section WithBuiltins.
Context `{Builtins}.

(** [bool(v)], the truth value tested by [if v:]. *)
Definition truthy (v : pyval) : bool :=
  match v with
  | PyNone => false
  | PyBool b => b
  | PyInt z => negb (z =? 0)
  | PyFloat lit => float_bool lit
  | PyStr s => negb (String.eqb s EmptyString)
  | PyList xs => match xs with [] => false | _ => true end
  | PyDict kvs => match kvs with [] => false | _ => true end
  end.

(** [repr(v)] *)
Fixpoint repr (v : pyval) : string :=
  match v with
  | PyNone => "None"
  | PyBool true => "True"
  | PyBool false => "False"
  | PyInt z => pretty z
  | PyFloat lit => float_repr lit
  | PyStr s => str_repr s
  | PyList xs => "[" +:+ join ", " (map repr xs) +:+ "]"
  | PyDict kvs =>
      "{" +:+ join ", " (map (fun kv => str_repr kv.1 +:+ ": " +:+ repr kv.2) kvs)
          +:+ "}"
  end.

(** [str(v)], which is what an f-string replacement field shows. *)
Definition str (v : pyval) : string :=
  match v with
  | PyStr s => s
  | _ => repr v
  end.
End WithBuiltins.

(** [v.get(k, default)]: only a dict has the method. *)
Definition get (v : pyval) (k : string) (dflt : pyval) : result pyval :=
  match v with
  | PyDict kvs => Ok (default dflt (dict_lookup k kvs))
  | _ => Raise (mkExn AttributeError
                  ("'" +:+ type_name v +:+ "' object has no attribute 'get'"))
  end.

(** [v[k]] with a str subscript *)
Definition getitem (v : pyval) (k : string) : result pyval :=
  match v with
  | PyDict kvs =>
      match dict_lookup k kvs with
      | Some x => Ok x
      | None => Raise (mkExn KeyError ("'" +:+ k +:+ "'"))
      end
  | PyList _ =>
      Raise (mkExn TypeError "list indices must be integers or slices, not str")
  | PyStr _ =>
      Raise (mkExn TypeError "string indices must be integers, not 'str'")
  | _ => Raise (mkExn TypeError
                  ("'" +:+ type_name v +:+ "' object is not subscriptable"))
  end.

(** [v[:n]]; slicing a dict raises (a KeyError instead from Python 3.12
    on, which the importer handles the same way). *)
Definition slice_to (n : nat) (v : pyval) : result pyval :=
  match v with
  | PyList xs => Ok (PyList (take n xs))
  | PyStr s => Ok (PyStr (concat_str (take n (utf8_chars s))))
  | PyDict _ => Raise (mkExn TypeError "unhashable type: 'slice'")
  | _ => Raise (mkExn TypeError
                  ("'" +:+ type_name v +:+ "' object is not subscriptable"))
  end.

(** The items a [for] loop over [v] visits. *)
Definition iter (v : pyval) : result (list pyval) :=
  match v with
  | PyList xs => Ok xs
  | PyStr s => Ok (map PyStr (utf8_chars s))
  | PyDict kvs => Ok (map PyStr kvs.*1)
  | _ => Raise (mkExn TypeError
                  ("'" +:+ type_name v +:+ "' object is not iterable"))
  end.

End Py.

(** ** The json module, as the importer uses it

    [dumps(data, ensure_ascii=False)] builds the request body,
    [dump(data, f, ensure_ascii=False, indent=2)] the fallback file, and
    [loads] is what [response.json()] and a reader of either text run.

    The encoder and the decoder are modelled on the values the importer
    handles; the limits the interpreter puts on the length of an int
    written in decimal and on the depth of nesting are left out here and
    are hypotheses where a property depends on them. *)

Module Json.
Import Py.

Definition nl : string := String "010"%char EmptyString.
Definition dquote : string := String "034"%char EmptyString.

Fixpoint spaces (n : nat) : string :=
  match n with
  | O => EmptyString
  | S n' => String " "%char (spaces n')
  end.

(** *** Encoder *)

Definition hex_digit (n : N) : ascii :=
  match n with
  | 0 => "0" | 1 => "1" | 2 => "2" | 3 => "3" | 4 => "4" | 5 => "5"
  | 6 => "6" | 7 => "7" | 8 => "8" | 9 => "9" | 10 => "a" | 11 => "b"
  | 12 => "c" | 13 => "d" | 14 => "e" | _ => "f"
  end%N%char.

(** The replacement of one character under [ESCAPE] (ensure_ascii off):
    the quote, the backslash and the control characters below 0x20 are
    escaped, everything else is kept as it is. *)
Definition escape_char (c : ascii) : string :=
  match c with
  | "034"%char => String "\"%char dquote
  | "\"%char => "\\"
  | "010"%char => "\n"
  | "013"%char => "\r"
  | "009"%char => "\t"
  | "008"%char => "\b"
  | "012"%char => "\f"
  | _ =>
      let n := N_of_ascii c in
      if (n <? 32)%N
      then "\u00" +:+ String (hex_digit (n / 16)) (String (hex_digit (n mod 16)) EmptyString)
      else String c EmptyString
  end.

Fixpoint escape (s : string) : string :=
  match s with
  | EmptyString => EmptyString
  | String c s' => escape_char c +:+ escape s'
  end.

Definition encode_basestring (s : string) : string :=
  dquote +:+ escape s +:+ dquote.

(** [indent=None] gives the compact form, [indent=Some n] the pretty-printed
    one, where the item separator loses its blank. *)
Definition newline_indent (indent : option nat) (level : nat) : string :=
  match indent with
  | None => EmptyString
  | Some n => nl +:+ spaces (n * level)
  end.

Definition item_separator (indent : option nat) : string :=
  match indent with
  | None => ", "
  | Some _ => ","
  end.

Definition key_separator : string := ": ".

Section Encoder.
Context `{Builtins}.
Variable indent : option nat.

Fixpoint iterencode (level : nat) (v : pyval) : string :=
  match v with
  | PyNone => "null"
  | PyBool true => "true"
  | PyBool false => "false"
  | PyInt z => pretty z
  | PyFloat lit => float_json lit
  | PyStr s => encode_basestring s
  | PyList [] => "[]"
  | PyList xs =>
      "[" +:+ newline_indent indent (S level)
          +:+ join (item_separator indent +:+ newline_indent indent (S level))
                   (map (iterencode (S level)) xs)
          +:+ newline_indent indent level +:+ "]"
  | PyDict [] => "{}"
  | PyDict kvs =>
      "{" +:+ newline_indent indent (S level)
          +:+ join (item_separator indent +:+ newline_indent indent (S level))
                   (map (fun '(k, x) => encode_basestring k +:+ key_separator
                                          +:+ iterencode (S level) x) kvs)
          +:+ newline_indent indent level +:+ "}"
  end.
End Encoder.

(** [json.dumps(v, ensure_ascii=False)] *)
Definition dumps `{Builtins} (v : pyval) : string := iterencode None 0 v.

(** The text [json.dump(v, f, ensure_ascii=False, indent=2)] writes to [f]. *)
Definition dump_indent2 `{Builtins} (v : pyval) : string := iterencode (Some 2%nat) 0 v.

(** *** Decoder *)

Inductive presult (A : Type) : Type :=
| Parsed (a : A) (rest : string)
| Failed (msg : string)
| OutOfFuel.
Arguments Parsed {A} a rest.
Arguments Failed {A} msg.
Arguments OutOfFuel {A}.

Definition is_ws (c : ascii) : bool :=
  match c with
  | " " | "009" | "010" | "013" => true
  | _ => false
  end%char.

Fixpoint skip_ws (s : string) : string :=
  match s with
  | String c s' => if is_ws c then skip_ws s' else s
  | EmptyString => s
  end.

Definition hex_value (c : ascii) : option N :=
  let n := N_of_ascii c in
  if ((48 <=? n) && (n <=? 57))%N then Some (n - 48)%N
  else if ((97 <=? n) && (n <=? 102))%N then Some (n - 87)%N
  else if ((65 <=? n) && (n <=? 70))%N then Some (n - 55)%N
  else None.

(** Four hexadecimal digits after [\u]. *)
Definition decode_uXXXX (s : string) : option (N * string) :=
  match s with
  | String a (String b (String c (String d r))) =>
      match hex_value a, hex_value b, hex_value c, hex_value d with
      | Some x, Some y, Some z, Some w => Some (((x * 16 + y) * 16 + z) * 16 + w, r)%N
      | _, _, _, _ => None
      end
  | _ => None
  end.

Definition byte (n : N) : ascii := ascii_of_N n.

(** [chr(cp)], as UTF-8 *)
Definition utf8_encode (cp : N) : string :=
  (if cp <? 128 then String (byte cp) EmptyString
   else if cp <? 2048 then
     String (byte (192 + cp / 64)) (String (byte (128 + cp mod 64)) EmptyString)
   else if cp <? 65536 then
     String (byte (224 + cp / 4096))
       (String (byte (128 + (cp / 64) mod 64))
          (String (byte (128 + cp mod 64)) EmptyString))
   else
     String (byte (240 + cp / 262144))
       (String (byte (128 + (cp / 4096) mod 64))
          (String (byte (128 + (cp / 64) mod 64))
             (String (byte (128 + cp mod 64)) EmptyString))))%N.

(** The character an escape stands for, and the text after the escape;
    [s] starts right after the backslash. *)
Definition unescape (s : string) : option (string * string) :=
  match s with
  | String "u"%char r =>
      match decode_uXXXX r with
      | Some (uni, r1) =>
          if ((55296 <=? uni) && (uni <=? 56319))%N then
            match r1 with
            | String "\"%char (String "u"%char r2) =>
                match decode_uXXXX r2 with
                | Some (uni2, r3) =>
                    if ((56320 <=? uni2) && (uni2 <=? 57343))%N
                    then Some (utf8_encode (65536 + (uni - 55296) * 1024
                                              + (uni2 - 56320))%N, r3)
                    else Some (utf8_encode uni, r1)
                | None => None
                end
            | _ => Some (utf8_encode uni, r1)
            end
          else Some (utf8_encode uni, r1)
      | None => None
      end
  | String "034"%char r => Some (dquote, r)
  | String "\"%char r => Some ("\", r)
  | String "/"%char r => Some ("/", r)
  | String "b"%char r => Some (String "008"%char EmptyString, r)
  | String "f"%char r => Some (String "012"%char EmptyString, r)
  | String "n"%char r => Some (String "010"%char EmptyString, r)
  | String "r"%char r => Some (String "013"%char EmptyString, r)
  | String "t"%char r => Some (String "009"%char EmptyString, r)
  | _ => None
  end.

(** What the decoder says of a backslash that starts no escape; [r] is
    the text after the backslash. *)
Definition bad_escape (r : string) : string :=
  match r with
  | String "u"%char _ => "Invalid \uXXXX escape"
  | EmptyString => "Unterminated string starting at"
  | _ => "Invalid \escape"
  end.

(** [scanstring(s, end, strict=True)]: [s] starts right after the opening
    quote.  Each step reads one character or one escape, so the length of
    the text bounds the number of steps. *)
Fixpoint scanstring_fuel (fuel : nat) (s : string) : presult string :=
  match fuel with
  | O => OutOfFuel
  | S fuel' =>
      match s with
      | EmptyString => Failed "Unterminated string starting at"
      | String "034"%char r => Parsed EmptyString r
      | String "\"%char r =>
          match unescape r with
          | Some (ch, r1) =>
              match scanstring_fuel fuel' r1 with
              | Parsed t r2 => Parsed (ch +:+ t) r2
              | other => other
              end
          | None => Failed (bad_escape r)
          end
      | String c r =>
          if (N_of_ascii c <? 32)%N then Failed "Invalid control character at"
          else match scanstring_fuel fuel' r with
               | Parsed t r2 => Parsed (String c t) r2
               | other => other
               end
      end
  end.

Definition scanstring (s : string) : presult string :=
  scanstring_fuel (S (String.length s)) s.

Definition is_digit (c : ascii) : bool :=
  let n := N_of_ascii c in ((48 <=? n) && (n <=? 57))%N.

(** The longest prefix of digits, and the rest. *)
Fixpoint span_digits (s : string) : string * string :=
  match s with
  | String c s' =>
      if is_digit c then let '(d, r) := span_digits s' in (String c d, r)
      else (EmptyString, s)
  | EmptyString => (EmptyString, s)
  end.

Fixpoint digits_value (acc : Z) (s : string) : Z :=
  match s with
  | String c s' => digits_value (10 * acc + Z.of_N (N_of_ascii c - 48)) s'
  | EmptyString => acc
  end.

(** [NUMBER_RE]: an optional minus sign and either a single 0 or digits
    not starting with 0; then, optionally, a point and digits; then,
    optionally, e or E, a sign and digits. *)
Definition match_integer (s : string) : option (string * string) :=
  let '(sign, s1) := match s with
                     | String c r => if Ascii.eqb c "-" then ("-", r) else (EmptyString, s)
                     | EmptyString => (EmptyString, s)
                     end in
  match s1 with
  | String c r =>
      if Ascii.eqb c "0" then Some (sign +:+ "0", r)
      else if is_digit c then let '(d, r') := span_digits s1 in Some (sign +:+ d, r')
      else None
  | EmptyString => None
  end.

Definition match_frac (s : string) : string * string :=
  match s with
  | String c r =>
      if Ascii.eqb c "." then
        match span_digits r with
        | (EmptyString, _) => (EmptyString, s)
        | (d, r1) => (String c d, r1)
        end
      else (EmptyString, s)
  | EmptyString => (EmptyString, s)
  end.

Definition match_exp (s : string) : string * string :=
  match s with
  | String e r =>
      if Ascii.eqb e "e" || Ascii.eqb e "E" then
        let '(sign, r1) := match r with
                           | String c r' =>
                               if Ascii.eqb c "-" then ("-", r')
                               else if Ascii.eqb c "+" then ("+", r')
                               else (EmptyString, r)
                           | EmptyString => (EmptyString, r)
                           end in
        match span_digits r1 with
        | (EmptyString, _) => (EmptyString, s)
        | (d, r2) => (String e (sign +:+ d), r2)
        end
      else (EmptyString, s)
  | EmptyString => (EmptyString, s)
  end.

Definition int_of_literal (lit : string) : Z :=
  match lit with
  | String c d => if Ascii.eqb c "-" then - digits_value 0 d else digits_value 0 lit
  | EmptyString => 0
  end.

Definition match_number (s : string) : option (pyval * string) :=
  match match_integer s with
  | Some (integer, r) =>
      let '(frac, r1) := match_frac r in
      let '(exp, r2) := match_exp r1 in
      match frac, exp with
      | EmptyString, EmptyString => Some (PyInt (int_of_literal integer), r2)
      | _, _ => Some (PyFloat (integer +:+ frac +:+ exp), r2)
      end
  | None => None
  end.

(** [prefix p s]: the text after [p] when [s] starts with [p]. *)
Fixpoint strip_prefix (p s : string) : option string :=
  match p, s with
  | EmptyString, _ => Some s
  | String a p', String b s' => if Ascii.eqb a b then strip_prefix p' s' else None
  | String _ _, EmptyString => None
  end.

(** The values [scan_once] reads without recursion: the three names, a
    number, and the three names of floats that are no numbers. *)
Definition scan_literal (s : string) : presult pyval :=
  match strip_prefix "null" s, strip_prefix "true" s, strip_prefix "false" s with
  | Some r, _, _ => Parsed PyNone r
  | _, Some r, _ => Parsed (PyBool true) r
  | _, _, Some r => Parsed (PyBool false) r
  | None, None, None =>
      match match_number s with
      | Some (v, r) => Parsed v r
      | None =>
          match strip_prefix "NaN" s, strip_prefix "Infinity" s,
                strip_prefix "-Infinity" s with
          | Some r, _, _ => Parsed (PyFloat "NaN") r
          | _, Some r, _ => Parsed (PyFloat "Infinity") r
          | _, _, Some r => Parsed (PyFloat "-Infinity") r
          | None, None, None => Failed "Expecting value"
          end
      end
  end.

(** [scan_once], [JSONArray] and [JSONObject].  [scan_once] is entered at
    the first character of a value; [array_loop] at the first character of
    an element, with the elements read so far; [object_loop] right after
    the opening quote of a key, with the pairs read so far. *)
Fixpoint scan_once (fuel : nat) (s : string) : presult pyval :=
  match fuel with
  | O => OutOfFuel
  | S fuel' =>
      match s with
      | EmptyString => Failed "Expecting value"
      | String nextchar r =>
          if Ascii.eqb nextchar "034" then
            match scanstring r with
            | Parsed t r1 => Parsed (PyStr t) r1
            | Failed m => Failed m
            | OutOfFuel => OutOfFuel
            end
          else if Ascii.eqb nextchar "{" then
            match skip_ws r with
            | String c r1 =>
                if Ascii.eqb c "}" then Parsed (PyDict []) r1
                else if Ascii.eqb c "034" then object_loop fuel' [] r1
                else Failed "Expecting property name enclosed in double quotes"
            | EmptyString => Failed "Expecting property name enclosed in double quotes"
            end
          else if Ascii.eqb nextchar "[" then
            match skip_ws r with
            | String c r1 =>
                if Ascii.eqb c "]" then Parsed (PyList []) r1
                else array_loop fuel' [] (String c r1)
            | EmptyString => array_loop fuel' [] EmptyString
            end
          else scan_literal s
      end
  end
with array_loop (fuel : nat) (acc : list pyval) (s : string) : presult pyval :=
  match fuel with
  | O => OutOfFuel
  | S fuel' =>
      match scan_once fuel' s with
      | Parsed v r =>
          match skip_ws r with
          | String c r1 =>
              if Ascii.eqb c "]" then Parsed (PyList (acc ++ [v])) r1
              else if Ascii.eqb c "," then array_loop fuel' (acc ++ [v]) (skip_ws r1)
              else Failed "Expecting ',' delimiter"
          | EmptyString => Failed "Expecting ',' delimiter"
          end
      | other => other
      end
  end
with object_loop (fuel : nat) (acc : list (string * pyval)) (s : string) : presult pyval :=
  match fuel with
  | O => OutOfFuel
  | S fuel' =>
      match scanstring s with
      | Parsed key r =>
          match skip_ws r with
          | String c r1 =>
              if Ascii.eqb c ":" then
                match scan_once fuel' (skip_ws r1) with
                | Parsed v r2 =>
                    match skip_ws r2 with
                    | String c2 r3 =>
                        if Ascii.eqb c2 "}" then
                          Parsed (PyDict (dict_of_items (acc ++ [(key, v)]))) r3
                        else if Ascii.eqb c2 "," then
                          match skip_ws r3 with
                          | String c3 r4 =>
                              if Ascii.eqb c3 "034"
                              then object_loop fuel' (acc ++ [(key, v)]) r4
                              else Failed "Expecting property name enclosed in double quotes"
                          | EmptyString =>
                              Failed "Expecting property name enclosed in double quotes"
                          end
                        else Failed "Expecting ',' delimiter"
                    | EmptyString => Failed "Expecting ',' delimiter"
                    end
                | other => other
                end
              else Failed "Expecting ':' delimiter"
          | EmptyString => Failed "Expecting ':' delimiter"
          end
      | Failed m => Failed m
      | OutOfFuel => OutOfFuel
      end
  end.

(** [json.loads(s)]: one value, blanks allowed around it, nothing after.
    Twice the length of the text is more fuel than the scan can use
    ([loads_has_fuel] below), so the last case never arises.  The message
    of a decoding error is given without the position the interpreter
    appends to it (": line L column C (char P)"). *)
Definition loads (s : string) : result pyval :=
  let s0 := skip_ws s in
  match scan_once (2 * String.length s0 + 2) s0 with
  | Parsed v r =>
      match skip_ws r with
      | EmptyString => Ok v
      | _ => Raise (mkExn JSONDecodeError "Extra data")
      end
  | Failed m => Raise (mkExn JSONDecodeError m)
  | OutOfFuel => Raise (mkExn JSONDecodeError "Expecting value")
  end.

End Json.

(** ** Console, network and file system *)

Module IO.
Import Py.

(** What [requests.post(url, headers=..., data=..., timeout=...)] is given. *)
Record request : Type := mkRequest {
  req_url : string;
  req_headers : list (string * string);
  req_data : string;
  req_timeout : Z
}.

(** What the importer reads of a [requests.Response]. *)
Record response : Type := mkResponse {
  status_code : Z;
  text : string
}.

(** The outside of the process: the outcome of the HTTP exchange for a
    request (a response, or the exception [requests] raises), and whether
    opening a file for writing is refused. *)
Record environment : Type := mkEnv {
  network : request -> result response;
  open_refused : string -> option exn
}.

(** The effects of the process so far: the arguments of the [print] calls,
    the requests handed to [requests.post], the files on disk. *)
Record world : Type := mkWorld {
  stdout : list string;
  sent : list request;
  files : gmap string string
}.

Definition M (A : Type) : Type := environment -> world -> world * result A.

#[export] Instance M_ret : MRet M := fun A a _ w => (w, Ok a).

#[export] Instance M_bind : MBind M := fun A B f m env w =>
  match m env w with
  | (w', Ok a) => f a env w'
  | (w', Raise e) => (w', Raise e)
  end.

Definition raise {A : Type} (e : exn) : M A := fun _ w => (w, Raise e).

(** A pure computation that may raise. *)
Definition lift {A : Type} (r : result A) : M A := fun _ w => (w, r).

(** [print(s)] of a text that standard output, a UTF-8 stream, can
    encode: a literal of the program, a number, the text of an exception,
    the body text as [requests] decoded it. *)
Definition print (s : string) : M unit := fun _ w =>
  (mkWorld (stdout w ++ [s]) (sent w) (files w), Ok tt).

(** What [print] raises on a text with a surrogate in it; the message
    of the interpreter also names the character and its position. *)
Definition unencodable : exn :=
  mkExn UnicodeEncodeError "'utf-8' codec can't encode character: surrogates not allowed".

(** [print(s)] of a text that shows a value the JSON decoder returned:
    such a value can hold a surrogate, which the stream refuses to
    encode; then nothing of the line is written. *)
Definition print_decoded (s : string) : M unit :=
  if has_surrogate s then raise unencodable else print s.

(** [requests.post(...)]: the request leaves, the environment answers. *)
Definition requests_post (url : string) (headers : list (string * string))
    (data : string) (timeout : Z) : M response := fun env w =>
  let req := mkRequest url headers data timeout in
  (mkWorld (stdout w) (sent w ++ [req]) (files w), network env req).

(** [with open(filename, 'w', encoding='utf-8') as f: f.write(content)] *)
Definition write_file (filename content : string) : M unit := fun env w =>
  match open_refused env filename with
  | Some e => (w, Raise e)
  | None => (mkWorld (stdout w) (sent w) (<[filename := content]> (files w)), Ok tt)
  end.

(** [try: body except c1: h1 except c2 as e: h2 ...]: the first clause
    whose class the exception is an instance of handles it; with no such
    clause it goes on. *)
Fixpoint handle {A : Type} (clauses : list (exc_class * (exn -> M A))) (e : exn) : M A :=
  match clauses with
  | [] => raise e
  | (c, h) :: clauses' => if isinstance e c then h e else handle clauses' e
  end.

Definition try_except {A : Type} (body : M A)
    (clauses : list (exc_class * (exn -> M A))) : M A := fun env w =>
  match body env w with
  | (w', Ok a) => (w', Ok a)
  | (w', Raise e) => handle clauses e env w'
  end.

(** [for x in xs: body x] *)
Fixpoint for_each {A : Type} (xs : list A) (body : A -> M unit) : M unit :=
  match xs with
  | [] => mret tt
  | x :: xs' => body x ;; for_each xs' body
  end.

(** [response.json()], on the body text as decoded; the error keeps the
    message of the decoder. *)
Definition response_json (r : response) : result pyval :=
  match Json.loads (text r) with
  | Ok v => Ok v
  | Raise e => Raise (mkExn RequestsJSONDecodeError (exc_str e))
  end.

Definition initial_world : world := mkWorld [] [] ∅.

End IO.

(** ** Loading a module of simple statements

    [main.py] consists of assignments of literals and one [print] call, so
    its source is modelled as its logical lines: where each starts, and
    what it reads as.  Python compiles the whole file before it runs any of
    it. *)

Module PyModule.
Import Py IO.

(** [{k1: v1, ...}] *)
Definition display (items : list (string * pyval)) : pyval :=
  PyDict (dict_of_items items).

Inductive stmt : Type :=
| Assign (target : string) (value : pyval)
| PrintCall (s : string).

(** A logical line is a simple statement, or text that is none: dict
    entries with no dict display around them, or a lone closing brace. *)
Inductive line_form : Type :=
| Simple (s : stmt)
| Entries (leading_comma : bool) (items : list (string * pyval))
| ClosingBrace.

Record logical_line : Type := mkLine {
  lineno : nat;      (* the physical line it starts on *)
  column : nat;      (* the blanks before its first token *)
  form : line_form
}.

Definition location (file : string) (l : logical_line) : string :=
  " (" +:+ file +:+ ", line " +:+ pretty (lineno l) +:+ ")".

(** The first error of the source, else its statements.  With no compound
    statement in the file, a line that starts right of column 0 is an
    unexpected indent, which is what the repository's file fails with.
    Where the first defect is of another kind the interpreter may word it
    differently or name a later line; the properties of such sources fix
    the class of the exception only. *)
Fixpoint compile (file : string) (src : list logical_line) : result (list stmt) :=
  match src with
  | [] => Ok []
  | l :: src' =>
      if (0 <? column l)%nat then
        Raise (mkExn IndentationError ("unexpected indent" +:+ location file l))
      else
        match form l with
        | Simple st =>
            match compile file src' with
            | Ok sts => Ok (st :: sts)
            | Raise e => Raise e
            end
        | Entries _ _ => Raise (mkExn SyntaxError ("invalid syntax" +:+ location file l))
        | ClosingBrace => Raise (mkExn SyntaxError ("unmatched '}'" +:+ location file l))
        end
  end.

Definition exec_stmt (st : stmt) (globals : gmap string pyval) : M (gmap string pyval) :=
  match st with
  | Assign x v => mret (<[x := v]> globals)
  | PrintCall s => print s ;; mret globals
  end.

Fixpoint exec (sts : list stmt) (globals : gmap string pyval) : M (gmap string pyval) :=
  match sts with
  | [] => mret globals
  | st :: sts' => g ← exec_stmt st globals; exec sts' g
  end.

(** [from <module> import <name>] *)
Definition import_from (file : string) (src : list logical_line) (name : string) : M pyval :=
  sts ← lift (compile file src);
  globals ← exec sts ∅;
  match globals !! name with
  | Some v => mret v
  | None => raise (mkExn ImportError ("cannot import name '" +:+ name +:+ "'"))
  end.

End PyModule.

(** ** python/send_to_api.py *)

Module SendToApi.
Import Py IO PyModule.

Definition API_URL : string := "http://localhost:3000/api/vehicle-speakers/import".

Section WithBuiltins.
Context `{Builtins}.

Definition send_to_tunexa (data : pyval) : M bool :=
  try_except
    (n ← lift (len data);
     print ("Sending " +:+ pretty n +:+ " brands to Tunexa API...");;
     response ← requests_post API_URL
                  [("Content-Type", "application/json")]
                  (Json.dumps data)
                  30;
     if status_code response =? 200 then
       result ← lift (response_json response);
       print (Json.nl +:+ "✅ Import successful!");;
       brands ← lift (get result "brands" (PyInt 0));
       print_decoded ("   Brands processed: " +:+ str brands);;
       models ← lift (get result "models" (PyInt 0));
       print_decoded ("   Models processed: " +:+ str models);;
       created ← lift (get result "created" (PyInt 0));
       print_decoded ("   Created: " +:+ str created);;
       updated ← lift (get result "updated" (PyInt 0));
       print_decoded ("   Updated: " +:+ str updated);;
       skipped ← lift (get result "skipped" (PyInt 0));
       print_decoded ("   Skipped: " +:+ str skipped);;
       errors ← lift (get result "errors" PyNone);
       (if truthy errors then
          errs ← lift (getitem result "errors");
          count ← lift (len errs);
          print ("   Errors: " +:+ pretty count);;
          errs' ← lift (getitem result "errors");
          first5 ← lift (slice_to 5 errs');
          items ← lift (iter first5);
          for_each items (fun err => print_decoded ("      - " +:+ str err))
        else mret tt);;
       mret true
     else
       print ("❌ Error: HTTP " +:+ pretty (status_code response));;
       print (text response);;
       mret false)
    [ (ConnectionError, fun _ =>
         print "❌ Connection error - is the Tunexa API server running on port 3000?";;
         print "   Run: npm start";;
         mret false);
      (Exception, fun e =>
         print ("❌ Error: " +:+ exc_str e);;
         mret false) ].

Definition default_filename : string := "auto_audio_db.json".

Definition export_to_json_file (data : pyval) (filename : string) : M unit :=
  write_file filename (Json.dump_indent2 data);;
  print ("✅ Exported to " +:+ filename);;
  print "   You can copy/paste this into http://localhost:3000/speakers".

(** The block under [if __name__ == "__main__":]. *)
Definition main_block (auto_audio_db : pyval) : M unit :=
  print ("🎵 Tunexa Auto Audio DB → API Import Tool" +:+ Json.nl);;
  print "Option 1: Send to API";;
  success ← send_to_tunexa auto_audio_db;
  if negb success then
    print (Json.nl +:+ "Option 2: Export to JSON file");;
    export_to_json_file auto_audio_db default_filename;;
    print (Json.nl +:+ "Then manually import via web UI:");;
    print "1. Open http://localhost:3000/speakers";;
    print "2. Scroll to 'Bulk Import' section";;
    print "3. Paste JSON from auto_audio_db.json";;
    print "4. Click 'Import JSON → DB'"
  else mret tt.

(** The script from its first line: the guarded import, then the main
    block.  [main_py] is the source of [python/main.py]. *)
Definition script (main_py : list logical_line) : M unit :=
  auto_audio_db ←
    try_except (import_from "main.py" main_py "auto_audio_db")
      [ (Exception, fun e =>
           raise (mkExn SystemExit
                    ("Nebolo možné importovať auto_audio_db z main.py: " +:+ exc_str e))) ];
  main_block auto_audio_db.

End WithBuiltins.
End SendToApi.

(** ** python/main.py *)

Module MainPy.
Import Py PyModule.

(** Line 6 *)
Definition auto_audio_db : pyval := display [].

(** Lines 14 to 124. *)
Definition vag_group_data : pyval :=
  display [
  ("Skoda", display [
    ("Octavia", PyList [
      display [("generacia", PyStr "Gen 3 (5E)"); ("roky", PyStr "2012-2019"); ("zakladny_system", PyStr "Základný (4-8 repro)"); ("premiovy_system", PyStr "Canton Sound System (10 repro)")];
      display [("generacia", PyStr "Gen 4 (NX)"); ("roky", PyStr "2020-súčasnosť"); ("zakladny_system", PyStr "Základný (8 repro)"); ("premiovy_system", PyStr "Canton Sound System (12 repro)")]
    ]);
    ("Superb", PyList [
      display [("generacia", PyStr "Gen 2 (3T) (Facelift)"); ("roky", PyStr "2013-2015"); ("zakladny_system", PyStr "'Swing' / 'Bolero' (8 repro)"); ("premiovy_system", PyStr "Škoda Sound System (10 repro)")];
      display [("generacia", PyStr "Gen 3 (3V)"); ("roky", PyStr "2015-2023"); ("zakladny_system", PyStr "'Swing' / 'Bolero' (8 repro)"); ("premiovy_system", PyStr "Canton Sound System (12 repro)")]
    ]);
    ("Kodiaq", PyList [
      display [("generacia", PyStr "Gen 1"); ("roky", PyStr "2016-2023"); ("zakladny_system", PyStr "Základný (8 repro)"); ("premiovy_system", PyStr "Canton Sound System (10 repro)")]
    ]);
    ("Fabia", PyList [
      display [("generacia", PyStr "Gen 3 (NJ)"); ("roky", PyStr "2014-2021"); ("zakladny_system", PyStr "Základný (4 repro)"); ("premiovy_system", PyStr "Škoda Surround (6 repro, Arkamys)")]
    ])
  ]);
  ("Volkswagen", display [
    ("Golf", PyList [
      display [("generacia", PyStr "Gen 7 (Mk7)"); ("roky", PyStr "2012-2019"); ("zakladny_system", PyStr "'Composition' (4-8 repro)"); ("premiovy_system", PyStr "Dynaudio Excite (10 repro)")];
      display [("generacia", PyStr "Gen 8 (Mk8)"); ("roky", PyStr "2020-súčasnosť"); ("zakladny_system", PyStr "Základný (7 repro)"); ("premiovy_system", PyStr "Harman Kardon (10 repro)")]
    ]);
    ("Passat", PyList [
      display [("generacia", PyStr "B7"); ("roky", PyStr "2010-2014"); ("zakladny_system", PyStr "'RCD 310' (8 repro)"); ("premiovy_system", PyStr "Dynaudio Confidence (10 repro)")];
      display [("generacia", PyStr "B8"); ("roky", PyStr "2014-2023"); ("zakladny_system", PyStr "'Composition Media' (8 repro)"); ("premiovy_system", PyStr "Dynaudio Confidence (12 repro)")]
    ]);
    ("Tiguan", PyList [
      display [("generacia", PyStr "Gen 1 (Facelift)"); ("roky", PyStr "2011-2016"); ("zakladny_system", PyStr "'RCD 310' (8 repro)"); ("premiovy_system", PyStr "Dynaudio (8 repro)")];
      display [("generacia", PyStr "Gen 2"); ("roky", PyStr "2016-2023"); ("zakladny_system", PyStr "Základný (8 repro)"); ("premiovy_system", PyStr "Dynaudio Excite (10 repro)")]
    ]);
    ("Polo", PyList [
      display [("generacia", PyStr "Gen 5 (6R/6C)"); ("roky", PyStr "2009-2017"); ("zakladny_system", PyStr "Základný (4-6 repro)"); ("premiovy_system", PyStr "Žiaden značkový prémiový systém")];
      display [("generacia", PyStr "Gen 6 (AW)"); ("roky", PyStr "2017-súčasnosť"); ("zakladny_system", PyStr "Základný (4-6 repro)"); ("premiovy_system", PyStr "BeatsAudio (6 repro + subwoofer)")]
    ]);
    ("Touareg", PyList [
      display [("generacia", PyStr "Gen 2 (7P)"); ("roky", PyStr "2010-2018"); ("zakladny_system", PyStr "Základný (8 repro)"); ("premiovy_system", PyStr "Dynaudio Confidence (12 repro)")];
      display [("generacia", PyStr "Gen 3 (CR)"); ("roky", PyStr "2018-súčasnosť"); ("zakladny_system", PyStr "Základný (8 repro)"); ("premiovy_system", PyStr "Dynaudio Consequence (14 repro)")]
    ])
  ]);
  ("Audi", display [
    ("A3", PyList [
      display [("generacia", PyStr "8V"); ("roky", PyStr "2012-2020"); ("zakladny_system", PyStr "Audi Sound System (10 repro)"); ("premiovy_system", PyStr "Bang & Olufsen Sound System (14 repro)")];
      display [("generacia", PyStr "8Y"); ("roky", PyStr "2020-súčasnosť"); ("zakladny_system", PyStr "Audi Sound System (10 repro)"); ("premiovy_system", PyStr "Bang & Olufsen 3D (15 repro)")]
    ]);
    ("A4", PyList [
      display [("generacia", PyStr "B8 (Facelift)"); ("roky", PyStr "2012-2015"); ("zakladny_system", PyStr "Audi Sound System (10 repro, 180W)"); ("premiovy_system", PyStr "Bang & Olufsen Sound System (14 repro, 505W)")];
      display [("generacia", PyStr "B9"); ("roky", PyStr "2016-súčasnosť"); ("zakladny_system", PyStr "Audi Sound System (10 repro, 180W)"); ("premiovy_system", PyStr "Bang & Olufsen 3D Sound System (19 repro, 755W)")]
    ]);
    ("A6", PyList [
      display [("generacia", PyStr "C7 (4G)"); ("roky", PyStr "2011-2018"); ("zakladny_system", PyStr "Audi Sound System (10 repro, 180W)"); ("premiovy_system", PyStr "Bose Surround (14 repro) ALEBO Bang & Olufsen Advanced 3D (15 repro)")];
      display [("generacia", PyStr "C8 (4K)"); ("roky", PyStr "2018-súčasnosť"); ("zakladny_system", PyStr "Audi Sound System (10 repro)"); ("premiovy_system", PyStr "Bang & Olufsen Premium 3D (16 repro) ALEBO Bang & Olufsen Advanced 3D (19 repro)")]
    ]);
    ("Q5", PyList [
      display [("generacia", PyStr "Gen 1 (8R Facelift)"); ("roky", PyStr "2012-2017"); ("zakladny_system", PyStr "Audi Sound System (10 repro)"); ("premiovy_system", PyStr "Bang & Olufsen Sound System (14 repro)")];
      display [("generacia", PyStr "Gen 2 (FY)"); ("roky", PyStr "2017-súčasnosť"); ("zakladny_system", PyStr "Audi Sound System (10 repro)"); ("premiovy_system", PyStr "Bang & Olufsen 3D (19 repro)")]
    ]);
    ("Q7", PyList [
      display [("generacia", PyStr "Gen 1 (4L Facelift)"); ("roky", PyStr "2009-2015"); ("zakladny_system", PyStr "Základný (8 repro)"); ("premiovy_system", PyStr "Bose Surround (14 repro) ALEBO Bang & Olufsen Advanced (14 repro)")];
      display [("generacia", PyStr "Gen 2 (4M)"); ("roky", PyStr "2015-súčasnosť"); ("zakladny_system", PyStr "Audi Sound System (10 repro)"); ("premiovy_system", PyStr "Bose 3D (19 repro) ALEBO Bang & Olufsen 3D Advanced (23 repro)")]
    ])
  ]);
  ("Seat", display [
    ("Leon", PyList [
      display [("generacia", PyStr "Gen 3 (5F)"); ("roky", PyStr "2012-2020"); ("zakladny_system", PyStr "Základný (6-8 repro)"); ("premiovy_system", PyStr "Seat Sound System (10 repro)")];
      display [("generacia", PyStr "Gen 4 (KL)"); ("roky", PyStr "2020-súčasnosť"); ("zakladny_system", PyStr "Základný (7 repro)"); ("premiovy_system", PyStr "BeatsAudio (10 repro, 340W)")]
    ]);
    ("Ibiza", PyList [
      display [("generacia", PyStr "Gen 4 (6J Facelift)"); ("roky", PyStr "2012-2017"); ("zakladny_system", PyStr "Základný (4-6 repro)"); ("premiovy_system", PyStr "Žiaden značkový prémiový systém")];
      display [("generacia", PyStr "Gen 5 (6F)"); ("roky", PyStr "2017-súčasnosť"); ("zakladny_system", PyStr "Základný (6 repro)"); ("premiovy_system", PyStr "BeatsAudio (7 repro, 300W)")]
    ]);
    ("Ateca", PyList [
      display [("generacia", PyStr "Gen 1"); ("roky", PyStr "2016-súčasnosť"); ("zakladny_system", PyStr "Základný (8 repro)"); ("premiovy_system", PyStr "Seat Sound System (10 repro)")]
    ])
  ]);
  ("Cupra", display [
    ("Formentor", PyList [
      display [("generacia", PyStr "Gen 1"); ("roky", PyStr "2020-súčasnosť"); ("zakladny_system", PyStr "Základný (7 repro)"); ("premiovy_system", PyStr "BeatsAudio (10 repro, 340W)")]
    ]);
    ("Born", PyList [
      display [("generacia", PyStr "Gen 1"); ("roky", PyStr "2021-súčasnosť"); ("zakladny_system", PyStr "Základný (5 repro)"); ("premiovy_system", PyStr "BeatsAudio (10 repro)")]
    ])
  ]);
  ("Porsche", display [
    ("911", PyList [
      display [("generacia", PyStr "991"); ("roky", PyStr "2011-2018"); ("zakladny_system", PyStr "Sound Package Plus (9 repro)"); ("premiovy_system", PyStr "Bose Surround (12 repro) ALEBO Burmester High-End (12 repro)")];
      display [("generacia", PyStr "992"); ("roky", PyStr "2019-súčasnosť"); ("zakladny_system", PyStr "Sound Package Plus (8 repro)"); ("premiovy_system", PyStr "Bose Surround (12 repro) ALEBO Burmester High-End (13 repro)")]
    ]);
    ("Macan", PyList [
      display [("generacia", PyStr "95B"); ("roky", PyStr "2014-súčasnosť"); ("zakladny_system", PyStr "Sound Package Plus (10 repro, 150W)"); ("premiovy_system", PyStr "Bose Surround (14 repro, 665W) ALEBO Burmester High-End (16 repro, 1000W+)")]
    ]);
    ("Cayenne", PyList [
      display [("generacia", PyStr "Gen 2 (92A)"); ("roky", PyStr "2010-2017"); ("zakladny_system", PyStr "Sound Package Plus (10 repro)"); ("premiovy_system", PyStr "Bose Surround (14 repro) ALEBO Burmester High-End (16 repro)")];
      display [("generacia", PyStr "Gen 3 (PO536)"); ("roky", PyStr "2017-súčasnosť"); ("zakladny_system", PyStr "Sound Package Plus (10 repro)"); ("premiovy_system", PyStr "Bose Surround (14 repro) ALEBO Burmester 3D High-End (21 repro)")]
    ]);
    ("Panamera", PyList [
      display [("generacia", PyStr "Gen 1 (970)"); ("roky", PyStr "2009-2016"); ("zakladny_system", PyStr "Sound Package Plus (10 repro)"); ("premiovy_system", PyStr "Bose Surround (14 repro) ALEBO Burmester High-End (16 repro)")];
      display [("generacia", PyStr "Gen 2 (971)"); ("roky", PyStr "2016-súčasnosť"); ("zakladny_system", PyStr "Hi-Fi (10 repro)"); ("premiovy_system", PyStr "Bose Surround (14 repro) ALEBO Burmester 3D High-End (21 repro)")]
    ])
  ]);
  ("Bentley", display [
    ("Continental GT", PyList [
      display [("generacia", PyStr "Gen 3"); ("roky", PyStr "2018-súčasnosť"); ("zakladny_system", PyStr "Bentley Signature (10 repro, 650W)"); ("premiovy_system", PyStr "Bang & Olufsen for Bentley (16 repro, 1500W) ALEBO Naim for Bentley (18 repro, 2200W)")]
    ])
  ])
  ].

(** Lines 128 to 325. *)
Definition german_premium_data : pyval :=
  display [
  ("BMW", display [
    ("Rad 1", PyList [
      display [("generacia", PyStr "F20/F21"); ("roky", PyStr "2011-2019"); ("zakladny_system", PyStr "Základný (6 repro) alebo HiFi (7 repro)"); ("premiovy_system", PyStr "Harman Kardon (12 repro)")]
    ]);
    ("Rad 3", PyList [
      display [("generacia", PyStr "F30/F31"); ("roky", PyStr "2012-2018"); ("zakladny_system", PyStr "Základný (6 repro) alebo HiFi (9 repro, 205W)"); ("premiovy_system", PyStr "Harman Kardon Surround (16 repro, 600W)")];
      display [("generacia", PyStr "G20/G21"); ("roky", PyStr "2019-súčasnosť"); ("zakladny_system", PyStr "Základný (6 repro) alebo HiFi (10 repro, 205W)"); ("premiovy_system", PyStr "Harman Kardon Surround (16 repro, 464W)")]
    ]);
    ("Rad 5", PyList [
      display [("generacia", PyStr "F10/F11 (Facelift)"); ("roky", PyStr "2013-2016"); ("zakladny_system", PyStr "HiFi (12 repro, 205W)"); ("premiovy_system", PyStr "Harman Kardon (16 repro, 600W) ALEBO Bang & Olufsen High End (16 repro, 1200W)")];
      display [("generacia", PyStr "G30/G31"); ("roky", PyStr "2017-2023"); ("zakladny_system", PyStr "HiFi (12 repro, 205W)"); ("premiovy_system", PyStr "Harman Kardon (16 repro, 600W) ALEBO Bowers & Wilkins Diamond (16 repro, 1400W)")]
    ]);
    ("X1", PyList [
      display [("generacia", PyStr "E84"); ("roky", PyStr "2009-2015"); ("zakladny_system", PyStr "Základný (6 repro) alebo HiFi (8 repro)"); ("premiovy_system", PyStr "Harman Kardon (11 repro)")];
      display [("generacia", PyStr "F48"); ("roky", PyStr "2015-2022"); ("zakladny_system", PyStr "Základný (6 repro) alebo HiFi (7 repro)"); ("premiovy_system", PyStr "Harman Kardon (12 repro)")]
    ]);
    ("X3", PyList [
      display [("generacia", PyStr "F25"); ("roky", PyStr "2010-2017"); ("zakladny_system", PyStr "Základný (6 repro) alebo HiFi (9 repro)"); ("premiovy_system", PyStr "Harman Kardon (16 repro)")];
      display [("generacia", PyStr "G01"); ("roky", PyStr "2017-súčasnosť"); ("zakladny_system", PyStr "HiFi (12 repro)"); ("premiovy_system", PyStr "Harman Kardon (16 repro)")]
    ]);
    ("X5", PyList [
      display [("generacia", PyStr "F15"); ("roky", PyStr "2013-2018"); ("zakladny_system", PyStr "HiFi (9 repro)"); ("premiovy_system", PyStr "Harman Kardon (16 repro) ALEBO Bang & Olufsen High End (16 repro)")];
      display [("generacia", PyStr "G05"); ("roky", PyStr "2018-súčasnosť"); ("zakladny_system", PyStr "HiFi (10 repro)"); ("premiovy_system", PyStr "Harman Kardon (16 repro) ALEBO Bowers & Wilkins Diamond (20 repro)")]
    ])
  ]);
  ("Mercedes-Benz", display [
    ("A-Class", PyList [
      display [("generacia", PyStr "W176"); ("roky", PyStr "2012-2018"); ("zakladny_system", PyStr "Audio 20 (6 repro)"); ("premiovy_system", PyStr "Harman Kardon Logic7 (12 repro)")];
      display [("generacia", PyStr "W177"); ("roky", PyStr "2018-súčasnosť"); ("zakladny_system", PyStr "Základný (6 repro) alebo Advanced (10 repro)"); ("premiovy_system", PyStr "Burmester Surround (12 repro)")]
    ]);
    ("C-Class", PyList [
      display [("generacia", PyStr "W204 (Facelift)"); ("roky", PyStr "2011-2014"); ("zakladny_system", PyStr "Audio 20 (cca 8 repro)"); ("premiovy_system", PyStr "Harman Kardon Logic7 (12 repro)")];
      display [("generacia", PyStr "W205"); ("roky", PyStr "2014-2021"); ("zakladny_system", PyStr "Audio 20 (cca 8 repro)"); ("premiovy_system", PyStr "Burmester Surround (13 repro, 590W)")];
      display [("generacia", PyStr "W206"); ("roky", PyStr "2021-súčasnosť"); ("zakladny_system", PyStr "Základný systém"); ("premiovy_system", PyStr "Burmester 3D Surround (15 repro, 710W)")]
    ]);
    ("E-Class", PyList [
      display [("generacia", PyStr "W212 (Facelift)"); ("roky", PyStr "2013-2016"); ("zakladny_system", PyStr "Audio 20"); ("premiovy_system", PyStr "Harman Kardon Logic7 (14 repro)")];
      display [("generacia", PyStr "W213"); ("roky", PyStr "2016-2023"); ("zakladny_system", PyStr "Základný (8 repro)"); ("premiovy_system", PyStr "Burmester Surround (13 repro) ALEBO Burmester High-End 3D (23 repro)")]
    ]);
    ("S-Class", PyList [
      display [("generacia", PyStr "W222"); ("roky", PyStr "2013-2020"); ("zakladny_system", PyStr "Základný (10 repro)"); ("premiovy_system", PyStr "Burmester Surround (13 repro) ALEBO Burmester High-End 3D (24 repro)")];
      display [("generacia", PyStr "W223"); ("roky", PyStr "2020-súčasnosť"); ("zakladny_system", PyStr "Burmester 3D Surround (15 repro)"); ("premiovy_system", PyStr "Burmester High-End 4D (31 repro)")]
    ]);
    ("GLC-Class", PyList [
      display [("generacia", PyStr "X253"); ("roky", PyStr "2015-2022"); ("zakladny_system", PyStr "Audio 20 (8 repro)"); ("premiovy_system", PyStr "Burmester Surround (13 repro, 590W)")]
    ]);
    ("GLE-Class", PyList [
      display [("generacia", PyStr "W166 (ML-Class)"); ("roky", PyStr "2011-2018"); ("zakladny_system", PyStr "Audio 20"); ("premiovy_system", PyStr "Harman Kardon Logic7 (14 repro)")];
      display [("generacia", PyStr "V167"); ("roky", PyStr "2019-súčasnosť"); ("zakladny_system", PyStr "Advanced (9 repro)"); ("premiovy_system", PyStr "Burmester Surround (13 repro)")]
    ])
  ]);
  ("Toyota", display [
    ("Yaris", PyList [
      display [("generacia", PyStr "XP130 (Gen 3)"); ("roky", PyStr "2011-2019"); ("zakladny_system", PyStr "Toyota Touch (4-6 repro)"); ("premiovy_system", PyStr "Žiaden značkový prémiový systém")];
      display [("generacia", PyStr "XP210 (Gen 4)"); ("roky", PyStr "2020-súčasnosť"); ("zakladny_system", PyStr "Základný (6 repro)"); ("premiovy_system", PyStr "JBL (8 repro)")]
    ]);
    ("Corolla", PyList [
      display [("generacia", PyStr "E170 (Gen 11)"); ("roky", PyStr "2013-2018"); ("zakladny_system", PyStr "Toyota Touch 2 (6 repro)"); ("premiovy_system", PyStr "Žiaden značkový prémiový systém (v EÚ)")];
      display [("generacia", PyStr "E210 (Gen 12)"); ("roky", PyStr "2018-súčasnosť"); ("zakladny_system", PyStr "Základný (6 repro)"); ("premiovy_system", PyStr "JBL (8 repro)")]
    ]);
    ("C-HR", PyList [
      display [("generacia", PyStr "Gen 1"); ("roky", PyStr "2016-2023"); ("zakladny_system", PyStr "Základný (6 repro)"); ("premiovy_system", PyStr "JBL (9 repro)")]
    ]);
    ("RAV4", PyList [
      display [("generacia", PyStr "XA40 (Gen 4)"); ("roky", PyStr "2013-2018"); ("zakladny_system", PyStr "Toyota Touch 2 (6 repro)"); ("premiovy_system", PyStr "JBL GreenEdge (11 repro)")];
      display [("generacia", PyStr "XA50 (Gen 5)"); ("roky", PyStr "2019-súčasnosť"); ("zakladny_system", PyStr "Základný (6 repro)"); ("premiovy_system", PyStr "JBL (11 repro)")]
    ])
  ]);
  ("Lexus", display [
    ("IS", PyList [
      display [("generacia", PyStr "XE30"); ("roky", PyStr "2013-súčasnosť"); ("zakladny_system", PyStr "Lexus Premium (Pioneer) (10 repro)"); ("premiovy_system", PyStr "Mark Levinson Premium Surround (15 repro, 835W)")]
    ]);
    ("NX", PyList [
      display [("generacia", PyStr "AZ10 (Gen 1)"); ("roky", PyStr "2014-2021"); ("zakladny_system", PyStr "Lexus Premium (Pioneer) (10 repro)"); ("premiovy_system", PyStr "Mark Levinson (14 repro)")];
      display [("generacia", PyStr "AZ20 (Gen 2)"); ("roky", PyStr "2021-súčasnosť"); ("zakladny_system", PyStr "Lexus Premium (10 repro)"); ("premiovy_system", PyStr "Mark Levinson (17 repro)")]
    ]);
    ("RX", PyList [
      display [("generacia", PyStr "AL10 (Gen 3 facelift)"); ("roky", PyStr "2012-2015"); ("zakladny_system", PyStr "Lexus Premium (9 repro)"); ("premiovy_system", PyStr "Mark Levinson (15 repro)")];
      display [("generacia", PyStr "AL20 (Gen 4)"); ("roky", PyStr "2015-2022"); ("zakladny_system", PyStr "Lexus Premium (9 alebo 12 repro)"); ("premiovy_system", PyStr "Mark Levinson (15 repro)")]
    ])
  ]);
  ("Honda", display [
    ("Civic", PyList [
      display [("generacia", PyStr "Gen 9 (FK)"); ("roky", PyStr "2012-2017"); ("zakladny_system", PyStr "Základný (4-6 repro)"); ("premiovy_system", PyStr "Honda Premium Audio (8 repro)")];
      display [("generacia", PyStr "Gen 10 (FK)"); ("roky", PyStr "2017-2022"); ("zakladny_system", PyStr "Základný (8 repro)"); ("premiovy_system", PyStr "Honda Premium Audio (11 repro)")];
      display [("generacia", PyStr "Gen 11 (FE/FL)"); ("roky", PyStr "2022-súčasnosť"); ("zakladny_system", PyStr "Základný (8 repro)"); ("premiovy_system", PyStr "Bose Centerpoint (12 repro)")]
    ]);
    ("CR-V", PyList [
      display [("generacia", PyStr "Gen 4 (RM)"); ("roky", PyStr "2012-2018"); ("zakladny_system", PyStr "Základný (6 repro)"); ("premiovy_system", PyStr "Premium Audio System (7 repro)")];
      display [("generacia", PyStr "Gen 5 (RW)"); ("roky", PyStr "2018-2023"); ("zakladny_system", PyStr "Základný (8 repro)"); ("premiovy_system", PyStr "Honda Premium Audio (9 repro)")]
    ])
  ]);
  ("Nissan", display [
    ("Juke", PyList [
      display [("generacia", PyStr "F16 (Gen 2)"); ("roky", PyStr "2019-súčasnosť"); ("zakladny_system", PyStr "Základný (4 alebo 6 repro)"); ("premiovy_system", PyStr "Bose Personal Plus (8 repro)")]
    ]);
    ("Qashqai", PyList [
      display [("generacia", PyStr "J11 (Gen 2)"); ("roky", PyStr "2013-2021"); ("zakladny_system", PyStr "Základný (4 alebo 6 repro)"); ("premiovy_system", PyStr "Bose (8 repro)")];
      display [("generacia", PyStr "J12 (Gen 3)"); ("roky", PyStr "2021-súčasnosť"); ("zakladny_system", PyStr "Základný (6 repro)"); ("premiovy_system", PyStr "Bose Premium (10 repro)")]
    ]);
    ("X-Trail", PyList [
      display [("generacia", PyStr "T32 (Gen 3)"); ("roky", PyStr "2013-2021"); ("zakladny_system", PyStr "Základný (6 repro)"); ("premiovy_system", PyStr "Bose (8 repro)")]
    ])
  ]);
  ("Mazda", display [
    ("Mazda 3", PyList [
      display [("generacia", PyStr "BM/BN (Gen 3)"); ("roky", PyStr "2013-2018"); ("zakladny_system", PyStr "Základný (4 alebo 6 repro)"); ("premiovy_system", PyStr "Bose Centerpoint 2 (9 repro)")];
      display [("generacia", PyStr "BP (Gen 4)"); ("roky", PyStr "2019-súčasnosť"); ("zakladny_system", PyStr "Mazda Harmonic Acoustics (8 repro)"); ("premiovy_system", PyStr "Bose (12 repro)")]
    ]);
    ("Mazda 6", PyList [
      display [("generacia", PyStr "GJ/GL (Gen 3)"); ("roky", PyStr "2012-súčasnosť"); ("zakladny_system", PyStr "Základný (4 alebo 6 repro)"); ("premiovy_system", PyStr "Bose Centerpoint 2 (11 repro)")]
    ]);
    ("CX-5", PyList [
      display [("generacia", PyStr "KE (Gen 1)"); ("roky", PyStr "2012-2017"); ("zakladny_system", PyStr "Základný (6 repro)"); ("premiovy_system", PyStr "Bose (9 repro)")];
      display [("generacia", PyStr "KF (Gen 2)"); ("roky", PyStr "2017-súčasnosť"); ("zakladny_system", PyStr "Základný (6 repro)"); ("premiovy_system", PyStr "Bose (10 repro)")]
    ])
  ]);
  ("Subaru", display [
    ("Outback", PyList [
      display [("generacia", PyStr "BS (Gen 5)"); ("roky", PyStr "2014-2019"); ("zakladny_system", PyStr "Základný (6 repro)"); ("premiovy_system", PyStr "Harman Kardon (12 repro)")]
    ]);
    ("Forester", PyList [
      display [("generacia", PyStr "SJ (Gen 4)"); ("roky", PyStr "2012-2018"); ("zakladny_system", PyStr "Základný (4 alebo 6 repro)"); ("premiovy_system", PyStr "Harman Kardon (8 repro)")]
    ])
  ]);
  ("Mitsubishi", display [
    ("ASX", PyList [
      display [("generacia", PyStr "Gen 1 (viacero faceliftov)"); ("roky", PyStr "2010-súčasnosť"); ("zakladny_system", PyStr "Základný (4 alebo 6 repro)"); ("premiovy_system", PyStr "Rockford Fosgate (9 repro, 710W)")]
    ]);
    ("Outlander", PyList [
      display [("generacia", PyStr "Gen 3 (PHEV v EÚ)"); ("roky", PyStr "2012-2021"); ("zakladny_system", PyStr "Základný (6 repro)"); ("premiovy_system", PyStr "Rockford Fosgate (9 repro, 710W)")]
    ])
  ]);
  ("Suzuki", display [
    ("Vitara", PyList [
      display [("generacia", PyStr "Gen 4"); ("roky", PyStr "2015-súčasnosť"); ("zakladny_system", PyStr "Základný (4 repro)"); ("premiovy_system", PyStr "Rozšírený systém (6 repro, 2x tweeter)")]
    ]);
    ("S-Cross", PyList [
      display [("generacia", PyStr "Gen 2"); ("roky", PyStr "2013-2021"); ("zakladny_system", PyStr "Základný (4 repro)"); ("premiovy_system", PyStr "Rozšírený systém (6 repro)")]
    ])
  ]);
  ("Hyundai", display [
    ("i20", PyList [
      display [("generacia", PyStr "Gen 2 (GB)"); ("roky", PyStr "2014-2020"); ("zakladny_system", PyStr "Základný (4-6 repro)"); ("premiovy_system", PyStr "Žiaden značkový prémiový systém")];
      display [("generacia", PyStr "Gen 3 (BC3)"); ("roky", PyStr "2020-súčasnosť"); ("zakladny_system", PyStr "Základný (6 repro)"); ("premiovy_system", PyStr "Bose Premium Sound (8 repro)")]
    ]);
    ("i30", PyList [
      display [("generacia", PyStr "GD (Gen 2)"); ("roky", PyStr "2012-2017"); ("zakladny_system", PyStr "Základný (4 alebo 6 repro)"); ("premiovy_system", PyStr "Príplatkový systém (6 repro + zosilňovač)")];
      display [("generacia", PyStr "PD (Gen 3)"); ("roky", PyStr "2017-súčasnosť"); ("zakladny_system", PyStr "Základný (4 alebo 6 repro)"); ("premiovy_system", PyStr "Žiaden značkový prémiový systém (na väčšine EÚ trhov)")]
    ]);
    ("Tucson", PyList [
      display [("generacia", PyStr "ix35 (Gen 2)"); ("roky", PyStr "2009-2015"); ("zakladny_system", PyStr "Základný (6 repro)"); ("premiovy_system", PyStr "Infinity Premium Sound (7 repro)")];
      display [("generacia", PyStr "TL (Gen 3)"); ("roky", PyStr "2015-2020"); ("zakladny_system", PyStr "Základný (6 repro)"); ("premiovy_system", PyStr "Infinity Premium Sound (8 repro)")];
      display [("generacia", PyStr "NX4 (Gen 4)"); ("roky", PyStr "2020-súčasnosť"); ("zakladny_system", PyStr "Základný (6 repro)"); ("premiovy_system", PyStr "Krell Premium Sound (8 repro)")]
    ]);
    ("Santa Fe", PyList [
      display [("generacia", PyStr "Gen 3 (DM)"); ("roky", PyStr "2012-2018"); ("zakladny_system", PyStr "Základný (6 repro)"); ("premiovy_system", PyStr "Infinity Premium Sound (10 repro)")];
      display [("generacia", PyStr "Gen 4 (TM)"); ("roky", PyStr "2018-súčasnosť"); ("zakladny_system", PyStr "Základný (6 repro)"); ("premiovy_system", PyStr "Krell Premium Sound (10 repro)")]
    ])
  ]);
  ("Kia", display [
    ("Ceed", PyList [
      display [("generacia", PyStr "JD (Gen 2)"); ("roky", PyStr "2012-2018"); ("zakladny_system", PyStr "Základný (6 repro)"); ("premiovy_system", PyStr "Infinity Premium Sound (7 repro, na niektorých trhoch)")];
      display [("generacia", PyStr "CD (Gen 3)"); ("roky", PyStr "2018-súčasnosť"); ("zakladny_system", PyStr "Základný (6 repro)"); ("premiovy_system", PyStr "JBL Premium Sound (8 repro)")]
    ]);
    ("Sportage", PyList [
      display [("generacia", PyStr "SL (Gen 3)"); ("roky", PyStr "2010-2015"); ("zakladny_system", PyStr "Základný (6 repro)"); ("premiovy_system", PyStr "Infinity Premium Sound (7 repro)")];
      display [("generacia", PyStr "QL (Gen 4)"); ("roky", PyStr "2016-2021"); ("zakladny_system", PyStr "Základný (6 repro)"); ("premiovy_system", PyStr "JBL Premium Sound (8 repro)")];
      display [("generacia", PyStr "NQ5 (Gen 5)"); ("roky", PyStr "2021-súčasnosť"); ("zakladny_system", PyStr "Základný (6 repro)"); ("premiovy_system", PyStr "Harman Kardon Premium Sound (8 repro)")]
    ]);
    ("Sorento", PyList [
      display [("generacia", PyStr "Gen 2 (XM Facelift)"); ("roky", PyStr "2012-2014"); ("zakladny_system", PyStr "Základný (6 repro)"); ("premiovy_system", PyStr "Infinity Premium Sound (10 repro)")];
      display [("generacia", PyStr "Gen 3 (UM)"); ("roky", PyStr "2015-2020"); ("zakladny_system", PyStr "Základný (6 repro)"); ("premiovy_system", PyStr "Infinity Premium Sound (10 repro)")];
      display [("generacia", PyStr "Gen 4 (MQ4)"); ("roky", PyStr "2020-súčasnosť"); ("zakladny_system", PyStr "Základný (6 repro)"); ("premiovy_system", PyStr "Bose Premium Sound (12 repro)")]
    ])
  ]);
  ("Genesis", display [
    ("G70", PyList [
      display [("generacia", PyStr "Gen 1"); ("roky", PyStr "2017-súčasnosť (vstup do EÚ cca 2021)"); ("zakladny_system", PyStr "Základný (9 repro)"); ("premiovy_system", PyStr "Lexicon (15 repro)")]
    ]);
    ("GV80", PyList [
      display [("generacia", PyStr "Gen 1"); ("roky", PyStr "2020-súčasnosť (vstup do EÚ cca 2021)"); ("zakladny_system", PyStr "Genesis Premium (12 repro)"); ("premiovy_system", PyStr "Lexicon (21 repro)")]
    ])
  ])
  ].

(** Lines 326 to 418: brand entries after the closing brace of line 325, the
    first one behind a comma. *)
Definition entries_from_326 : list (string * pyval) :=
  [
  ("Peugeot", display [
    ("208", PyList [
      display [("generacia", PyStr "Gen 1"); ("roky", PyStr "2012-2019"); ("zakladny_system", PyStr "Základný (4-6 repro)"); ("premiovy_system", PyStr "JBL Hi-Fi (8 repro)")];
      display [("generacia", PyStr "Gen 2"); ("roky", PyStr "2019-súčasnosť"); ("zakladny_system", PyStr "Základný (6 repro)"); ("premiovy_system", PyStr "Focal (10 repro) - (menej časté)")]
    ]);
    ("308", PyList [
      display [("generacia", PyStr "T9 (Gen 2)"); ("roky", PyStr "2013-2021"); ("zakladny_system", PyStr "Základný (6 repro)"); ("premiovy_system", PyStr "Denon Hi-Fi (9 repro)")];
      display [("generacia", PyStr "P5 (Gen 3)"); ("roky", PyStr "2021-súčasnosť"); ("zakladny_system", PyStr "Základný (6 repro)"); ("premiovy_system", PyStr "Focal Premium Hi-Fi (10 repro)")]
    ]);
    ("3008", PyList [
      display [("generacia", PyStr "Gen 1"); ("roky", PyStr "2008-2016"); ("zakladny_system", PyStr "Základný (6 repro)"); ("premiovy_system", PyStr "JBL Hi-Fi (8 repro)")];
      display [("generacia", PyStr "Gen 2"); ("roky", PyStr "2016-súčasnosť"); ("zakladny_system", PyStr "Základný (8 repro)"); ("premiovy_system", PyStr "Focal Premium Hi-Fi (10 repro)")]
    ]);
    ("508", PyList [
      display [("generacia", PyStr "Gen 1"); ("roky", PyStr "2011-2017"); ("zakladny_system", PyStr "Základný (8 repro)"); ("premiovy_system", PyStr "JBL Hi-Fi (10 repro)")];
      display [("generacia", PyStr "Gen 2"); ("roky", PyStr "2018-súčasnosť"); ("zakladny_system", PyStr "Základný (8 repro)"); ("premiovy_system", PyStr "Focal Premium Hi-Fi (10 repro)")]
    ])
  ]);
  ("Citroen", display [
    ("C3", PyList [
      display [("generacia", PyStr "Gen 3"); ("roky", PyStr "2016-súčasnosť"); ("zakladny_system", PyStr "Základný (4-6 repro)"); ("premiovy_system", PyStr "Žiaden značkový prémiový systém")]
    ]);
    ("C4", PyList [
      display [("generacia", PyStr "Gen 2"); ("roky", PyStr "2010-2018"); ("zakladny_system", PyStr "Základný (6 repro)"); ("premiovy_system", PyStr "Denon Hi-Fi (9 repro, s DSP)")];
      display [("generacia", PyStr "Gen 3"); ("roky", PyStr "2020-súčasnosť"); ("zakladny_system", PyStr "Základný (6 repro)"); ("premiovy_system", PyStr "Hi-Fi System (8 repro s Arkamys processing)")]
    ]);
    ("C5 Aircross", PyList [
      display [("generacia", PyStr "Gen 1"); ("roky", PyStr "2017-súčasnosť"); ("zakladny_system", PyStr "Základný (6 repro)"); ("premiovy_system", PyStr "Citroën HiFi System (8 repro, Arkamys)")]
    ])
  ]);
  ("DS Automobiles", display [
    ("DS 4", PyList [
      display [("generacia", PyStr "Gen 2"); ("roky", PyStr "2021-súčasnosť"); ("zakladny_system", PyStr "Základný (8 repro)"); ("premiovy_system", PyStr "Focal Electra (14 repro)")]
    ]);
    ("DS 7 Crossback", PyList [
      display [("generacia", PyStr "Gen 1"); ("roky", PyStr "2017-súčasnosť"); ("zakladny_system", PyStr "Základný (8 repro, Arkamys)"); ("premiovy_system", PyStr "Focal Electra (14 repro, 515W)")]
    ])
  ]);
  ("Opel", display [
    ("Corsa", PyList [
      display [("generacia", PyStr "E"); ("roky", PyStr "2014-2019"); ("zakladny_system", PyStr "Základný (4-6 repro)"); ("premiovy_system", PyStr "Žiaden značkový prémiový systém")];
      display [("generacia", PyStr "F"); ("roky", PyStr "2019-súčasnosť"); ("zakladny_system", PyStr "Základný (4-6 repro)"); ("premiovy_system", PyStr "Žiaden značkový prémiový systém")]
    ]);
    ("Astra", PyList [
      display [("generacia", PyStr "J (Facelift)"); ("roky", PyStr "2012-2015"); ("zakladny_system", PyStr "Základný (6 repro)"); ("premiovy_system", PyStr "Infinity Sound System (7 repro)")];
      display [("generacia", PyStr "K"); ("roky", PyStr "2015-2021"); ("zakladny_system", PyStr "Základný (6 repro)"); ("premiovy_system", PyStr "Bose (7 repro)")];
      display [("generacia", PyStr "L"); ("roky", PyStr "2021-súčasnosť"); ("zakladny_system", PyStr "Základný (6 repro)"); ("premiovy_system", PyStr "Hi-Fi Sound System (8 repro) (Neznačkový)")]
    ]);
    ("Insignia", PyList [
      display [("generacia", PyStr "A (Facelift)"); ("roky", PyStr "2013-2017"); ("zakladny_system", PyStr "Základný (7 repro)"); ("premiovy_system", PyStr "Bose (9 repro)")];
      display [("generacia", PyStr "B"); ("roky", PyStr "2017-2023"); ("zakladny_system", PyStr "Základný (7 repro)"); ("premiovy_system", PyStr "Bose (8 repro)")]
    ])
  ]);
  ("Fiat", display [
    ("500", PyList [
      display [("generacia", PyStr "Moderný (Facelift)"); ("roky", PyStr "2016-súčasnosť (spaľovací)"); ("zakladny_system", PyStr "Základný (4-6 repro)"); ("premiovy_system", PyStr "BeatsAudio (7 repro, 440W)")];
      display [("generacia", PyStr "500e (Elektrický)"); ("roky", PyStr "2020-súčasnosť"); ("zakladny_system", PyStr "Základný (4 repro)"); ("premiovy_system", PyStr "JBL Premium Audio (7 repro)")]
    ]);
    ("Tipo", PyList [
      display [("generacia", PyStr "Aegae"); ("roky", PyStr "2015-súčasnosť"); ("zakladny_system", PyStr "Uconnect (4 alebo 6 repro)"); ("premiovy_system", PyStr "Žiaden značkový prémiový systém")]
    ])
  ]);
  ("Alfa Romeo", display [
    ("Giulia", PyList [
      display [("generacia", PyStr "952"); ("roky", PyStr "2016-súčasnosť"); ("zakladny_system", PyStr "Základný (8 repro)"); ("premiovy_system", PyStr "Harman Kardon (14 repro, 900W)")]
    ]);
    ("Stelvio", PyList [
      display [("generacia", PyStr "949"); ("roky", PyStr "2017-súčasnosť"); ("zakladny_system", PyStr "Základný (8 repro)"); ("premiovy_system", PyStr "Harman Kardon (14 repro, 900W)")]
    ]);
    ("Tonale", PyList [
      display [("generacia", PyStr "Gen 1"); ("roky", PyStr "2022-súčasnosť"); ("zakladny_system", PyStr "Základný (6 repro)"); ("premiovy_system", PyStr "Harman Kardon (14 repro)")]
    ])
  ]);
  ("Maserati", display [
    ("Ghibli", PyList [
      display [("generacia", PyStr "M157"); ("roky", PyStr "2013-súčasnosť"); ("zakladny_system", PyStr "Základný (8 repro)"); ("premiovy_system", PyStr "Harman Kardon (10 repro, 900W) ALEBO Bowers & Wilkins (15 repro, 1280W)")]
    ])
  ]);
  ("Jeep", display [
    ("Renegade", PyList [
      display [("generacia", PyStr "Gen 1"); ("roky", PyStr "2014-súčasnosť"); ("zakladny_system", PyStr "Základný (6 repro)"); ("premiovy_system", PyStr "BeatsAudio (9 repro, 506W)")]
    ]);
    ("Compass", PyList [
      display [("generacia", PyStr "MP"); ("roky", PyStr "2017-súčasnosť"); ("zakladny_system", PyStr "Základný (6 repro)"); ("premiovy_system", PyStr "BeatsAudio (9 repro, 506W)")]
    ])
  ])
  ].

(** Lines 420 to 508: brand entries after the closing brace of line 419. *)
Definition entries_from_420 : list (string * pyval) :=
  [
  ("Renault", display [
    ("Clio", PyList [
      display [("generacia", PyStr "Gen 4"); ("roky", PyStr "2012-2019"); ("zakladny_system", PyStr "Základný (4 repro) alebo R-Link (6 repro)"); ("premiovy_system", PyStr "Bose Sound System (7 repro)")];
      display [("generacia", PyStr "Gen 5"); ("roky", PyStr "2019-súčasnosť"); ("zakladny_system", PyStr "Základný (6 repro)"); ("premiovy_system", PyStr "Bose Sound System (9 repro)")]
    ]);
    ("Megane", PyList [
      display [("generacia", PyStr "Gen 3 (Facelift)"); ("roky", PyStr "2012-2016"); ("zakladny_system", PyStr "Základný (4-6 repro)"); ("premiovy_system", PyStr "Bose Sound System (9 repro)")];
      display [("generacia", PyStr "Gen 4 (Spaľovací)"); ("roky", PyStr "2016-2023"); ("zakladny_system", PyStr "Základný (4-8 repro)"); ("premiovy_system", PyStr "Bose Sound System (9 repro)")];
      display [("generacia", PyStr "Megane E-Tech (Elektrický)"); ("roky", PyStr "2022-súčasnosť"); ("zakladny_system", PyStr "Arkamys (6 repro)"); ("premiovy_system", PyStr "Harman Kardon (9 repro, 410W)")]
    ]);
    ("Captur", PyList [
      display [("generacia", PyStr "Gen 1"); ("roky", PyStr "2013-2019"); ("zakladny_system", PyStr "Základný (4-6 repro)"); ("premiovy_system", PyStr "Bose Sound System (7 repro)")];
      display [("generacia", PyStr "Gen 2"); ("roky", PyStr "2019-súčasnosť"); ("zakladny_system", PyStr "Základný (6 repro)"); ("premiovy_system", PyStr "Bose Sound System (9 repro)")]
    ]);
    ("Austral", PyList [
      display [("generacia", PyStr "Gen 1"); ("roky", PyStr "2022-súčasnosť"); ("zakladny_system", PyStr "Arkamys (8 repro)"); ("premiovy_system", PyStr "Harman Kardon (12 repro)")]
    ])
  ]);
  ("Dacia", display [
    ("Duster", PyList [
      display [("generacia", PyStr "Gen 1 (Facelift)"); ("roky", PyStr "2013-2017"); ("zakladny_system", PyStr "Základný (2-4 repro)"); ("premiovy_system", PyStr "Media Nav (4 repro)")];
      display [("generacia", PyStr "Gen 2"); ("roky", PyStr "2017-2023"); ("zakladny_system", PyStr "Základný (4 repro)"); ("premiovy_system", PyStr "Media Nav (6 repro)")]
    ]);
    ("Sandero", PyList [
      display [("generacia", PyStr "Gen 2"); ("roky", PyStr "2012-2020"); ("zakladny_system", PyStr "Základný (2-4 repro)"); ("premiovy_system", PyStr "Media Nav (4 repro)")];
      display [("generacia", PyStr "Gen 3"); ("roky", PyStr "2020-súčasnosť"); ("zakladny_system", PyStr "Základný (4 repro)"); ("premiovy_system", PyStr "Media Nav (6 repro)")]
    ])
  ]);
  ("Volvo", display [
    ("S60/V60", PyList [
      display [("generacia", PyStr "Gen 2"); ("roky", PyStr "2010-2018"); ("zakladny_system", PyStr "High Performance (8 repro)"); ("premiovy_system", PyStr "Harman Kardon (12 repro)")];
      display [("generacia", PyStr "Gen 3"); ("roky", PyStr "2019-súčasnosť"); ("zakladny_system", PyStr "High Performance (10 repro)"); ("premiovy_system", PyStr "Harman Kardon (14 repro) ALEBO Bowers & Wilkins (15 repro)")]
    ]);
    ("S90/V90", PyList [
      display [("generacia", PyStr "Gen 2"); ("roky", PyStr "2016-súčasnosť"); ("zakladny_system", PyStr "High Performance (10 repro)"); ("premiovy_system", PyStr "Harman Kardon (14 repro) ALEBO Bowers & Wilkins (19 repro)")]
    ]);
    ("XC60", PyList [
      display [("generacia", PyStr "Gen 1"); ("roky", PyStr "2008-2017"); ("zakladny_system", PyStr "High Performance (8 repro)"); ("premiovy_system", PyStr "Harman Kardon (12 repro)")];
      display [("generacia", PyStr "Gen 2"); ("roky", PyStr "2017-súčasnosť"); ("zakladny_system", PyStr "High Performance (10 repro)"); ("premiovy_system", PyStr "Harman Kardon (14 repro) ALEBO Bowers & Wilkins (15 repro)")]
    ]);
    ("XC90", PyList [
      display [("generacia", PyStr "Gen 2"); ("roky", PyStr "2015-súčasnosť"); ("zakladny_system", PyStr "High Performance (10 repro)"); ("premiovy_system", PyStr "Harman Kardon (14 repro) ALEBO Bowers & Wilkins (19 repro)")]
    ])
  ]);
  ("Ford", display [
    ("Fiesta", PyList [
      display [("generacia", PyStr "Mk7"); ("roky", PyStr "2008-2017"); ("zakladny_system", PyStr "Základný (4-6 repro)"); ("premiovy_system", PyStr "Sony (8 repro)")];
      display [("generacia", PyStr "Mk8"); ("roky", PyStr "2017-2023"); ("zakladny_system", PyStr "Základný (6 repro)"); ("premiovy_system", PyStr "B&O Play (10 repro)")]
    ]);
    ("Focus", PyList [
      display [("generacia", PyStr "Mk3"); ("roky", PyStr "2011-2018"); ("zakladny_system", PyStr "Základný (6 repro)"); ("premiovy_system", PyStr "Sony (10 repro)")];
      display [("generacia", PyStr "Mk4"); ("roky", PyStr "2018-súčasnosť"); ("zakladny_system", PyStr "Základný (6 repro)"); ("premiovy_system", PyStr "B&O Play (10 repro)")]
    ]);
    ("Kuga", PyList [
      display [("generacia", PyStr "Gen 2"); ("roky", PyStr "2012-2019"); ("zakladny_system", PyStr "Základný (6 repro)"); ("premiovy_system", PyStr "Sony (10 repro)")];
      display [("generacia", PyStr "Gen 3"); ("roky", PyStr "2019-súčasnosť"); ("zakladny_system", PyStr "Základný (6 repro)"); ("premiovy_system", PyStr "B&O Play (10 repro)")]
    ])
  ]);
  ("Jaguar", display [
    ("XE", PyList [
      display [("generacia", PyStr "X760"); ("roky", PyStr "2015-súčasnosť"); ("zakladny_system", PyStr "Jaguar Sound (6 repro, 80W)"); ("premiovy_system", PyStr "Meridian Sound (11 repro, 380W) ALEBO Meridian Surround (17 repro, 825W)")]
    ]);
    ("F-Pace", PyList [
      display [("generacia", PyStr "X761"); ("roky", PyStr "2016-súčasnosť"); ("zakladny_system", PyStr "Jaguar Sound (8 repro)"); ("premiovy_system", PyStr "Meridian Sound (11 repro, 380W) ALEBO Meridian Surround (17 repro, 825W)")]
    ])
  ]);
  ("Land Rover", display [
    ("Range Rover Evoque", PyList [
      display [("generacia", PyStr "L538 (Gen 1)"); ("roky", PyStr "2011-2018"); ("zakladny_system", PyStr "Land Rover Sound (8 repro)"); ("premiovy_system", PyStr "Meridian Sound (11 repro, 380W) ALEBO Meridian Surround (17 repro, 825W)")];
      display [("generacia", PyStr "L551 (Gen 2)"); ("roky", PyStr "2019-súčasnosť"); ("zakladny_system", PyStr "Základný (6 repro) alebo Sound System (10 repro, 180W)"); ("premiovy_system", PyStr "Meridian Sound (14 repro, 400W) ALEBO Meridian Surround (16 repro, 650W)")]
    ]);
    ("Defender", PyList [
      display [("generacia", PyStr "L663"); ("roky", PyStr "2020-súčasnosť"); ("zakladny_system", PyStr "Základný (6 repro)"); ("premiovy_system", PyStr "Meridian Sound (10 repro, 400W) ALEBO Meridian Surround (14 repro, 700W)")]
    ])
  ]);
  ("Mini", display [
    ("Cooper (Hatch)", PyList [
      display [("generacia", PyStr "F56 (Gen 3)"); ("roky", PyStr "2014-súčasnosť"); ("zakladny_system", PyStr "Základný (4 alebo 6 repro)"); ("premiovy_system", PyStr "Harman Kardon (12 repro)")]
    ]);
    ("Countryman", PyList [
      display [("generacia", PyStr "F60 (Gen 2)"); ("roky", PyStr "2017-súčasnosť"); ("zakladny_system", PyStr "Základný (6 repro)"); ("premiovy_system", PyStr "Harman Kardon (12 repro)")]
    ])
  ])
  ].

(** The file, logical line by logical line. *)
Definition source : list logical_line :=
  [ mkLine 6 0 (Simple (Assign "auto_audio_db" auto_audio_db));
    mkLine 8 0 (Simple (PrintCall "Core databáza inicializovaná."));
    mkLine 14 0 (Simple (Assign "vag_group_data" vag_group_data));
    mkLine 128 0 (Simple (Assign "german_premium_data" german_premium_data));
    mkLine 326 4 (Entries true entries_from_326);
    mkLine 419 0 ClosingBrace;
    mkLine 420 4 (Entries false entries_from_420) ].

(** The part of the file up to line 325, which is well formed. *)
Definition source_to_325 : list logical_line := take 4 source.

(** Every mapping of brands the file spells out. *)
Definition brand_mappings : list pyval :=
  [ auto_audio_db; vag_group_data; german_premium_data;
    display entries_from_326; display entries_from_420 ].

End MainPy.

(** ** What the importer is expected to show and send

    The texts and shapes the properties below are stated with. *)

Module Expected.
Import Py IO PyModule SendToApi.

(** A runtime to evaluate examples with: exact on a str without quotes,
    backslashes and unprintable characters, and on a float written the way
    Python shows it. *)
Definition plain_builtins : Builtins := {|
  float_bool := fun lit => negb (String.eqb lit "0.0" || String.eqb lit "-0.0");
  float_repr := fun lit => lit;
  float_json := fun lit => lit;
  str_repr := fun s => "'" +:+ s +:+ "'"
|}.

Section WithBuiltins.
Context `{Builtins}.

(** The one request of a run. *)
Definition the_request (data : pyval) : request :=
  mkRequest API_URL [("Content-Type", "application/json")] (Json.dumps data) 30.

Definition sending_line (n : nat) : string :=
  "Sending " +:+ pretty n +:+ " brands to Tunexa API...".

Definition connection_report : list string :=
  [ "❌ Connection error - is the Tunexa API server running on port 3000?";
    "   Run: npm start" ].

Definition http_error_report (r : response) : list string :=
  [ "❌ Error: HTTP " +:+ pretty (status_code r); text r ].

Definition generic_report (e : exn) : list string :=
  [ "❌ Error: " +:+ exc_str e ].

(** What the summary shows for a field: its value, and 0 when absent. *)
Definition shown (kvs : list (string * pyval)) (k : string) : string :=
  str (default (PyInt 0) (dict_lookup k kvs)).

Definition summary (kvs : list (string * pyval)) : list string :=
  [ Json.nl +:+ "✅ Import successful!";
    "   Brands processed: " +:+ shown kvs "brands";
    "   Models processed: " +:+ shown kvs "models";
    "   Created: " +:+ shown kvs "created";
    "   Updated: " +:+ shown kvs "updated";
    "   Skipped: " +:+ shown kvs "skipped" ].

(** The errors section for a list of errors: the count, then the first
    five. *)
Definition errors_section (errs : list pyval) : list string :=
  match errs with
  | [] => []
  | _ => ("   Errors: " +:+ pretty (length errs))
           :: map (fun err => "      - " +:+ str err) (take 5 errs)
  end.

(** Standard output can encode the text. *)
Definition encodable (s : string) : bool := negb (has_surrogate s).

(** The lines that come out before the first one that cannot be encoded. *)
Fixpoint encodable_prefix (lines : list string) : list string :=
  match lines with
  | [] => []
  | l :: ls => if encodable l then l :: encodable_prefix ls else []
  end.

(** The [errors] field is absent, or holds something falsy, or a list. *)
Definition errors_of (kvs : list (string * pyval)) : option (list pyval) :=
  match dict_lookup "errors" kvs with
  | None => Some []
  | Some (PyList errs) => Some errs
  | Some v => if truthy v then None else Some []
  end.

(** Nothing to show under errors: the field is absent or falsy. *)
Definition no_errors (kvs : list (string * pyval)) : bool :=
  match dict_lookup "errors" kvs with
  | None => true
  | Some v => negb (truthy v)
  end.

(** The world once the two opening lines of the main block are out. *)
Definition after_banner (w : world) : world :=
  mkWorld (stdout w ++ [ "🎵 Tunexa Auto Audio DB → API Import Tool" +:+ Json.nl;
                         "Option 1: Send to API" ])
          (sent w) (files w).

(** What follows a failed send in the main block. *)
Definition fallback (data : pyval) : M unit :=
  print (Json.nl +:+ "Option 2: Export to JSON file");;
  export_to_json_file data default_filename;;
  print (Json.nl +:+ "Then manually import via web UI:");;
  print "1. Open http://localhost:3000/speakers";;
  print "2. Scroll to 'Bulk Import' section";;
  print "3. Paste JSON from auto_audio_db.json";;
  print "4. Click 'Import JSON → DB'".

Definition fallback_lines : list string :=
  [ Json.nl +:+ "Option 2: Export to JSON file";
    "✅ Exported to auto_audio_db.json";
    "   You can copy/paste this into http://localhost:3000/speakers";
    Json.nl +:+ "Then manually import via web UI:";
    "1. Open http://localhost:3000/speakers";
    "2. Scroll to 'Bulk Import' section";
    "3. Paste JSON from auto_audio_db.json";
    "4. Click 'Import JSON → DB'" ].

Definition abort_message (e : exn) : string :=
  "Nebolo možné importovať auto_audio_db z main.py: " +:+ exc_str e.

End WithBuiltins.

(** *** Effects of a computation *)

(** [m] leaves the part [f] of the world as it was. *)
Definition preserves {A X : Type} (f : world -> X) (m : M A) : Prop :=
  forall env w, f (m env w).1 = f w.

(** [m] does not raise. *)
Definition succeeds {A : Type} (m : M A) : Prop :=
  forall env w, exists a, (m env w).2 = Ok a.

(** [m] hands [req] to the network, once. *)
Definition posts_once {A : Type} (req : request) (m : M A) : Prop :=
  forall env w, sent (m env w).1 = sent w ++ [req].

(** *** The shape of a catalog *)

(** A generation record: the four fields, in the order the file writes
    them, each a str. *)
Definition is_entry (v : pyval) : bool :=
  match v with
  | PyDict [ (k1, PyStr _); (k2, PyStr _); (k3, PyStr _); (k4, PyStr _) ] =>
      String.eqb k1 "generacia" && String.eqb k2 "roky"
      && String.eqb k3 "zakladny_system" && String.eqb k4 "premiovy_system"
  | _ => false
  end.

Definition is_generations (v : pyval) : bool :=
  match v with
  | PyList entries => forallb is_entry entries
  | _ => false
  end.

Definition is_models (v : pyval) : bool :=
  match v with
  | PyDict models =>
      bool_decide (NoDup models.*1) && forallb (fun kv => is_generations kv.2) models
  | _ => false
  end.

(** brand -> model -> list of generation records *)
Definition is_catalog (v : pyval) : bool :=
  match v with
  | PyDict brands =>
      bool_decide (NoDup brands.*1) && forallb (fun kv => is_models kv.2) brands
  | _ => false
  end.

(** No number anywhere in the value. *)
Fixpoint textual (v : pyval) : Prop :=
  match v with
  | PyInt _ | PyFloat _ => False
  | PyList xs => (fix all xs := match xs with
                                | [] => True
                                | x :: xs' => textual x /\ all xs'
                                end) xs
  | PyDict kvs => (fix all kvs := match kvs with
                                  | [] => True
                                  | (_, x) :: kvs' => textual x /\ all kvs'
                                  end) kvs
  | _ => True
  end.

(** *** The limits of the interpreter

    The model of the json module leaves them out: from Python 3.11 on an
    int of more than 4300 digits is neither read from text nor written as
    text, and lists and dicts nested deeper than the recursion limit
    allows are rejected.  The properties of what a response body decodes
    to are stated for values within these limits, where the model and the
    interpreter agree. *)

Definition max_str_digits : Z := 4300.

(** How deep lists and dicts are nested in the value. *)
Fixpoint depth (v : pyval) : nat :=
  match v with
  | PyList xs => S ((fix deepest xs := match xs with
                                       | [] => O
                                       | x :: xs' => Nat.max (depth x) (deepest xs')
                                       end) xs)
  | PyDict kvs => S ((fix deepest kvs := match kvs with
                                         | [] => O
                                         | (_, x) :: kvs' => Nat.max (depth x) (deepest kvs')
                                         end) kvs)
  | _ => O
  end.

(** Every int in the value has at most [max_str_digits] digits. *)
Fixpoint ints_fit (v : pyval) : bool :=
  match v with
  | PyInt z => Z.abs z <? 10 ^ max_str_digits
  | PyList xs => (fix all xs := match xs with
                                | [] => true
                                | x :: xs' => ints_fit x && all xs'
                                end) xs
  | PyDict kvs => (fix all kvs := match kvs with
                                  | [] => true
                                  | (_, x) :: kvs' => ints_fit x && all kvs'
                                  end) kvs
  | _ => true
  end.

(** A nesting of 100 is within the recursion limit of every interpreter. *)
Definition within_limits (v : pyval) : bool :=
  ints_fit v && (depth v <=? 100)%nat.

(** A catalog with one brand whose one model has no generation yet. *)
Definition empty_model_catalog : pyval :=
  display [("Skoda", display [("Octavia", PyList [])])].

(** Replaces each apostrophe by a double quote, to write JSON examples. *)
Definition json_text (s : string) : string :=
  concat_str (map (fun c => if String.eqb c "'" then Json.dquote else c) (utf8_chars s)).

(** *** Environments to run the importer in *)

(** The service gives the same answer whatever it is sent; the file system
    accepts every write. *)
Definition answering (r : result response) : environment :=
  mkEnv (fun _ => r) (fun _ => None).

Definition import_succeeds : environment :=
  answering (Ok (mkResponse 200
    (json_text "{'brands': 3, 'models': 10, 'created': 10, 'updated': 0, 'skipped': 0}"))).

Definition internal_error : environment :=
  answering (Ok (mkResponse 500 (json_text "'internal error'"))).

Definition array_answer : environment :=
  answering (Ok (mkResponse 200 "[]")).

Definition refused : exn :=
  mkExn ConnectionError "[Errno 111] Connection refused".

Definition connect_timed_out : exn :=
  mkExn ConnectTimeout "Connection to localhost timed out. (connect timeout=30)".

Definition read_timed_out : exn :=
  mkExn ReadTimeout "Read timed out. (read timeout=30)".

End Expected.


(** ** The layout of an encoded value

    How the text of a list or dict is cut up when it is read back. *)

Module Layout.
Import Py Json.

(** The text starts with a character that is not a blank. *)
Definition solid (s : string) : Prop :=
  match s with
  | String c _ => is_ws c = false
  | EmptyString => False
  end.

(** The text starts a value: its first character is neither a blank nor
    the bracket that closes an array. *)
Definition opens_value (s : string) : Prop :=
  match s with
  | String c _ => is_ws c = false /\ c <> "]"%char
  | EmptyString => False
  end.

(** The result of scanning [s] is not a lack of fuel, and if it is a value
    then some of [s] was used up. *)
Definition fed {A : Type} (res : presult A) (s : string) : Prop :=
  res <> OutOfFuel /\
  forall a r, res = Parsed a r -> (String.length r < String.length s)%nat.

Section WithIndent.
Context `{Builtins}.
Variable indent : option nat.

(** What stands between two items. *)
Definition separator (level : nat) : string :=
  item_separator indent +:+ newline_indent indent (S level).

(** The text of a member once its opening quote is read. *)
Definition member_tail (level : nat) (kv : string * pyval) : string :=
  escape kv.1 +:+ dquote +:+ key_separator +:+ iterencode indent (S level) kv.2.

(** The items after the first, each behind its separator. *)
Fixpoint more_items (level : nat) (xs : list pyval) : string :=
  match xs with
  | [] => EmptyString
  | x :: xs' => separator level +:+ iterencode indent (S level) x +:+ more_items level xs'
  end.

Fixpoint more_members (level : nat) (kvs : list (string * pyval)) : string :=
  match kvs with
  | [] => EmptyString
  | kv :: kvs' =>
      separator level +:+ dquote +:+ member_tail level kv +:+ more_members level kvs'
  end.

(** A value reads back: scanning its text, with anything after it, gives
    the value and what came after. *)
Definition reads_back (v : pyval) : Prop :=
  forall level rest fuel,
    (String.length (iterencode indent level v) <= fuel)%nat ->
    scan_once fuel (iterencode indent level v +:+ rest) = Parsed v rest.

End WithIndent.

End Layout.

(** ** Further vocabulary

    What the properties of the rest of the code are stated with. *)

Module Behaviour.
Import Py Json IO PyModule SendToApi.

(** The value a module's statements leave under [name]: that of the last
    assignment to it. *)
Fixpoint last_assigned (name : string) (sts : list stmt) : option pyval :=
  match sts with
  | [] => None
  | Assign x v :: sts' =>
      match last_assigned name sts' with
      | Some v' => Some v'
      | None => if String.eqb x name then Some v else None
      end
  | PrintCall _ :: sts' => last_assigned name sts'
  end.

(** What a module's statements print, in order. *)
Fixpoint printed (sts : list stmt) : list string :=
  match sts with
  | [] => []
  | Assign _ _ :: sts' => printed sts'
  | PrintCall s :: sts' => s :: printed sts'
  end.

Fixpoint all_chars (p : ascii -> bool) (s : string) : bool :=
  match s with
  | EmptyString => true
  | String c s' => p c && all_chars p s'
  end.

(** No float anywhere in the value. *)
Fixpoint float_free (v : pyval) : Prop :=
  match v with
  | PyFloat _ => False
  | PyList xs => (fix all xs := match xs with
                                | [] => True
                                | x :: xs' => float_free x /\ all xs'
                                end) xs
  | PyDict kvs => (fix all kvs := match kvs with
                                  | [] => True
                                  | (_, x) :: kvs' => float_free x /\ all kvs'
                                  end) kvs
  | _ => True
  end.

(** The text cannot go on a number that ends right before it. *)
Definition delimited (s : string) : Prop :=
  match s with
  | EmptyString => True
  | String c _ =>
      is_digit c = false /\ c <> "."%char /\ c <> "e"%char /\ c <> "E"%char
  end.

(** A value reads back in front of any text that does not go on a number. *)
Definition reads_back_delimited `{Builtins} (indent : option nat) (v : pyval) : Prop :=
  forall level rest fuel,
    delimited rest ->
    (String.length (iterencode indent level v) <= fuel)%nat ->
    scan_once fuel (iterencode indent level v +:+ rest) = Parsed v rest.

(** Whatever [m] raises is an instance of [Exception]. *)
Definition contained {A : Type} (m : M A) : Prop :=
  forall env w e, (m env w).2 = Raise e -> isinstance e Exception = true.

(** The same of a pure result. *)
Definition contained_result {A : Type} (r : result A) : Prop :=
  forall e, r = Raise e -> isinstance e Exception = true.

(** Not a control character. *)
Definition printable (c : ascii) : bool := negb (N_of_ascii c <? 32)%N.

(** One character of a str: a byte and the continuation bytes after it. *)
Definition is_char (u : string) : Prop :=
  match u with
  | String _ k => all_chars is_continuation k = true
  | EmptyString => False
  end.

(** Characters in a row: each after the first starts with a byte that is
    no continuation byte. *)
Fixpoint chars_in_a_row (us : list string) : Prop :=
  match us with
  | [] => True
  | u :: us' =>
      is_char u
      /\ match us' with
         | [] => True
         | u' :: _ => starts_with_continuation u' = false
         end
      /\ chars_in_a_row us'
  end.

(** The line is a simple statement that starts at the margin. *)
Definition simple_at_margin (l : logical_line) : bool :=
  negb (0 <? column l)%nat
  && match form l with
     | Simple _ => true
     | _ => false
     end.

End Behaviour.

(** * Properties *)

Import Py IO PyModule SendToApi Expected.

(** ** Running computations *)

Lemma bind_run {A B : Type} (m : M A) (f : A -> M B) env w :
  (m ≫= f) env w = match m env w with
                   | (w', Ok a) => f a env w'
                   | (w', Raise e) => (w', Raise e)
                   end.
Proof. reflexivity. Qed.

Lemma world_eta w : mkWorld (stdout w) (sent w) (files w) = w.
Proof. destruct w; reflexivity. Qed.

Lemma print_decoded_run s env w :
  print_decoded s env w =
    if encodable s then (mkWorld (stdout w ++ [s]) (sent w) (files w), Ok tt)
    else (w, Raise unencodable).
Proof. unfold print_decoded, encodable. destruct (has_surrogate s); reflexivity. Qed.

Lemma encodable_prefix_all lines :
  forallb encodable lines = true -> encodable_prefix lines = lines.
Proof.
  induction lines as [|l ls IH]; [reflexivity |].
  simpl. destruct (encodable l); [| discriminate].
  intros Hls. rewrite (IH Hls). reflexivity.
Qed.

Lemma for_each_print_decoded_run {A : Type} (f : A -> string) (items : list A) env w :
  for_each items (fun x => print_decoded (f x)) env w =
    (mkWorld (stdout w ++ encodable_prefix (map f items)) (sent w) (files w),
     if forallb encodable (map f items) then Ok tt else Raise unencodable).
Proof.
  revert w. induction items as [|x items IH]; intros w; simpl.
  - rewrite app_nil_r, world_eta. reflexivity.
  - rewrite bind_run, print_decoded_run. destruct (encodable (f x)).
    + rewrite IH. cbn [stdout sent files andb]. rewrite <- app_assoc. reflexivity.
    + rewrite app_nil_r, world_eta. reflexivity.
Qed.



(** ** What a computation leaves untouched *)

Section Frames.
Context {X : Type} (f : world -> X).

Lemma preserves_ret {A : Type} (a : A) : preserves f (mret a).
Proof. intros env w. reflexivity. Qed.

Lemma preserves_raise {A : Type} e : preserves f (@raise A e).
Proof. intros env w. reflexivity. Qed.

Lemma preserves_lift {A : Type} (r : result A) : preserves f (lift r).
Proof. intros env w. reflexivity. Qed.

Lemma preserves_bind {A B : Type} (m : M A) (k : A -> M B) :
  preserves f m -> (forall a, preserves f (k a)) -> preserves f (m ≫= k).
Proof.
  intros Hm Hk env w. rewrite bind_run. specialize (Hm env w).
  destruct (m env w) as [w' [a|e]]; simpl in *.
  - rewrite (Hk a env w'). exact Hm.
  - exact Hm.
Qed.

Lemma preserves_for_each {A : Type} (xs : list A) (body : A -> M unit) :
  (forall x, preserves f (body x)) -> preserves f (for_each xs body).
Proof.
  intros Hb. induction xs as [|x xs IH]; simpl.
  - apply preserves_ret.
  - apply preserves_bind; [apply Hb | intros _; exact IH].
Qed.

Lemma preserves_handle {A : Type} (clauses : list (exc_class * (exn -> M A))) e :
  Forall (fun ch => forall e', preserves f (ch.2 e')) clauses ->
  preserves f (handle clauses e).
Proof.
  induction 1 as [|[c h] cl Hh _ IH]; simpl.
  - apply preserves_raise.
  - destruct (isinstance e c); [apply Hh | exact IH].
Qed.

Lemma preserves_try_except {A : Type} (body : M A) clauses :
  preserves f body ->
  Forall (fun ch => forall e', preserves f (ch.2 e')) clauses ->
  preserves f (try_except body clauses).
Proof.
  intros Hb Hc env w. unfold try_except. specialize (Hb env w).
  destruct (body env w) as [w' [a|e]]; simpl in *.
  - exact Hb.
  - rewrite (preserves_handle clauses e Hc env w'). exact Hb.
Qed.

End Frames.

Lemma print_preserves_sent s : preserves sent (print s).
Proof. intros env w. reflexivity. Qed.

Lemma print_preserves_files s : preserves files (print s).
Proof. intros env w. reflexivity. Qed.

Lemma print_decoded_preserves_sent s : preserves sent (print_decoded s).
Proof. intros env w. unfold print_decoded. destruct (has_surrogate s); reflexivity. Qed.

Lemma print_decoded_preserves_files s : preserves files (print_decoded s).
Proof. intros env w. unfold print_decoded. destruct (has_surrogate s); reflexivity. Qed.

Lemma post_preserves_files url headers data timeout :
  preserves files (requests_post url headers data timeout).
Proof. intros env w. reflexivity. Qed.

Lemma write_preserves_sent filename content :
  preserves sent (write_file filename content).
Proof. intros env w. unfold write_file. destruct (open_refused env filename); reflexivity. Qed.

(** Proves that a computation built from the operations above preserves a
    field of the world. *)
Ltac frame :=
  repeat first
    [ apply preserves_ret | apply preserves_raise | apply preserves_lift
    | apply print_preserves_sent | apply print_preserves_files
    | apply print_decoded_preserves_sent | apply print_decoded_preserves_files
    | apply post_preserves_files | apply write_preserves_sent
    | apply preserves_bind; [| intros ?]
    | apply preserves_for_each; intros ?
    | apply preserves_try_except; [| repeat constructor; intros ?; cbn [snd]]
    | match goal with |- preserves _ (if ?b then _ else _) => destruct b end
    | match goal with |- preserves _ (match ?o with Some _ => _ | None => _ end) =>
        destruct o end ].

Lemma succeeds_print s : succeeds (print s).
Proof. intros env w. exists tt. reflexivity. Qed.

Lemma succeeds_lift_Ok {A : Type} (a : A) : succeeds (lift (Ok a)).
Proof. intros env w. exists a. reflexivity. Qed.

Lemma posts_once_post url headers data timeout :
  posts_once (mkRequest url headers data timeout)
             (requests_post url headers data timeout).
Proof. intros env w. reflexivity. Qed.

Lemma posts_once_bind_l {A B : Type} req (m : M A) (k : A -> M B) :
  preserves sent m -> succeeds m -> (forall a, posts_once req (k a)) ->
  posts_once req (m ≫= k).
Proof.
  intros Hq Hs Hk env w. rewrite bind_run.
  specialize (Hq env w). destruct (Hs env w) as [a Ha].
  destruct (m env w) as [w' r]; simpl in *. subst r.
  rewrite (Hk a env w'). congruence.
Qed.

Lemma posts_once_bind_r {A B : Type} req (m : M A) (k : A -> M B) :
  posts_once req m -> (forall a, preserves sent (k a)) -> posts_once req (m ≫= k).
Proof.
  intros Hm Hk env w. rewrite bind_run. specialize (Hm env w).
  destruct (m env w) as [w' [a|e]]; simpl in *.
  - rewrite (Hk a env w'). exact Hm.
  - exact Hm.
Qed.

Lemma posts_once_try_except {A : Type} req (body : M A) clauses :
  posts_once req body ->
  Forall (fun ch => forall e', preserves sent (ch.2 e')) clauses ->
  posts_once req (try_except body clauses).
Proof.
  intros Hb Hc env w. unfold try_except. specialize (Hb env w).
  destruct (body env w) as [w' [a|e]]; simpl in *.
  - exact Hb.
  - rewrite (preserves_handle sent clauses e Hc env w'). exact Hb.
Qed.

(** ** Loading a module *)

Lemma exec_preserves {X : Type} (f : world -> X) sts globals :
  (forall s, preserves f (print s)) -> preserves f (exec sts globals).
Proof.
  intros Hp. revert globals. induction sts as [|st sts IH]; intros globals; simpl.
  - apply preserves_ret.
  - apply preserves_bind; [| intros g; apply IH].
    destruct st; simpl; [apply preserves_ret |].
    apply preserves_bind; [apply Hp | intros _; apply preserves_ret].
Qed.

Lemma import_from_preserves {X : Type} (f : world -> X) file src name :
  (forall s, preserves f (print s)) -> preserves f (import_from file src name).
Proof.
  intros Hp. unfold import_from.
  apply preserves_bind; [apply preserves_lift | intros sts].
  apply preserves_bind; [apply exec_preserves, Hp | intros g].
  destruct (g !! name); [apply preserves_ret | apply preserves_raise].
Qed.

(** Unfolds the monad operations so that a run computes. *)
Ltac run :=
  unfold try_except, mbind, M_bind, lift, print, requests_post, write_file,
         raise, mret, M_ret;
  cbn -[String.append pretty isinstance Json.dumps Json.dump_indent2 Json.loads
       for_each take print_decoded encodable encodable_prefix].

(** Decides [isinstance] for an exception of a known class. *)
Ltac classify :=
  repeat match goal with
         | |- context [isinstance (mkExn ?c ?m) ?d] =>
             let b := eval vm_compute in (issubclass c d) in
             change (isinstance (mkExn c m) d) with b
         end.

(** ** Texts without surrogates *)

Lemma has_surrogate_after_ascii a b :
  Behaviour.all_chars is_ascii a = true -> has_surrogate (a +:+ b) = has_surrogate b.
Proof.
  induction a as [|c a IH]; [reflexivity |].
  cbn [Behaviour.all_chars]. intros Hca. apply andb_true_iff in Hca as [Hc Ha].
  change (String c a +:+ b) with (String c (a +:+ b)). cbn [has_surrogate].
  rewrite (IH Ha).
  assert (Hne : Ascii.eqb c "237" = false).
  { apply Ascii.eqb_neq. intros ->. discriminate Hc. }
  rewrite Hne. reflexivity.
Qed.

Lemma ascii_encodable a : Behaviour.all_chars is_ascii a = true -> encodable a = true.
Proof.
  intros Ha. unfold encodable. apply negb_true_iff.
  induction a as [|c a IH]; [reflexivity |].
  cbn [Behaviour.all_chars] in Ha. apply andb_true_iff in Ha as [Hc Ha].
  cbn [has_surrogate]. rewrite (IH Ha).
  assert (Hne : Ascii.eqb c "237" = false).
  { apply Ascii.eqb_neq. intros ->. discriminate Hc. }
  rewrite Hne. reflexivity.
Qed.

Lemma encodable_after_ascii a b :
  Behaviour.all_chars is_ascii a = true -> encodable (a +:+ b) = encodable b.
Proof. intros Ha. unfold encodable. rewrite (has_surrogate_after_ascii a b Ha). reflexivity. Qed.

Lemma pretty_N_char_ascii d : is_ascii (pretty_N_char d) = true.
Proof.
  destruct d as [|p]; [reflexivity |].
  do 4 (destruct p as [p|p|]; try reflexivity).
Qed.

Lemma pretty_N_go_ascii x s :
  Behaviour.all_chars is_ascii s = true ->
  Behaviour.all_chars is_ascii (pretty_N_go x s) = true.
Proof.
  revert s. induction (N.lt_wf_0 x) as [x _ IH]. intros s Hs.
  destruct (N.eq_0_gt_0_cases x) as [-> | Hx]; [exact Hs |].
  rewrite pretty_N_go_step by exact Hx.
  apply IH; [apply N.div_lt; lia |].
  cbn [Behaviour.all_chars]. rewrite pretty_N_char_ascii, Hs. reflexivity.
Qed.

Lemma pretty_N_ascii (x : N) : Behaviour.all_chars is_ascii (pretty x) = true.
Proof.
  unfold pretty, pretty_N. destruct (decide (x = 0%N)); [reflexivity |].
  apply pretty_N_go_ascii. reflexivity.
Qed.

Lemma pretty_nat_ascii (n : nat) : Behaviour.all_chars is_ascii (pretty n) = true.
Proof. exact (pretty_N_ascii (N.of_nat n)). Qed.

Lemma pretty_Z_ascii (z : Z) : Behaviour.all_chars is_ascii (pretty z) = true.
Proof.
  destruct z as [|p|p]; unfold pretty, pretty_Z.
  - reflexivity.
  - exact (pretty_N_ascii (N.pos p)).
  - change (Behaviour.all_chars is_ascii (String "-" (pretty (N.pos p))) = true).
    cbn [Behaviour.all_chars]. rewrite (pretty_N_ascii (N.pos p)). reflexivity.
Qed.

Section Importer.
Context `{Builtins}.

Lemma send_run_status_other data n env w resp :
  len data = Ok n ->
  network env (the_request data) = Ok resp ->
  status_code resp <> 200 ->
  send_to_tunexa data env w =
    (mkWorld (stdout w ++ sending_line n :: http_error_report resp)
             (sent w ++ [the_request data]) (files w), Ok false).
Proof.
  intros Hlen Hnet Hst. unfold send_to_tunexa. rewrite Hlen. run.
  fold (the_request data). rewrite Hnet.
  destruct (status_code resp =? 200) eqn:E; [apply Z.eqb_eq in E; contradiction|].
  run. rewrite <- !app_assoc. reflexivity.
Qed.

Lemma send_run_connection_error data n env w e :
  len data = Ok n ->
  network env (the_request data) = Raise e ->
  isinstance e ConnectionError = true ->
  send_to_tunexa data env w =
    (mkWorld (stdout w ++ sending_line n :: connection_report)
             (sent w ++ [the_request data]) (files w), Ok false).
Proof.
  intros Hlen Hnet He. unfold send_to_tunexa. rewrite Hlen. run.
  fold (the_request data). rewrite Hnet. run. rewrite He. run.
  rewrite <- !app_assoc. reflexivity.
Qed.

Lemma send_run_other_exception data n env w e :
  len data = Ok n ->
  network env (the_request data) = Raise e ->
  isinstance e ConnectionError = false ->
  isinstance e Exception = true ->
  send_to_tunexa data env w =
    (mkWorld (stdout w ++ sending_line n :: generic_report e)
             (sent w ++ [the_request data]) (files w), Ok false).
Proof.
  intros Hlen Hnet Hc He. unfold send_to_tunexa. rewrite Hlen. run.
  fold (the_request data). rewrite Hnet. run. rewrite Hc, He. run.
  rewrite <- !app_assoc. reflexivity.
Qed.

Lemma success_line_encodable : encodable (Json.nl +:+ "✅ Import successful!") = true.
Proof. vm_compute. reflexivity. Qed.

Lemma count_line_encodable (n : nat) : encodable ("   Errors: " +:+ pretty n) = true.
Proof.
  rewrite encodable_after_ascii by reflexivity.
  apply ascii_encodable, pretty_nat_ascii.
Qed.

(** One line of the summary: it is written, or the run goes on in the
    second clause of send. *)
Ltac print_line :=
  rewrite print_decoded_run;
  lazymatch goal with
  | |- context [if encodable ?l then (mkWorld _ _ _, Ok tt) else _] =>
      destruct (encodable l) eqn:?
  end;
  run;
  [| unfold unencodable, generic_report; classify; run;
     rewrite <- ?app_assoc; reflexivity ].

Lemma send_run_object data n env w resp kvs errs :
  len data = Ok n ->
  network env (the_request data) = Ok resp ->
  status_code resp = 200 ->
  Json.loads (text resp) = Ok (PyDict kvs) ->
  errors_of kvs = Some errs ->
  send_to_tunexa data env w =
    (mkWorld (stdout w ++ sending_line n
                :: encodable_prefix (summary kvs ++ errors_section errs)
                ++ (if forallb encodable (summary kvs ++ errors_section errs)
                    then [] else generic_report unencodable))
             (sent w ++ [the_request data]) (files w),
     Ok (forallb encodable (summary kvs ++ errors_section errs))).
Proof.
  intros Hlen Hnet Hst Hjs Herr. unfold send_to_tunexa. rewrite Hlen. run.
  fold (the_request data). rewrite Hnet, Hst. run.
  unfold response_json. rewrite Hjs. run.
  unfold summary, shown. cbn [app encodable_prefix forallb].
  rewrite success_line_encodable. cbn [andb].
  do 5 print_line.
  unfold errors_of in Herr.
  destruct (dict_lookup "errors" kvs) as [v|] eqn:El; run.
  - destruct (truthy v) eqn:Tv.
    + destruct v; try discriminate. injection Herr as <-.
      destruct xs as [|x xs]; [discriminate|].
      run. rewrite for_each_print_decoded_run. cbn [stdout sent files].
      cbn [errors_section encodable_prefix forallb].
      change (length (x :: xs)) with (S (length xs)).
      rewrite count_line_encodable. cbn [andb].
      destruct (forallb encodable
                  (map (fun err => "      - " +:+ str err) (take 5 (x :: xs)))) eqn:Eitems.
      * run. rewrite <- !app_assoc, ?app_nil_r. reflexivity.
      * unfold unencodable, generic_report. run. classify. run.
        rewrite <- !app_assoc. reflexivity.
    + assert (errs = []) as ->.
      { destruct v; try congruence. destruct xs; [congruence | discriminate]. }
      run. rewrite <- !app_assoc. reflexivity.
  - injection Herr as <-. rewrite <- !app_assoc. reflexivity.
Qed.

Lemma send_run_not_object data n env w resp v :
  len data = Ok n ->
  network env (the_request data) = Ok resp ->
  status_code resp = 200 ->
  Json.loads (text resp) = Ok v ->
  (forall kvs, v <> PyDict kvs) ->
  send_to_tunexa data env w =
    (mkWorld (stdout w ++ [ sending_line n; Json.nl +:+ "✅ Import successful!";
                            "❌ Error: '" +:+ type_name v
                              +:+ "' object has no attribute 'get'" ])
             (sent w ++ [the_request data]) (files w), Ok false).
Proof.
  intros Hlen Hnet Hst Hjs Hv. unfold send_to_tunexa. rewrite Hlen. run.
  fold (the_request data). rewrite Hnet, Hst. run.
  unfold response_json. rewrite Hjs. run.
  destruct v; try (exfalso; eapply Hv; reflexivity); run; classify; run;
    rewrite <- !app_assoc; reflexivity.
Qed.


Lemma send_preserves_files data : preserves files (send_to_tunexa data).
Proof. unfold send_to_tunexa. frame. Qed.

Lemma send_posts_once data n :
  len data = Ok n -> posts_once (the_request data) (send_to_tunexa data).
Proof.
  intros Hlen. unfold send_to_tunexa. rewrite Hlen.
  apply posts_once_try_except.
  - apply posts_once_bind_l; [apply preserves_lift | apply succeeds_lift_Ok | intros n'].
    apply posts_once_bind_l; [apply print_preserves_sent | apply succeeds_print | intros _].
    apply posts_once_bind_r; [apply posts_once_post | intros resp]. frame.
  - repeat constructor; intros e'; cbn [snd]; frame.
Qed.

Lemma fallback_preserves_sent data : preserves sent (fallback data).
Proof. unfold fallback, export_to_json_file. frame. Qed.

Lemma main_block_run data env w :
  main_block data env w =
    match send_to_tunexa data env (after_banner w) with
    | (w1, Ok success) => (if negb success then fallback data else mret tt) env w1
    | (w1, Raise e) => (w1, Raise e)
    end.
Proof.
  unfold main_block. do 3 (rewrite bind_run; cbn [print stdout sent files]).
  rewrite <- app_assoc. reflexivity.
Qed.

Lemma fallback_run data env w :
  open_refused env default_filename = None ->
  fallback data env w =
    (mkWorld (stdout w ++ fallback_lines) (sent w)
             (<[default_filename := Json.dump_indent2 data]> (files w)), Ok tt).
Proof.
  intros Hopen. unfold fallback, export_to_json_file. run. rewrite Hopen. run.
  rewrite <- !app_assoc. reflexivity.
Qed.

Lemma script_run_import_fails src env w w' e :
  import_from "main.py" src "auto_audio_db" env w = (w', Raise e) ->
  isinstance e Exception = true ->
  script src env w = (w', Raise (mkExn SystemExit (abort_message e))).
Proof.
  intros Himp He. unfold script, try_except. rewrite bind_run, Himp.
  cbn [handle]. rewrite He. reflexivity.
Qed.


Lemma main_block_posts_once data n :
  len data = Ok n -> posts_once (the_request data) (main_block data).
Proof.
  intros Hlen. unfold main_block.
  apply posts_once_bind_l; [apply print_preserves_sent | apply succeeds_print | intros _].
  apply posts_once_bind_l; [apply print_preserves_sent | apply succeeds_print | intros _].
  apply posts_once_bind_r; [exact (send_posts_once data n Hlen) | intros success].
  unfold export_to_json_file. frame.
Qed.

End Importer.

Lemma timeout_is_exception c : issubclass c Timeout = true -> issubclass c Exception = true.
Proof. destruct c; vm_compute; congruence. Qed.

Lemma connection_error_is_exception c :
  issubclass c ConnectionError = true -> issubclass c Exception = true.
Proof. destruct c; vm_compute; congruence. Qed.

Lemma import_raises_exception file src name env w w' e :
  import_from file src name env w = (w', Raise e) -> isinstance e Exception = true.
Proof.
  unfold import_from. rewrite bind_run. unfold lift at 1.
  destruct (compile file src) as [sts|e0] eqn:Ec.
  - rewrite bind_run. 
    assert (Hex : forall g w0, exists g' w1, exec sts g env w0 = (w1, Ok g')).
    { clear. induction sts as [|st sts IH]; intros g w0; simpl.
      - eexists _, _. reflexivity.
      - destruct st; apply IH. }
    destruct (Hex ∅ w) as (g' & w1 & ->).
    destruct (g' !! name); [discriminate|].
    unfold raise. intros [= _ <-]. reflexivity.
  - intros [= _ <-]. clear -Ec. revert e0 Ec.
    induction src as [|l src IH]; intros e0; simpl; [discriminate|].
    destruct (0 <? column l)%nat; [intros [= <-]; reflexivity|].
    destruct (form l).
    + destruct (compile file src); [discriminate|]. intros [= <-]. apply IH. reflexivity.
    + intros [= <-]; reflexivity.
    + intros [= <-]; reflexivity.
Qed.


(** ** The import exchange *)








(** C4. When the POST raises a connection error, send prints the
    connection report, which is neither the report of an HTTP status nor
    the generic one, and returns False; nothing is raised. *)
Theorem connection_error_reported `{Builtins} data n env w e :
  len data = Ok n ->
  network env (the_request data) = Raise e ->
  isinstance e ConnectionError = true ->
  send_to_tunexa data env w =
    (mkWorld (stdout w ++ sending_line n :: connection_report)
             (sent w ++ [the_request data]) (files w), Ok false)
  /\ (forall resp, connection_report <> http_error_report resp)
  /\ (forall e', connection_report <> generic_report e').
Proof.
  intros Hlen Hnet He. split; [| split].
  - exact (send_run_connection_error data n env w e Hlen Hnet He).
  - intros resp E. injection E as E _. discriminate E.
  - intros e' E. discriminate E.
Qed.

Lemma connection_error_reported_witness :
  send_to_tunexa (H := plain_builtins) empty_model_catalog (answering (Raise refused))
    initial_world
  = (mkWorld (sending_line 1 :: connection_report)
             [the_request (H := plain_builtins) empty_model_catalog] ∅, Ok false).
Proof.
  apply (connection_error_reported (H := plain_builtins) empty_model_catalog 1
           (answering (Raise refused)) initial_world refused);
    [reflexivity | reflexivity | vm_compute; reflexivity].
Defined.

(** C5 (amended). A timeout of the POST makes send return False.  It is
    reported on the generic path, with the text of the exception, when the
    exception is not a connection error as well (a read timeout); a connect
    timeout is a connection error and gets the connection report. *)
Theorem timeout_reported `{Builtins} data n env w e :
  len data = Ok n ->
  network env (the_request data) = Raise e ->
  isinstance e Timeout = true ->
  (isinstance e ConnectionError = false ->
     send_to_tunexa data env w =
       (mkWorld (stdout w ++ sending_line n :: generic_report e)
                (sent w ++ [the_request data]) (files w), Ok false))
  /\ (isinstance e ConnectionError = true ->
        send_to_tunexa data env w =
          (mkWorld (stdout w ++ sending_line n :: connection_report)
                   (sent w ++ [the_request data]) (files w), Ok false)).
Proof.
  intros Hlen Hnet Ht. split; intros Hc.
  - apply (send_run_other_exception data n env w e Hlen Hnet Hc).
    apply timeout_is_exception. exact Ht.
  - exact (send_run_connection_error data n env w e Hlen Hnet Hc).
Qed.

Lemma timeout_reported_witness :
  send_to_tunexa (H := plain_builtins) empty_model_catalog
    (answering (Raise read_timed_out)) initial_world
  = (mkWorld [ "Sending 1 brands to Tunexa API...";
               "❌ Error: Read timed out. (read timeout=30)" ]
             [the_request (H := plain_builtins) empty_model_catalog] ∅, Ok false).
Proof.
  apply (timeout_reported (H := plain_builtins) empty_model_catalog 1
           (answering (Raise read_timed_out)) initial_world read_timed_out);
    [reflexivity | reflexivity | vm_compute; reflexivity | vm_compute; reflexivity].
Defined.

(** The claim as it stands fails on a connect timeout: it is a timeout, and
    what send prints is the connection report, not the generic one. *)
Lemma connect_timeout_not_generic :
  isinstance connect_timed_out Timeout = true
  /\ stdout (send_to_tunexa (H := plain_builtins) empty_model_catalog
               (answering (Raise connect_timed_out)) initial_world).1
     = sending_line 1 :: connection_report
  /\ stdout (send_to_tunexa (H := plain_builtins) empty_model_catalog
               (answering (Raise connect_timed_out)) initial_world).1
     <> sending_line 1 :: generic_report connect_timed_out.
Proof.
  split; [vm_compute; reflexivity |]. split; [vm_compute; reflexivity |].
  vm_compute. discriminate.
Qed.

(** C6. Whatever the network answers or raises, a call of send hands
    exactly one request to [requests.post], and so does the whole main
    block: the POST to /api/vehicle-speakers/import with the JSON content
    type, the serialized catalog as body and a timeout of 30. *)
Theorem exactly_one_post `{Builtins} data n :
  len data = Ok n ->
  (forall env w, sent (send_to_tunexa data env w).1 = sent w ++ [the_request data])
  /\ (forall env w, sent (main_block data env w).1 = sent w ++ [the_request data])
  /\ req_url (the_request data) = "http://localhost:3000" +:+ "/api/vehicle-speakers/import"
  /\ req_headers (the_request data) = [("Content-Type", "application/json")]
  /\ req_data (the_request data) = Json.dumps data
  /\ req_timeout (the_request data) = 30.
Proof.
  intros Hlen. split; [| split].
  - exact (send_posts_once data n Hlen).
  - exact (main_block_posts_once data n Hlen).
  - repeat split.
Qed.

Lemma exactly_one_post_witness :
  sent (main_block (H := plain_builtins) empty_model_catalog
          (answering (Raise refused)) initial_world).1
  = [the_request (H := plain_builtins) empty_model_catalog].
Proof.
  destruct (exactly_one_post (H := plain_builtins) empty_model_catalog 1)
    as (_ & Hmain & _); [reflexivity |].
  exact (Hmain (answering (Raise refused)) initial_world).
Defined.

(** C7. When importing [auto_audio_db] from main.py raises, the script
    stops there with SystemExit and the message naming the failed import
    and its cause: the world is the one the import left, in which nothing was
    sent and no file was written. *)
Theorem import_failure_aborts `{Builtins} src env w w' e :
  import_from "main.py" src "auto_audio_db" env w = (w', Raise e) ->
  script src env w = (w', Raise (mkExn SystemExit (abort_message e)))
  /\ sent w' = sent w /\ files w' = files w.
Proof.
  intros Himp. split; [| split].
  - apply script_run_import_fails; [exact Himp |].
    exact (import_raises_exception _ _ _ _ _ _ _ Himp).
  - pose proof (import_from_preserves sent "main.py" src "auto_audio_db"
                  print_preserves_sent env w) as Hs.
    rewrite Himp in Hs. exact Hs.
  - pose proof (import_from_preserves files "main.py" src "auto_audio_db"
                  print_preserves_files env w) as Hf.
    rewrite Himp in Hf. exact Hf.
Qed.

Lemma import_failure_aborts_witness :
  script (H := plain_builtins) MainPy.source import_succeeds initial_world
  = (initial_world,
     Raise (mkExn SystemExit
              "Nebolo možné importovať auto_audio_db z main.py: unexpected indent (main.py, line 326)")).
Proof.
  apply (import_failure_aborts (H := plain_builtins) MainPy.source import_succeeds
           initial_world initial_world
           (mkExn IndentationError "unexpected indent (main.py, line 326)")).
  vm_compute. reflexivity.
Defined.


(** ** The catalog module *)

Lemma dict_lookup_elem k kvs v :
  dict_lookup k kvs = Some v -> (k, v) ∈ kvs.
Proof.
  induction kvs as [|[k' v'] kvs IH]; simpl; [discriminate|].
  destruct (String.eqb k k') eqn:E.
  - apply String.eqb_eq in E. intros [= ->]. subst. left.
  - intros Hl. right. exact (IH Hl).
Qed.

Lemma is_entry_shape E :
  is_entry E = true ->
  exists g y b p,
    E = PyDict [ ("generacia", PyStr g); ("roky", PyStr y);
                 ("zakladny_system", PyStr b); ("premiovy_system", PyStr p) ].
Proof.
  destruct E as [| | | | |xs|kvs]; try discriminate.
  destruct kvs as [|[k1 [| | | |g| |]] kvs]; try discriminate.
  destruct kvs as [|[k2 [| | | |y| |]] kvs]; try discriminate.
  destruct kvs as [|[k3 [| | | |b| |]] kvs]; try discriminate.
  destruct kvs as [|[k4 [| | | |p| |]] kvs]; try discriminate.
  destruct kvs; try discriminate.
  cbn [is_entry]. rewrite !andb_true_iff, !String.eqb_eq.
  intros [[[-> ->] ->] ->]. eauto.
Qed.

Lemma is_catalog_entries D brand Ms model Gs :
  is_catalog D = true ->
  getitem D brand = Ok Ms ->
  getitem Ms model = Ok Gs ->
  exists gens, Gs = PyList gens /\ forall E, E ∈ gens -> is_entry E = true.
Proof.
  intros HD HB HM.
  destruct D as [| | | | | |brands]; try discriminate.
  cbn [is_catalog] in HD. apply andb_true_iff in HD as [_ HD].
  cbn [getitem] in HB. destruct (dict_lookup brand brands) as [x|] eqn:EB; [|discriminate].
  injection HB as ->. apply dict_lookup_elem in EB.
  rewrite forallb_forall in HD. apply list_elem_of_In in EB.
  specialize (HD _ EB). cbn [snd] in HD.
  destruct Ms as [| | | | | |models]; try discriminate.
  cbn [is_models] in HD. apply andb_true_iff in HD as [_ HD].
  cbn [getitem] in HM. destruct (dict_lookup model models) as [x|] eqn:EM; [|discriminate].
  injection HM as ->. apply dict_lookup_elem in EM.
  rewrite forallb_forall in HD. apply list_elem_of_In in EM.
  specialize (HD _ EM). cbn [snd] in HD.
  destruct Gs as [| | | | |gens|]; try discriminate.
  exists gens. split; [reflexivity|].
  cbn [is_generations] in HD. rewrite forallb_forall in HD.
  intros E HE. apply HD. apply list_elem_of_In. exact HE.
Qed.

Lemma brand_mappings_are_catalogs :
  forallb is_catalog MainPy.brand_mappings = true.
Proof. vm_compute. reflexivity. Qed.

(** C9. In every mapping of brands that main.py spells out, each entry of
    each generation list is a dict with exactly the four keys generacia,
    roky, zakladny_system and premiovy_system (the generation, years,
    base_system and premium_system of the data model), each holding a str.
    Nothing asks for a non-empty str: a record of four arbitrary strings,
    empty ones included, is an entry. *)
Theorem entries_have_four_string_fields :
  (forall D brand Ms model Gs,
     D ∈ MainPy.brand_mappings ->
     getitem D brand = Ok Ms ->
     getitem Ms model = Ok Gs ->
     exists gens,
       Gs = PyList gens /\
       forall E, E ∈ gens ->
         exists g y b p,
           E = PyDict [ ("generacia", PyStr g); ("roky", PyStr y);
                        ("zakladny_system", PyStr b); ("premiovy_system", PyStr p) ])
  /\ (forall g y b p,
        is_entry (display [ ("generacia", PyStr g); ("roky", PyStr y);
                            ("zakladny_system", PyStr b); ("premiovy_system", PyStr p) ])
        = true).
Proof.
  split.
  - intros D brand Ms model Gs HD HB HM.
    assert (Hcat : is_catalog D = true).
    { pose proof brand_mappings_are_catalogs as Hall.
      rewrite forallb_forall in Hall. apply Hall, list_elem_of_In, HD. }
    destruct (is_catalog_entries D brand Ms model Gs Hcat HB HM) as (gens & -> & Hg).
    exists gens. split; [reflexivity|]. intros E HE. apply is_entry_shape, Hg, HE.
  - intros g y b p. reflexivity.
Qed.

Lemma entries_have_four_string_fields_witness :
  exists gens,
    PyList [ display [ ("generacia", PyStr "Gen 1"); ("roky", PyStr "2016-2023");
                       ("zakladny_system", PyStr "Základný (8 repro)");
                       ("premiovy_system", PyStr "Canton Sound System (10 repro)") ] ]
      = PyList gens /\
    forall E, E ∈ gens ->
      exists g y b p,
        E = PyDict [ ("generacia", PyStr g); ("roky", PyStr y);
                     ("zakladny_system", PyStr b); ("premiovy_system", PyStr p) ].
Proof.
  destruct entries_have_four_string_fields as [Hall _].
  apply (Hall MainPy.vag_group_data "Skoda"
           (default PyNone (dict_lookup "Skoda"
              match MainPy.vag_group_data with PyDict kvs => kvs | _ => [] end))
           "Kodiaq").
  - vm_compute. right. left.
  - vm_compute. reflexivity.
  - vm_compute. reflexivity.
Defined.

(** C8, as the code has it: main.py does not compile, because line 326
    goes on, indented, after the dict display that line 325 closed; so the
    import of [auto_audio_db] raises and no catalog is built.  And the part
    of the file before that line binds [auto_audio_db] to the empty dict:
    the brands are bound to two other names and never put into it. *)
Theorem main_py_builds_no_catalog :
  compile "main.py" MainPy.source
    = Raise (mkExn IndentationError "unexpected indent (main.py, line 326)")
  /\ (forall env w,
        import_from "main.py" MainPy.source "auto_audio_db" env w
        = (w, Raise (mkExn IndentationError "unexpected indent (main.py, line 326)")))
  /\ (forall env w,
        import_from "main.py" MainPy.source_to_325 "auto_audio_db" env w
        = (mkWorld (stdout w ++ ["Core databáza inicializovaná."]) (sent w) (files w),
           Ok (PyDict []))).
Proof.
  assert (Hc : compile "main.py" MainPy.source
               = Raise (mkExn IndentationError "unexpected indent (main.py, line 326)"))
    by (vm_compute; reflexivity).
  split; [exact Hc | split]; intros env w.
  - unfold import_from. rewrite bind_run, Hc. reflexivity.
  - unfold import_from.
    assert (Hp : compile "main.py" MainPy.source_to_325
                 = Ok [ Assign "auto_audio_db" MainPy.auto_audio_db;
                        PrintCall "Core databáza inicializovaná.";
                        Assign "vag_group_data" MainPy.vag_group_data;
                        Assign "german_premium_data" MainPy.german_premium_data ])
      by (vm_compute; reflexivity).
    rewrite bind_run, Hp. cbn [lift]. rewrite bind_run.
    cbn [exec exec_stmt]. run.
    rewrite lookup_insert_ne by discriminate.
    rewrite lookup_insert_ne by discriminate.
    rewrite lookup_insert_eq. reflexivity.
Qed.


(** ** Serializing and parsing back *)

Import Json Layout.

(** *** Strings *)

#[local] Arguments String.append !_ _ / : simpl nomatch.

Lemma append_nil_r s : s +:+ "" = s.
Proof. induction s as [|c s IH]; simpl; [reflexivity | f_equal; exact IH]. Qed.

Lemma append_assoc s1 s2 s3 : (s1 +:+ s2) +:+ s3 = s1 +:+ s2 +:+ s3.
Proof. induction s1 as [|c s1 IH]; simpl; [reflexivity | f_equal; exact IH]. Qed.

Lemma length_append s1 s2 :
  String.length (s1 +:+ s2) = (String.length s1 + String.length s2)%nat.
Proof. induction s1 as [|c s1 IH]; simpl; [reflexivity | f_equal; exact IH]. Qed.

(** *** Induction on values *)

Lemma pyval_ind (P : pyval -> Prop) :
  P PyNone ->
  (forall b, P (PyBool b)) ->
  (forall z, P (PyInt z)) ->
  (forall lit, P (PyFloat lit)) ->
  (forall s, P (PyStr s)) ->
  (forall xs, Forall P xs -> P (PyList xs)) ->
  (forall kvs, Forall (fun kv => P kv.2) kvs -> P (PyDict kvs)) ->
  forall v, P v.
Proof.
  intros HN HB HI HF HS HL HD.
  fix IH 1. intros [| b | z | lit | s | xs | kvs].
  - exact HN.
  - apply HB.
  - apply HI.
  - apply HF.
  - apply HS.
  - apply HL. induction xs as [|x xs IHxs]; constructor; [apply IH | exact IHxs].
  - apply HD. induction kvs as [|[k x] kvs IHkvs]; constructor; [apply IH | exact IHkvs].
Qed.

(** *** Blanks *)

Lemma skip_ws_solid s : solid s -> skip_ws s = s.
Proof. destruct s as [|c s]; simpl; [tauto | intros ->; reflexivity]. Qed.

Lemma skip_ws_spaces n s : skip_ws (spaces n +:+ s) = skip_ws s.
Proof. induction n as [|n IH]; simpl; [reflexivity | exact IH]. Qed.

Lemma skip_ws_newline_indent indent level s :
  skip_ws (newline_indent indent level +:+ s) = skip_ws s.
Proof.
  destruct indent as [n|]; simpl; [| reflexivity]. apply skip_ws_spaces.
Qed.

(** The separator between two items is a comma followed by blanks. *)
Lemma separator_shape indent level :
  exists blanks,
    item_separator indent +:+ newline_indent indent level = String "," blanks /\
    forall s, skip_ws (blanks +:+ s) = skip_ws s.
Proof.
  destruct indent as [n|]; simpl.
  - exists (nl +:+ spaces (n * level)). split; [reflexivity |].
    intros s. simpl. apply skip_ws_spaces.
  - exists " ". split; reflexivity.
Qed.

(** *** String literals *)

Lemma scanstring_fuel_escape_char c fuel r :
  scanstring_fuel (S fuel) (escape_char c +:+ r) =
    match scanstring_fuel fuel r with
    | Parsed t r2 => Parsed (String c t) r2
    | other => other
    end.
Proof.
  destruct c as [[] [] [] [] [] [] [] []]; reflexivity.
Qed.

Lemma scanstring_fuel_escape s rest fuel :
  (String.length (escape s) < fuel)%nat ->
  scanstring_fuel fuel (escape s +:+ dquote +:+ rest) = Parsed s rest.
Proof.
  revert fuel. induction s as [|c s IH]; intros fuel Hfuel.
  - destruct fuel as [|fuel]; [simpl in Hfuel; lia | reflexivity].
  - destruct fuel as [|fuel]; [lia |].
    cbn [escape] in *. rewrite append_assoc, scanstring_fuel_escape_char.
    rewrite length_append in Hfuel.
    rewrite IH; [reflexivity |].
    assert (1 <= String.length (escape_char c))%nat
      by (destruct c as [[] [] [] [] [] [] [] []]; simpl; lia).
    lia.
Qed.

Lemma scanstring_escape s rest :
  scanstring (escape s +:+ dquote +:+ rest) = Parsed s rest.
Proof.
  unfold scanstring. apply scanstring_fuel_escape.
  rewrite length_append. lia.
Qed.

(** *** Dicts *)

Lemma dict_setitem_fresh k v kvs :
  k ∉ kvs.*1 -> dict_setitem k v kvs = kvs ++ [(k, v)].
Proof.
  induction kvs as [|[k' v'] kvs IH]; simpl; intros Hk; [reflexivity |].
  apply not_elem_of_cons in Hk as [Hne Hk].
  destruct (String.eqb k k') eqn:E; [apply String.eqb_eq in E; contradiction |].
  rewrite (IH Hk). reflexivity.
Qed.

Lemma fold_setitem_fresh items acc :
  NoDup (acc.*1 ++ items.*1) ->
  fold_left (fun d kv => dict_setitem kv.1 kv.2 d) items acc = acc ++ items.
Proof.
  revert acc. induction items as [|[k v] items IH]; intros acc Hnd; simpl.
  - rewrite app_nil_r. reflexivity.
  - rewrite dict_setitem_fresh.
    + rewrite IH; [rewrite <- app_assoc; reflexivity |].
      rewrite fmap_app. simpl. rewrite <- app_assoc. exact Hnd.
    + simpl in Hnd. apply NoDup_app in Hnd as (_ & Hd & _).
      intros Hin. apply (Hd k Hin). left.
Qed.

Lemma dict_of_items_nodup kvs : NoDup kvs.*1 -> dict_of_items kvs = kvs.
Proof. intros Hnd. unfold dict_of_items. rewrite fold_setitem_fresh; [reflexivity | exact Hnd]. Qed.

(** *** The encoder, case by case *)

Section RoundTrip.
Context `{Builtins}.
Variable indent : option nat.

#[local] Abbreviation enc := (iterencode indent).
#[local] Abbreviation separator := (Layout.separator indent).
#[local] Abbreviation member_tail := (Layout.member_tail indent).
#[local] Abbreviation more_items := (Layout.more_items indent).
#[local] Abbreviation more_members := (Layout.more_members indent).
#[local] Abbreviation reads_back := (Layout.reads_back indent).

Lemma join_cons sep s l :
  join sep (s :: l) = s +:+ concat_str (map (fun t => sep +:+ t) l).
Proof.
  revert s. induction l as [|t l IH]; intros s.
  - simpl. rewrite append_nil_r. reflexivity.
  - change (join sep (s :: t :: l)) with (s +:+ sep +:+ join sep (t :: l)).
    rewrite IH. simpl. rewrite append_assoc. reflexivity.
Qed.

Lemma more_items_join level xs :
  concat_str (map (fun t => separator level +:+ t) (map (enc (S level)) xs))
  = more_items level xs.
Proof.
  induction xs as [|y ys IH]; [reflexivity |].
  cbn [map concat_str Layout.more_items]. rewrite IH, append_assoc. reflexivity.
Qed.

Lemma more_members_join level kvs :
  concat_str (map (fun t => separator level +:+ t)
                (map (fun '(k, x) => encode_basestring k +:+ key_separator
                                       +:+ enc (S level) x) kvs))
  = more_members level kvs.
Proof.
  induction kvs as [|[k y] kvs IH]; [reflexivity |].
  cbn [map concat_str Layout.more_members]. rewrite IH.
  unfold encode_basestring, Layout.member_tail. cbn [fst snd].
  rewrite !append_assoc. reflexivity.
Qed.

Lemma enc_list_cons level x xs :
  enc level (PyList (x :: xs)) =
    "[" +:+ newline_indent indent (S level) +:+ enc (S level) x
        +:+ more_items level xs +:+ newline_indent indent level +:+ "]".
Proof.
  change (enc level (PyList (x :: xs))) with
    ("[" +:+ newline_indent indent (S level)
         +:+ join (separator level) (map (enc (S level)) (x :: xs))
         +:+ newline_indent indent level +:+ "]").
  cbn [map]. rewrite join_cons, more_items_join, append_assoc. reflexivity.
Qed.

Lemma enc_dict_cons level k x kvs :
  enc level (PyDict ((k, x) :: kvs)) =
    "{" +:+ newline_indent indent (S level) +:+ dquote +:+ member_tail level (k, x)
        +:+ more_members level kvs +:+ newline_indent indent level +:+ "}".
Proof.
  change (enc level (PyDict ((k, x) :: kvs))) with
    ("{" +:+ newline_indent indent (S level)
         +:+ join (separator level)
               (map (fun '(k, x) => encode_basestring k +:+ key_separator
                                      +:+ enc (S level) x) ((k, x) :: kvs))
         +:+ newline_indent indent level +:+ "}").
  cbn [map]. rewrite join_cons, more_members_join.
  unfold encode_basestring, Layout.member_tail. cbn [fst snd].
  rewrite !append_assoc. reflexivity.
Qed.

Lemma separator_length level : (1 <= String.length (separator level))%nat.
Proof. unfold Layout.separator. destruct indent; simpl; lia. Qed.

Lemma opens_value_solid s : opens_value s -> solid s.
Proof. destruct s; simpl; tauto. Qed.

Lemma textual_list xs : textual (PyList xs) <-> Forall textual xs.
Proof.
  induction xs as [|x xs IH]; simpl.
  - split; [constructor | trivial].
  - rewrite Forall_cons. simpl in IH. rewrite IH. reflexivity.
Qed.

Lemma textual_dict kvs : textual (PyDict kvs) <-> Forall (fun kv => textual kv.2) kvs.
Proof.
  induction kvs as [|[k x] kvs IH]; simpl.
  - split; [constructor | trivial].
  - rewrite Forall_cons. simpl in IH. rewrite IH. reflexivity.
Qed.

Lemma wf_list xs : wf (PyList xs) <-> Forall wf xs.
Proof.
  induction xs as [|x xs IH]; simpl.
  - split; [constructor | trivial].
  - rewrite Forall_cons. simpl in IH. rewrite IH. reflexivity.
Qed.

Lemma wf_dict kvs :
  wf (PyDict kvs) <-> NoDup kvs.*1 /\ Forall (fun kv => wf kv.2) kvs.
Proof.
  simpl. apply and_iff_compat_l.
  induction kvs as [|[k x] kvs IH].
  - split; [constructor | trivial].
  - rewrite Forall_cons. rewrite IH. reflexivity.
Qed.

Lemma enc_opens_value v level rest :
  textual v -> opens_value (enc level v +:+ rest).
Proof.
  destruct v as [| [] | | | s | [|x xs] | [|[k x] kvs]]; simpl; try tauto;
    intros _; try (split; [reflexivity | discriminate]).
Qed.

Lemma array_start (s : string) (A B : string -> presult pyval) :
  opens_value s ->
  match skip_ws s with
  | String c r1 => if Ascii.eqb c "]" then A r1 else B (String c r1)
  | EmptyString => B EmptyString
  end = B s.
Proof.
  intros Hs. rewrite (skip_ws_solid s (opens_value_solid s Hs)).
  destruct s as [|c s]; [destruct Hs |]. destruct Hs as [_ Hc].
  destruct (Ascii.eqb c "]") eqn:E; [| reflexivity].
  apply Ascii.eqb_eq in E. contradiction.
Qed.

Lemma array_loop_reads xs :
  Forall (fun x => textual x /\ reads_back x) xs ->
  forall x acc level rest fuel,
    reads_back x ->
    (String.length (enc (S level) x +:+ more_items level xs) < fuel)%nat ->
    array_loop fuel acc
      (enc (S level) x +:+ more_items level xs
         +:+ newline_indent indent level +:+ "]" +:+ rest)
    = Parsed (PyList (acc ++ x :: xs)) rest.
Proof.
  induction 1 as [|y ys [Hty Hy] _ IH]; intros x acc level rest fuel Hx Hfuel;
    (destruct fuel as [|fuel]; [lia |]);
    rewrite length_append in Hfuel; cbn [array_loop].
  - rewrite (Hx (S level)) by (simpl in Hfuel; lia).
    cbn [Layout.more_items String.append]. rewrite skip_ws_newline_indent. reflexivity.
  - rewrite (Hx (S level)) by lia.
    cbn [Layout.more_items] in *. unfold Layout.separator at 1.
    destruct (separator_shape indent (S level)) as (blanks & -> & Hblanks).
    rewrite !append_assoc. cbn [String.append skip_ws is_ws Ascii.eqb Bool.eqb andb].
    rewrite Hblanks, skip_ws_solid
      by (apply opens_value_solid, enc_opens_value, Hty).
    replace (acc ++ x :: y :: ys) with ((acc ++ [x]) ++ y :: ys)
      by (rewrite <- app_assoc; reflexivity).
    apply (IH y (acc ++ [x]) level rest fuel Hy).
    pose proof (separator_length level). rewrite !length_append in *. lia.
Qed.

Lemma object_loop_reads kvs :
  Forall (fun kv => textual kv.2 /\ reads_back kv.2) kvs ->
  forall kv acc level rest fuel,
    textual kv.2 -> reads_back kv.2 ->
    (String.length (member_tail level kv +:+ more_members level kvs) < fuel)%nat ->
    object_loop fuel acc
      (member_tail level kv +:+ more_members level kvs
         +:+ newline_indent indent level +:+ "}" +:+ rest)
    = Parsed (PyDict (dict_of_items (acc ++ kv :: kvs))) rest.
Proof.
  induction 1 as [|kv' kvs [Hty Hy] _ IH];
    intros [k x] acc level rest fuel Htx Hx Hfuel;
    (destruct fuel as [|fuel]; [lia |]);
    rewrite length_append in Hfuel; unfold Layout.member_tail in Hfuel |- * at 1;
    cbn [fst snd] in *; rewrite !length_append in Hfuel;
    cbn [object_loop]; rewrite !append_assoc, scanstring_escape;
    unfold key_separator; cbn [String.append skip_ws is_ws Ascii.eqb Bool.eqb andb];
    rewrite skip_ws_solid by (apply opens_value_solid, enc_opens_value, Htx);
    rewrite (Hx (S level)) by lia.
  - cbn [Layout.more_members String.append]. rewrite skip_ws_newline_indent. reflexivity.
  - cbn [Layout.more_members]. unfold Layout.separator at 1.
    destruct (separator_shape indent (S level)) as (blanks & -> & Hblanks).
    rewrite !append_assoc. cbn [String.append skip_ws is_ws Ascii.eqb Bool.eqb andb].
    rewrite Hblanks. unfold dquote at 1. cbn [String.append skip_ws is_ws Ascii.eqb Bool.eqb andb].
    replace (acc ++ (k, x) :: kv' :: kvs) with ((acc ++ [(k, x)]) ++ kv' :: kvs)
      by (rewrite <- app_assoc; reflexivity).
    apply (IH kv' (acc ++ [(k, x)]) level rest fuel Hty Hy).
    pose proof (separator_length level).
    cbn [Layout.more_members] in Hfuel. rewrite !length_append in *. lia.
Qed.

Lemma reads_back_all v : textual v -> wf v -> reads_back v.
Proof.
  induction v as [| b | z | lit | s | xs IH | kvs IH] using pyval_ind;
    intros Ht Hw level rest fuel Hfuel.
  - destruct fuel; [simpl in Hfuel; lia | reflexivity].
  - destruct b; (destruct fuel; [simpl in Hfuel; lia | reflexivity]).
  - destruct Ht.
  - destruct Ht.
  - destruct fuel as [|fuel]; [simpl in Hfuel; lia |].
    cbn [iterencode]. unfold encode_basestring, dquote at 1.
    rewrite !append_assoc. cbn [String.append scan_once Ascii.eqb Bool.eqb andb].
    rewrite scanstring_escape. reflexivity.
  - apply textual_list in Ht. apply wf_list in Hw.
    destruct xs as [|x xs].
    + destruct fuel as [|fuel]; [simpl in Hfuel; lia | reflexivity].
    + apply Forall_cons in Ht as [Htx Ht]. apply Forall_cons in Hw as [Hwx Hw].
      apply Forall_cons in IH as [IHx IH].
      rewrite enc_list_cons in *. rewrite !length_append in Hfuel.
      destruct fuel as [|fuel]; [simpl in Hfuel; lia |].
      rewrite !append_assoc. cbn [String.append scan_once Ascii.eqb Bool.eqb andb].
      rewrite skip_ws_newline_indent.
      rewrite (array_start _ (fun r1 => Parsed (PyList []) r1) (array_loop fuel []))
        by (apply enc_opens_value, Htx).
      assert (HF : Forall (fun x => textual x /\ reads_back x) xs).
      { clear -Ht Hw IH. induction xs as [|y ys IHys]; constructor.
        - apply Forall_cons in Ht as [? _]. apply Forall_cons in Hw as [? _].
          apply Forall_cons in IH as [? _]. auto.
        - apply Forall_cons in Ht as [_ ?]. apply Forall_cons in Hw as [_ ?].
          apply Forall_cons in IH as [_ ?]. auto. }
      apply (array_loop_reads xs HF x [] level rest fuel (IHx Htx Hwx)).
      rewrite length_append. cbn [String.length] in Hfuel. lia.
  - apply textual_dict in Ht. apply wf_dict in Hw as [Hnd Hw].
    destruct kvs as [|[k x] kvs].
    + destruct fuel as [|fuel]; [simpl in Hfuel; lia | reflexivity].
    + apply Forall_cons in Ht as [Htx Ht]. apply Forall_cons in Hw as [Hwx Hw].
      apply Forall_cons in IH as [IHx IH]. cbn [snd] in *.
      rewrite enc_dict_cons in *. rewrite !length_append in Hfuel.
      destruct fuel as [|fuel]; [simpl in Hfuel; lia |].
      rewrite !append_assoc. cbn [String.append scan_once Ascii.eqb Bool.eqb andb].
      rewrite skip_ws_newline_indent. unfold dquote at 1.
      cbn [String.append skip_ws is_ws Ascii.eqb Bool.eqb andb].
      rewrite <- (dict_of_items_nodup ((k, x) :: kvs) Hnd) at 1.
      assert (HF : Forall (fun kv => textual kv.2 /\ reads_back kv.2) kvs).
      { clear -Ht Hw IH. induction kvs as [|kv kvs IHkvs]; constructor.
        - apply Forall_cons in Ht as [? _]. apply Forall_cons in Hw as [? _].
          apply Forall_cons in IH as [? _]. auto.
        - apply Forall_cons in Ht as [_ ?]. apply Forall_cons in Hw as [_ ?].
          apply Forall_cons in IH as [_ ?]. auto. }
      apply (object_loop_reads kvs HF (k, x) [] level rest fuel Htx (IHx Htx Hwx)).
      rewrite length_append. cbn [String.length] in Hfuel. lia.
Qed.

(** What [loads] makes of the text of a value. *)
Lemma loads_iterencode v : textual v -> wf v -> loads (enc 0 v) = Ok v.
Proof.
  intros Ht Hw. unfold loads.
  pose proof (enc_opens_value v 0 "" Ht) as Hopen. rewrite append_nil_r in Hopen.
  rewrite (skip_ws_solid _ (opens_value_solid _ Hopen)).
  rewrite <- (append_nil_r (enc 0 v)) at 2.
  rewrite (reads_back_all v Ht Hw O "") by lia. reflexivity.
Qed.
End RoundTrip.

(** *** The decoder has fuel to spare *)

Lemma skip_ws_length s : (String.length (skip_ws s) <= String.length s)%nat.
Proof.
  induction s as [|c s IH]; simpl; [lia |].
  destruct (is_ws c); simpl; lia.
Qed.

Lemma strip_prefix_length p s r :
  strip_prefix p s = Some r ->
  (String.length r + String.length p = String.length s)%nat.
Proof.
  revert s. induction p as [|a p IH]; intros [|b s]; simpl; try discriminate.
  - intros [= <-]. reflexivity.
  - intros [= <-]. simpl. lia.
  - destruct (Ascii.eqb a b); [| discriminate]. intros Hr. apply IH in Hr. lia.
Qed.

Lemma span_digits_length s d r :
  span_digits s = (d, r) ->
  (String.length d + String.length r = String.length s)%nat.
Proof.
  revert d r. induction s as [|c s IH]; intros d r; simpl.
  - intros [= <- <-]. reflexivity.
  - destruct (is_digit c).
    + destruct (span_digits s) as [d' r'] eqn:E. intros [= <- <-].
      specialize (IH d' r' eq_refl). simpl. lia.
    + intros [= <- <-]. reflexivity.
Qed.

Lemma match_integer_length s i r :
  match_integer s = Some (i, r) -> (String.length r < String.length s)%nat.
Proof.
  unfold match_integer.
  assert (Hdigits : forall s1 sign,
            match s1 with
            | String c r0 =>
                if Ascii.eqb c "0" then Some (sign +:+ "0", r0)
                else if is_digit c
                     then let '(d, r') := span_digits s1 in Some (sign +:+ d, r')
                     else None
            | EmptyString => None
            end = Some (i, r) -> (String.length r < String.length s1)%nat).
  { intros [|c s1] sign; [discriminate |].
    destruct (Ascii.eqb c "0"); [intros [= _ <-]; simpl; lia |].
    destruct (is_digit c) eqn:Ec; [| discriminate].
    destruct (span_digits (String c s1)) as [d r'] eqn:E. intros [= _ <-].
    pose proof (span_digits_length _ _ _ E) as Hl.
    simpl in E. rewrite Ec in E. destruct (span_digits s1). injection E as <- <-.
    simpl in *. lia. }
  destruct s as [|c s]; [discriminate |].
  destruct (Ascii.eqb c "-"); intros Hm.
  - apply (Hdigits s "-") in Hm. simpl. lia.
  - apply (Hdigits (String c s) EmptyString) in Hm. exact Hm.
Qed.

Lemma match_frac_length s f r :
  match_frac s = (f, r) -> (String.length r <= String.length s)%nat.
Proof.
  unfold match_frac. destruct s as [|c s]; [intros [= _ <-]; lia |].
  destruct (Ascii.eqb c "."); [| intros [= _ <-]; lia].
  destruct (span_digits s) as [d r'] eqn:E.
  pose proof (span_digits_length _ _ _ E).
  destruct d; intros [= _ <-]; simpl; lia.
Qed.

Lemma match_exp_length s e r :
  match_exp s = (e, r) -> (String.length r <= String.length s)%nat.
Proof.
  unfold match_exp. destruct s as [|c s]; [intros [= _ <-]; lia |].
  destruct (Ascii.eqb c "e" || Ascii.eqb c "E"); [| intros [= _ <-]; lia].
  assert (Hsign : forall sign r1,
            (String.length r1 <= String.length s)%nat ->
            match span_digits r1 with
            | (EmptyString, _) => (EmptyString, String c s)
            | (d, r2) => (String c (sign +:+ d), r2)
            end = (e, r) -> (String.length r <= String.length (String c s))%nat).
  { intros sign r1 Hr1. destruct (span_digits r1) as [d r2] eqn:E.
    pose proof (span_digits_length _ _ _ E).
    destruct d; intros [= _ <-]; simpl; lia. }
  destruct s as [|c' s']; [apply (Hsign EmptyString); lia |].
  destruct (Ascii.eqb c' "-"); [apply (Hsign "-"); simpl; lia |].
  destruct (Ascii.eqb c' "+"); [apply (Hsign "+"); simpl; lia |].
  apply (Hsign EmptyString). lia.
Qed.

Lemma match_number_length s v r :
  match_number s = Some (v, r) -> (String.length r < String.length s)%nat.
Proof.
  unfold match_number.
  destruct (match_integer s) as [[i r0]|] eqn:Ei; [| discriminate].
  apply match_integer_length in Ei.
  destruct (match_frac r0) as [f r1] eqn:Ef. apply match_frac_length in Ef.
  destruct (match_exp r1) as [e r2] eqn:Ee. apply match_exp_length in Ee.
  destruct f, e; intros [= _ <-]; lia.
Qed.

Lemma decode_uXXXX_length s n r :
  decode_uXXXX s = Some (n, r) -> (String.length r + 4 = String.length s)%nat.
Proof.
  unfold decode_uXXXX. destruct s as [|a [|b [|c [|d s]]]]; try discriminate.
  destruct (hex_value a), (hex_value b), (hex_value c), (hex_value d); try discriminate.
  intros [= _ <-]. simpl. lia.
Qed.

(** An escape is at least one character long. *)
Lemma unescape_length s ch r :
  unescape s = Some (ch, r) -> (String.length r < String.length s)%nat.
Proof.
  destruct s as [|c s]; [discriminate |].
  assert (Hu : unescape (String "u" s) = Some (ch, r) ->
               (String.length r < String.length (String "u" s))%nat).
  { cbn [unescape]. destruct (decode_uXXXX s) as [[uni r1]|] eqn:E1; [| discriminate].
    apply decode_uXXXX_length in E1.
    assert (Hplain : Some (utf8_encode uni, r1) = Some (ch, r) ->
                     (String.length r < String.length (String "u" s))%nat)
      by (intros [= _ <-]; simpl; lia).
    destruct ((55296 <=? uni) && (uni <=? 56319))%N; [| exact Hplain].
    destruct r1 as [|a r1']; [exact Hplain |].
    destruct (Ascii.eqb a "\") eqn:Ea.
    2: { destruct a as [[] [] [] [] [] [] [] []]; try exact Hplain; discriminate Ea. }
    apply Ascii.eqb_eq in Ea. subst a.
    destruct r1' as [|b r2]; [exact Hplain |].
    destruct (Ascii.eqb b "u") eqn:Eb.
    2: { destruct b as [[] [] [] [] [] [] [] []]; try exact Hplain; discriminate Eb. }
    apply Ascii.eqb_eq in Eb. subst b.
    destruct (decode_uXXXX r2) as [[uni2 r3]|] eqn:E2; [| discriminate].
    apply decode_uXXXX_length in E2.
    destruct ((56320 <=? uni2) && (uni2 <=? 57343))%N; [| exact Hplain].
    intros [= _ <-]. simpl in *. lia. }
  destruct c as [[] [] [] [] [] [] [] []]; try discriminate; try exact Hu;
    cbn [unescape]; intros [= _ <-]; simpl; lia.
Qed.

Lemma scanstring_fuel_step fuel c r :
  scanstring_fuel (S fuel) (String c r) =
    if Ascii.eqb c "034" then Parsed EmptyString r
    else if Ascii.eqb c "\" then
      match unescape r with
      | Some (ch, r1) =>
          match scanstring_fuel fuel r1 with
          | Parsed t r2 => Parsed (ch +:+ t) r2
          | other => other
          end
      | None => Failed (bad_escape r)
      end
    else if (N_of_ascii c <? 32)%N then Failed "Invalid control character at"
    else match scanstring_fuel fuel r with
         | Parsed t r2 => Parsed (String c t) r2
         | other => other
         end.
Proof. destruct c as [[] [] [] [] [] [] [] []]; reflexivity. Qed.

Lemma scanstring_fuel_enough fuel s :
  (String.length s < fuel)%nat ->
  scanstring_fuel fuel s <> OutOfFuel /\
  forall t r, scanstring_fuel fuel s = Parsed t r ->
              (String.length r < String.length s)%nat.
Proof.
  revert s. induction fuel as [|fuel IH]; intros s Hf; [lia |].
  destruct s as [|c s]; [split; [discriminate | intros t r; discriminate] |].
  rewrite scanstring_fuel_step. simpl in Hf.
  destruct (Ascii.eqb c "034").
  { split; [discriminate | intros t r [= _ <-]; simpl; lia]. }
  destruct (Ascii.eqb c "\").
  { destruct (unescape s) as [[ch r1]|] eqn:Eu;
      [| split; [discriminate | intros t r; discriminate]].
    apply unescape_length in Eu.
    destruct (IH r1 ltac:(lia)) as [Hne Hlen].
    destruct (scanstring_fuel fuel r1) as [t r2| |]; [| split; [discriminate|intros ? ?; discriminate] | contradiction].
    split; [discriminate |]. intros t' r [= _ <-].
    specialize (Hlen t r2 eq_refl). simpl. lia. }
  destruct (N_of_ascii c <? 32)%N; [split; [discriminate | intros t r; discriminate] |].
  destruct (IH s ltac:(lia)) as [Hne Hlen].
  destruct (scanstring_fuel fuel s) as [t r2| |]; [| split; [discriminate|intros ? ?; discriminate] | contradiction].
  split; [discriminate |]. intros t' r [= _ <-].
  specialize (Hlen t r2 eq_refl). simpl. lia.
Qed.

Lemma scanstring_enough s :
  scanstring s <> OutOfFuel /\
  forall t r, scanstring s = Parsed t r -> (String.length r < String.length s)%nat.
Proof. apply scanstring_fuel_enough. lia. Qed.

Lemma scan_literal_fed s : fed (scan_literal s) s.
Proof.
  unfold fed, scan_literal.
  destruct (strip_prefix "null" s) as [r1|] eqn:E1.
  { apply strip_prefix_length in E1. split; [discriminate |].
    intros v r [= _ <-]. simpl in E1. lia. }
  destruct (strip_prefix "true" s) as [r2|] eqn:E2.
  { apply strip_prefix_length in E2. split; [discriminate |].
    intros v r [= _ <-]. simpl in E2. lia. }
  destruct (strip_prefix "false" s) as [r3|] eqn:E3.
  { apply strip_prefix_length in E3. split; [discriminate |].
    intros v r [= _ <-]. simpl in E3. lia. }
  destruct (match_number s) as [[v0 r0]|] eqn:En.
  { apply match_number_length in En. split; [discriminate |].
    intros v r [= _ <-]. exact En. }
  destruct (strip_prefix "NaN" s) as [r4|] eqn:E4.
  { apply strip_prefix_length in E4. split; [discriminate |].
    intros v r [= _ <-]. simpl in E4. lia. }
  destruct (strip_prefix "Infinity" s) as [r5|] eqn:E5.
  { apply strip_prefix_length in E5. split; [discriminate |].
    intros v r [= _ <-]. simpl in E5. lia. }
  destruct (strip_prefix "-Infinity" s) as [r6|] eqn:E6.
  { apply strip_prefix_length in E6. split; [discriminate |].
    intros v r [= _ <-]. simpl in E6. lia. }
  split; [discriminate | intros v r; discriminate].
Qed.

Lemma fed_failed {A : Type} msg s : fed (@Failed A msg) s.
Proof. split; [discriminate | intros v r; discriminate]. Qed.

Lemma fed_shorter {A : Type} (res : presult A) s s' :
  fed res s' -> (String.length s' <= String.length s)%nat -> fed res s.
Proof. intros [Hne Hlen] Hs. split; [exact Hne |]. intros v r Hr. specialize (Hlen v r Hr). lia. Qed.

(** With more than twice the length of the text as fuel, none of the three
    functions runs out of it, and each uses up some of the text. *)
Lemma scanner_fed fuel :
  forall s,
    ((2 * String.length s < fuel)%nat -> fed (scan_once fuel s) s)
    /\ ((2 * String.length s + 1 < fuel)%nat -> forall acc, fed (array_loop fuel acc s) s)
    /\ ((2 * String.length s + 1 < fuel)%nat -> forall acc, fed (object_loop fuel acc s) s).
Proof.
  induction fuel as [|fuel IH]; intros s; [repeat split; lia |].
  split; [| split].
  - intros Hf. cbn [scan_once].
    destruct s as [|c r]; [apply fed_failed |]. cbn [String.length] in Hf.
    destruct (Ascii.eqb c "034").
    { destruct (scanstring_enough r) as [Hne Hlen].
      destruct (scanstring r) as [t r1| |]; [| apply fed_failed | contradiction].
      split; [discriminate |]. intros v r' [= _ <-].
      specialize (Hlen t r1 eq_refl). simpl. lia. }
    destruct (Ascii.eqb c "{").
    { pose proof (skip_ws_length r) as Hws.
      destruct (skip_ws r) as [|c1 r1]; [apply fed_failed |]. cbn [String.length] in Hws.
      destruct (Ascii.eqb c1 "}").
      { split; [discriminate |]. intros v r' [= _ <-]. simpl. lia. }
      destruct (Ascii.eqb c1 "034"); [| apply fed_failed].
      apply (fed_shorter _ _ r1); [| simpl; lia].
      apply (IH r1). lia. }
    destruct (Ascii.eqb c "[").
    { pose proof (skip_ws_length r) as Hws.
      destruct (skip_ws r) as [|c1 r1].
      - apply (fed_shorter _ _ EmptyString); [| simpl; lia]. apply (IH EmptyString). simpl. lia.
      - cbn [String.length] in Hws. destruct (Ascii.eqb c1 "]").
        + split; [discriminate |]. intros v r' [= _ <-]. simpl. lia.
        + apply (fed_shorter _ _ (String c1 r1)); [| simpl; lia].
          apply (IH (String c1 r1)). simpl. lia. }
    apply scan_literal_fed.
  - intros Hf acc. cbn [array_loop].
    destruct (IH s) as [Hscan _]. destruct (Hscan ltac:(lia)) as [Hne Hlen].
    destruct (scan_once fuel s) as [v r| |]; [| apply fed_failed | contradiction].
    specialize (Hlen v r eq_refl).
    pose proof (skip_ws_length r) as Hws.
    destruct (skip_ws r) as [|c r1]; [apply fed_failed |]. cbn [String.length] in Hws.
    destruct (Ascii.eqb c "]").
    { split; [discriminate |]. intros v' r' [= _ <-]. lia. }
    destruct (Ascii.eqb c ","); [| apply fed_failed].
    pose proof (skip_ws_length r1) as Hws1.
    apply (fed_shorter _ _ (skip_ws r1)); [| lia].
    apply (IH (skip_ws r1)). lia.
  - intros Hf acc. cbn [object_loop].
    destruct (scanstring_enough s) as [Hne Hlen].
    destruct (scanstring s) as [key r| |]; [| apply fed_failed | contradiction].
    specialize (Hlen key r eq_refl).
    pose proof (skip_ws_length r) as Hws.
    destruct (skip_ws r) as [|c r1]; [apply fed_failed |]. cbn [String.length] in Hws.
    destruct (Ascii.eqb c ":"); [| apply fed_failed].
    pose proof (skip_ws_length r1) as Hws1.
    destruct (IH (skip_ws r1)) as [Hscan _]. destruct (Hscan ltac:(lia)) as [Hne2 Hlen2].
    destruct (scan_once fuel (skip_ws r1)) as [v r2| |]; [| apply fed_failed | contradiction].
    specialize (Hlen2 v r2 eq_refl).
    pose proof (skip_ws_length r2) as Hws2.
    destruct (skip_ws r2) as [|c2 r3]; [apply fed_failed |]. cbn [String.length] in Hws2.
    destruct (Ascii.eqb c2 "}").
    { split; [discriminate |]. intros v' r' [= _ <-]. lia. }
    destruct (Ascii.eqb c2 ","); [| apply fed_failed].
    pose proof (skip_ws_length r3) as Hws3.
    destruct (skip_ws r3) as [|c3 r4]; [apply fed_failed |]. cbn [String.length] in Hws3.
    destruct (Ascii.eqb c3 "034"); [| apply fed_failed].
    apply (fed_shorter _ _ r4); [| lia].
    apply (IH r4). lia.
Qed.

(** [loads] never gives up for want of fuel: when it fails, the text is
    not a JSON document. *)
Lemma loads_has_fuel s :
  scan_once (2 * String.length (skip_ws s) + 2) (skip_ws s) <> OutOfFuel.
Proof.
  destruct (scanner_fed (2 * String.length (skip_ws s) + 2) (skip_ws s)) as [Hscan _].
  apply Hscan. lia.
Qed.

(** *** Catalogs *)

Lemma is_entry_plain E : is_entry E = true -> textual E /\ wf E.
Proof.
  intros HE. destruct (is_entry_shape E HE) as (g & y & b & p & ->).
  split; [simpl; tauto |]. simpl. split; [| tauto].
  apply (bool_decide_unpack _). vm_compute. exact I.
Qed.

Lemma is_generations_plain Gs : is_generations Gs = true -> textual Gs /\ wf Gs.
Proof.
  destruct Gs as [| | | | | entries |]; try discriminate.
  cbn [is_generations]. rewrite forallb_forall. intros HG.
  rewrite textual_list, wf_list, !Forall_forall.
  split; intros E HE; apply is_entry_plain, HG, list_elem_of_In, HE.
Qed.

Lemma is_models_plain Ms : is_models Ms = true -> textual Ms /\ wf Ms.
Proof.
  destruct Ms as [| | | | | | models]; try discriminate.
  cbn [is_models]. rewrite andb_true_iff, forallb_forall. intros [Hnd HM].
  apply bool_decide_eq_true in Hnd.
  rewrite textual_dict, wf_dict, !Forall_forall.
  split; [| split; [exact Hnd |]];
    intros kv Hkv; apply is_generations_plain, HM, list_elem_of_In, Hkv.
Qed.

Lemma is_catalog_plain v : is_catalog v = true -> textual v /\ wf v.
Proof.
  destruct v as [| | | | | | brands]; try discriminate.
  cbn [is_catalog]. rewrite andb_true_iff, forallb_forall. intros [Hnd HB].
  apply bool_decide_eq_true in Hnd.
  rewrite textual_dict, wf_dict, !Forall_forall.
  split; [| split; [exact Hnd |]];
    intros kv Hkv; apply is_models_plain, HB, list_elem_of_In, Hkv.
Qed.

Lemma export_run `{Builtins} data filename env w :
  open_refused env filename = None ->
  files (export_to_json_file data filename env w).1 !! filename
  = Some (dump_indent2 data).
Proof.
  intros Hopen. unfold export_to_json_file. run. rewrite Hopen. run.
  apply lookup_insert_eq.
Qed.




(** ** The importer, run

    The exchange on concrete answers of the service, with the seven brands
    of [vag_group_data] as the catalog. *)

Section Runs.
Let data : pyval := MainPy.vag_group_data.
Let run_with (env : environment) : world * result unit :=
  main_block (H := plain_builtins) data env initial_world.
Let banner : list string :=
  [ "🎵 Tunexa Auto Audio DB → API Import Tool" +:+ nl; "Option 1: Send to API";
    "Sending 7 brands to Tunexa API..." ].

(** The service accepts the catalog: the summary is shown, no file is
    written. *)
Example run_import_succeeds :
  run_with import_succeeds
  = (mkWorld (banner ++ [ nl +:+ "✅ Import successful!"; "   Brands processed: 3";
                          "   Models processed: 10"; "   Created: 10";
                          "   Updated: 0"; "   Skipped: 0" ])
             [the_request (H := plain_builtins) data] ∅, Ok tt).
Proof. vm_compute. reflexivity. Qed.

(** The service answers 500: the status and the body are shown and the
    catalog goes to the fallback file. *)
Example run_internal_error :
  run_with internal_error
  = (mkWorld (banner ++ [ "❌ Error: HTTP 500"; json_text "'internal error'" ]
                     ++ fallback_lines)
             [the_request (H := plain_builtins) data]
             {[ default_filename := dump_indent2 (H := plain_builtins) data ]}, Ok tt).
Proof. vm_compute. reflexivity. Qed.

(** The service is not there: the connection report, then the fallback. *)
Example run_connection_refused :
  run_with (answering (Raise refused))
  = (mkWorld (banner ++ connection_report ++ fallback_lines)
             [the_request (H := plain_builtins) data]
             {[ default_filename := dump_indent2 (H := plain_builtins) data ]}, Ok tt).
Proof. vm_compute. reflexivity. Qed.

(** The service reports six errors: their number and the first five. *)
Example run_errors_listed :
  stdout (run_with (answering (Ok (mkResponse 200
            (json_text "{'brands': 1, 'errors': ['e1', 'e2', 'e3', 'e4', 'e5', 'e6']}"))))).1
  = banner ++ [ nl +:+ "✅ Import successful!"; "   Brands processed: 1";
                "   Models processed: 0"; "   Created: 0"; "   Updated: 0";
                "   Skipped: 0"; "   Errors: 6"; "      - e1"; "      - e2";
                "      - e3"; "      - e4"; "      - e5" ].
Proof. vm_compute. reflexivity. Qed.

(** An empty list and an empty dict are written as such. *)
Example dumps_of_empty_parts :
  dumps (H := plain_builtins) (display [("Skoda", display [("Octavia", PyList [])]);
                                       ("Audi", display [])])
  = json_text "{'Skoda': {'Octavia': []}, 'Audi': {}}".
Proof. vm_compute. reflexivity. Qed.

(** A counter that holds a surrogate cannot be printed: send stops after
    the success line, reports the exception and returns False. *)
Example run_surrogate_counter :
  send_to_tunexa (H := plain_builtins) data
    (answering (Ok (mkResponse 200 (json_text "{'brands': '\ud800'}")))) initial_world
  = (mkWorld [ "Sending 7 brands to Tunexa API..."; nl +:+ "✅ Import successful!";
               "❌ Error: " +:+ exc_str unencodable ]
             [the_request (H := plain_builtins) data] ∅, Ok false).
Proof. vm_compute. reflexivity. Qed.

(** The whole script on the repository's main.py: it stops at the import. *)
Example run_script :
  script (H := plain_builtins) MainPy.source import_succeeds initial_world
  = (initial_world,
     Raise (mkExn SystemExit
              "Nebolo možné importovať auto_audio_db z main.py: unexpected indent (main.py, line 326)")).
Proof. vm_compute. reflexivity. Qed.

End Runs.

(** * Further properties of the importer *)

Import Behaviour.

(** ** Exceptions of the runtime *)

Lemma len_raises_TypeError v e : len v = Raise e -> exc_cls e = TypeError.
Proof. destruct v; simpl; intros [= <-]; reflexivity. Qed.

Lemma not_exception_not_connection_error e :
  isinstance e Exception = false -> isinstance e ConnectionError = false.
Proof.
  intros He. destruct (isinstance e ConnectionError) eqn:Ec; [| reflexivity].
  apply connection_error_is_exception in Ec. unfold isinstance in He. congruence.
Qed.

Lemma TypeError_is_handled e :
  exc_cls e = TypeError ->
  isinstance e ConnectionError = false /\ isinstance e Exception = true.
Proof. unfold isinstance. intros ->. split; vm_compute; reflexivity. Qed.

(** The six lines of the summary, each known to be encodable. *)
Ltac summary_encodable Hsum :=
  unfold summary, shown in Hsum; cbn [forallb] in Hsum;
  repeat (let E := fresh "E" in apply andb_true_iff in Hsum as [E Hsum]).

(** One line of the summary that is known to be encodable is written. *)
Ltac print_ok :=
  rewrite print_decoded_run;
  match goal with
  | E : encodable ?l = true |- context [if encodable ?l then _ else _] => rewrite E
  end;
  run.

Section MoreRuns.
Context `{Builtins}.

Lemma send_run_no_len data env w e :
  len data = Raise e ->
  send_to_tunexa data env w =
    (mkWorld (stdout w ++ generic_report e) (sent w) (files w), Ok false).
Proof.
  intros Hlen. destruct (TypeError_is_handled e (len_raises_TypeError _ _ Hlen)) as [Hc He].
  unfold send_to_tunexa. rewrite Hlen. run. rewrite Hc, He. run. reflexivity.
Qed.

Lemma send_run_bad_json data n env w resp e :
  len data = Ok n ->
  network env (the_request data) = Ok resp ->
  status_code resp = 200 ->
  Json.loads (text resp) = Raise e ->
  send_to_tunexa data env w =
    (mkWorld (stdout w ++ sending_line n
                :: generic_report (mkExn RequestsJSONDecodeError (exc_str e)))
             (sent w ++ [the_request data]) (files w), Ok false).
Proof.
  intros Hlen Hnet Hst Hjs. unfold send_to_tunexa. rewrite Hlen. run.
  fold (the_request data). rewrite Hnet, Hst. run.
  unfold response_json. rewrite Hjs. run. classify. run.
  rewrite <- !app_assoc. reflexivity.
Qed.

Lemma send_run_errors_no_len data n env w resp kvs v e :
  len data = Ok n ->
  network env (the_request data) = Ok resp ->
  status_code resp = 200 ->
  Json.loads (text resp) = Ok (PyDict kvs) ->
  forallb encodable (summary kvs) = true ->
  dict_lookup "errors" kvs = Some v ->
  truthy v = true ->
  len v = Raise e ->
  send_to_tunexa data env w =
    (mkWorld (stdout w ++ sending_line n :: summary kvs ++ generic_report e)
             (sent w ++ [the_request data]) (files w), Ok false).
Proof.
  intros Hlen Hnet Hst Hjs Hsum Hl Ht Hlv.
  destruct (TypeError_is_handled e (len_raises_TypeError _ _ Hlv)) as [Hc He].
  summary_encodable Hsum.
  unfold send_to_tunexa. rewrite Hlen. run.
  fold (the_request data). rewrite Hnet, Hst. run.
  unfold response_json. rewrite Hjs. run. do 5 print_ok.
  rewrite Hl. run. rewrite Ht. run.
  rewrite Hlv. run. rewrite Hc, He. run.
  rewrite <- !app_assoc. reflexivity.
Qed.

Lemma send_run_errors_dict data n env w resp kvs d :
  len data = Ok n ->
  network env (the_request data) = Ok resp ->
  status_code resp = 200 ->
  Json.loads (text resp) = Ok (PyDict kvs) ->
  forallb encodable (summary kvs) = true ->
  dict_lookup "errors" kvs = Some (PyDict d) ->
  d <> [] ->
  send_to_tunexa data env w =
    (mkWorld (stdout w ++ sending_line n :: summary kvs
                ++ [ "   Errors: " +:+ pretty (length d);
                     "❌ Error: unhashable type: 'slice'" ])
             (sent w ++ [the_request data]) (files w), Ok false).
Proof.
  intros Hlen Hnet Hst Hjs Hsum Hl Hd. summary_encodable Hsum.
  unfold send_to_tunexa. rewrite Hlen. run.
  fold (the_request data). rewrite Hnet, Hst. run.
  unfold response_json. rewrite Hjs. run. do 5 print_ok. rewrite Hl. run.
  destruct d as [|kv d]; [contradiction |]. run. classify. run.
  rewrite <- !app_assoc. reflexivity.
Qed.

Lemma send_run_base_exception data n env w e :
  len data = Ok n ->
  network env (the_request data) = Raise e ->
  isinstance e Exception = false ->
  send_to_tunexa data env w =
    (mkWorld (stdout w ++ [sending_line n]) (sent w ++ [the_request data]) (files w),
     Raise e).
Proof.
  intros Hlen Hnet He. pose proof (not_exception_not_connection_error e He) as Hc.
  unfold send_to_tunexa. rewrite Hlen. run.
  fold (the_request data). rewrite Hnet. run. rewrite Hc, He. reflexivity.
Qed.

Lemma fallback_run_refused data env w e :
  open_refused env default_filename = Some e ->
  fallback data env w =
    (mkWorld (stdout w ++ [nl +:+ "Option 2: Export to JSON file"]) (sent w) (files w),
     Raise e).
Proof.
  intros Hopen. unfold fallback, export_to_json_file. run. rewrite Hopen. reflexivity.
Qed.

End MoreRuns.

(** ** What a computation can raise *)

Lemma contained_ret {A : Type} (a : A) : contained (mret a).
Proof. intros env w e. discriminate. Qed.

Lemma contained_print s : contained (print s).
Proof. intros env w e. discriminate. Qed.

Lemma contained_print_decoded s : contained (print_decoded s).
Proof.
  intros env w e. unfold print_decoded.
  destruct (has_surrogate s); [| discriminate].
  intros [= <-]. reflexivity.
Qed.

Lemma contained_lift {A : Type} (r : result A) : contained_result r -> contained (lift r).
Proof. intros Hr env w e. apply Hr. Qed.

Lemma contained_bind {A B : Type} (m : M A) (k : A -> M B) :
  contained m -> (forall a, contained (k a)) -> contained (m ≫= k).
Proof.
  intros Hm Hk env w e. rewrite bind_run. specialize (Hm env w).
  destruct (m env w) as [w' [a|e']]; simpl in *.
  - apply Hk.
  - intros [= <-]. apply Hm. reflexivity.
Qed.

Lemma contained_for_each {A : Type} (xs : list A) (body : A -> M unit) :
  (forall x, contained (body x)) -> contained (for_each xs body).
Proof.
  intros Hb. induction xs as [|x xs IH]; simpl.
  - apply contained_ret.
  - apply contained_bind; [apply Hb | intros _; exact IH].
Qed.

Lemma len_contained v : contained_result (len v).
Proof. intros e He. apply (TypeError_is_handled e (len_raises_TypeError v e He)). Qed.

Lemma get_contained v k dflt : contained_result (get v k dflt).
Proof. intros e. destruct v; simpl; intros [= <-]; reflexivity. Qed.

Lemma getitem_contained v k : contained_result (getitem v k).
Proof.
  intros e. destruct v; simpl; try (intros [= <-]; reflexivity).
  destruct (dict_lookup k kvs); intros [= <-]. reflexivity.
Qed.

Lemma slice_to_contained n v : contained_result (slice_to n v).
Proof. intros e. destruct v; simpl; intros [= <-]; reflexivity. Qed.

Lemma iter_contained v : contained_result (Py.iter v).
Proof. intros e. destruct v; simpl; intros [= <-]; reflexivity. Qed.

Lemma response_json_contained r : contained_result (response_json r).
Proof.
  intros e. unfold response_json. destruct (Json.loads (text r)); intros [= <-].
  reflexivity.
Qed.

(** Proves that a computation built from the operations above raises only
    instances of [Exception]. *)
Ltac contain :=
  repeat first
    [ apply contained_ret | apply contained_print | apply contained_print_decoded
    | apply contained_lift;
        first [ apply len_contained | apply get_contained | apply getitem_contained
              | apply slice_to_contained | apply iter_contained
              | apply response_json_contained ]
    | apply contained_bind; [| intros ?]
    | apply contained_for_each; intros ?
    | match goal with |- contained (if ?b then _ else _) => destruct b end ].

Section MoreImporter.
Context `{Builtins}.

(** The two clauses of send turn every [Exception] into False. *)
Lemma send_clauses_catch (body : M bool) env w w' e :
  body env w = (w', Raise e) ->
  isinstance e Exception = true ->
  (try_except body
     [ (ConnectionError, fun _ =>
          print "❌ Connection error - is the Tunexa API server running on port 3000?";;
          print "   Run: npm start";;
          mret false);
       (Exception, fun e =>
          print ("❌ Error: " +:+ exc_str e);;
          mret false) ] env w).2 = Ok false.
Proof.
  intros Hb He. unfold try_except. rewrite Hb. cbn [handle].
  destruct (isinstance e ConnectionError); [reflexivity |]. rewrite He. reflexivity.
Qed.

(** With a response in hand, send returns. *)
Lemma send_returns_on_response data n env w resp :
  len data = Ok n ->
  network env (the_request data) = Ok resp ->
  exists b, (send_to_tunexa data env w).2 = Ok b.
Proof.
  intros Hlen Hnet. unfold send_to_tunexa. rewrite Hlen.
  match goal with |- context [try_except ?body ?cl] => set (clauses := cl); set (b := body) end.
  destruct (b env w) as [w' [r|e]] eqn:Hb.
  - exists r. unfold try_except. rewrite Hb. reflexivity.
  - exists false. apply (send_clauses_catch b env w w' e Hb).
    revert Hb. subst b. rewrite !bind_run. unfold lift at 1.
    rewrite bind_run. cbn [print]. rewrite bind_run. unfold requests_post at 1.
    fold (the_request data). rewrite Hnet.
    match goal with |- ?m env ?w1 = _ -> _ =>
      assert (Hc : contained m) by contain; intros Hm;
      apply (Hc env w1 e); rewrite Hm; reflexivity
    end.
Qed.

End MoreImporter.

(** ** Send, case by case *)

(** X1. A catalog that has no length (None, a number, a bool) never
    reaches the network: [len] raises inside the try block, send reports
    the TypeError on the generic path, sends nothing and returns False. *)
Theorem no_len_no_request `{Builtins} data env w e :
  len data = Raise e ->
  send_to_tunexa data env w =
    (mkWorld (stdout w ++ ["❌ Error: " +:+ exc_str e]) (sent w) (files w), Ok false)
  /\ exc_str e = "object of type '" +:+ type_name data +:+ "' has no len()".
Proof.
  intros Hlen. split; [exact (send_run_no_len data env w e Hlen) |].
  destruct data; simpl in Hlen; try discriminate; injection Hlen as <-; reflexivity.
Qed.

Lemma no_len_no_request_witness :
  send_to_tunexa (H := plain_builtins) PyNone import_succeeds initial_world
  = (mkWorld ["❌ Error: object of type 'NoneType' has no len()"] [] ∅, Ok false).
Proof.
  apply (no_len_no_request (H := plain_builtins) PyNone import_succeeds initial_world
           (mkExn TypeError "object of type 'NoneType' has no len()")).
  reflexivity.
Defined.

(** X2. A 200 response whose body is not JSON makes [response.json()]
    raise before anything is printed about success: send reports the
    decoding error on the generic path, in one line, and returns False. *)
Theorem unparseable_body_is_failure `{Builtins} data n env w resp e :
  len data = Ok n ->
  network env (the_request data) = Ok resp ->
  status_code resp = 200 ->
  Json.loads (text resp) = Raise e ->
  exists msg,
    send_to_tunexa data env w =
      (mkWorld (stdout w ++ [sending_line n; "❌ Error: " +:+ msg])
               (sent w ++ [the_request data]) (files w), Ok false).
Proof.
  intros Hlen Hnet Hst Hjs. exists (exc_str e).
  exact (send_run_bad_json data n env w resp e Hlen Hnet Hst Hjs).
Qed.

Lemma unparseable_body_is_failure_witness :
  exists msg,
    send_to_tunexa (H := plain_builtins) empty_model_catalog
      (answering (Ok (mkResponse 200 "<html>OK</html>"))) initial_world
    = (mkWorld [sending_line 1; "❌ Error: " +:+ msg]
               [the_request (H := plain_builtins) empty_model_catalog] ∅, Ok false).
Proof.
  apply (unparseable_body_is_failure (H := plain_builtins) empty_model_catalog 1
           (answering (Ok (mkResponse 200 "<html>OK</html>"))) initial_world
           (mkResponse 200 "<html>OK</html>") (mkExn JSONDecodeError "Expecting value"));
    [reflexivity | reflexivity | reflexivity | vm_compute; reflexivity].
Defined.



(** X4. An exception of the POST that is not an [Exception] (a
    KeyboardInterrupt) is handled by neither clause: send raises it after
    its first line, and the main block ends with it, without the fallback:
    no file is written. *)
Theorem base_exception_propagates `{Builtins} data n env w e :
  len data = Ok n ->
  network env (the_request data) = Raise e ->
  isinstance e Exception = false ->
  send_to_tunexa data env w =
    (mkWorld (stdout w ++ [sending_line n]) (sent w ++ [the_request data]) (files w),
     Raise e)
  /\ (main_block data env w).2 = Raise e
  /\ files (main_block data env w).1 = files w.
Proof.
  intros Hlen Hnet He. split; [| split].
  - exact (send_run_base_exception data n env w e Hlen Hnet He).
  - rewrite main_block_run,
      (send_run_base_exception data n env (after_banner w) e Hlen Hnet He).
    reflexivity.
  - rewrite main_block_run,
      (send_run_base_exception data n env (after_banner w) e Hlen Hnet He).
    reflexivity.
Qed.

Lemma base_exception_propagates_witness :
  (main_block (H := plain_builtins) empty_model_catalog
     (answering (Raise (mkExn KeyboardInterrupt EmptyString))) initial_world).2
  = Raise (mkExn KeyboardInterrupt EmptyString)
  /\ files (main_block (H := plain_builtins) empty_model_catalog
              (answering (Raise (mkExn KeyboardInterrupt EmptyString))) initial_world).1
     = files initial_world.
Proof.
  destruct (base_exception_propagates (H := plain_builtins) empty_model_catalog 1
              (answering (Raise (mkExn KeyboardInterrupt EmptyString))) initial_world
              (mkExn KeyboardInterrupt EmptyString)) as (_ & Hmain & Hfiles);
    [reflexivity | reflexivity | vm_compute; reflexivity |].
  split; [exact Hmain | exact Hfiles].
Defined.

Lemma raise_of_send_is_of_post `{Builtins} data env w e :
  (send_to_tunexa data env w).2 = Raise e ->
  network env (the_request data) = Raise e /\ isinstance e Exception = false.
Proof.
  intros Hraise. destruct (len data) as [n|e0] eqn:Hlen.
  2: { rewrite (send_run_no_len data env w e0 Hlen) in Hraise. discriminate. }
  destruct (network env (the_request data)) as [resp|e1] eqn:Hnet.
  { destruct (send_returns_on_response data n env w resp Hlen Hnet) as [b Hb].
    congruence. }
  destruct (isinstance e1 Exception) eqn:He.
  - destruct (isinstance e1 ConnectionError) eqn:Hc.
    + rewrite (send_run_connection_error data n env w e1 Hlen Hnet Hc) in Hraise.
      discriminate.
    + rewrite (send_run_other_exception data n env w e1 Hlen Hnet Hc He) in Hraise.
      discriminate.
  - rewrite (send_run_base_exception data n env w e1 Hlen Hnet He) in Hraise.
    injection Hraise as <-. split; [reflexivity | exact He].
Qed.

(** X5. Send raises only what [requests.post] raised, and only when that
    is not an [Exception]: every error of its own making, from the length
    of the catalog to the last line of the errors section, ends in False. *)
Theorem send_raises_only_from_post `{Builtins} data env w e :
  (send_to_tunexa data env w).2 = Raise e ->
  network env (the_request data) = Raise e /\ isinstance e Exception = false.
Proof. exact (raise_of_send_is_of_post data env w e). Qed.

Lemma send_raises_only_from_post_witness :
  network (answering (Raise (mkExn KeyboardInterrupt EmptyString)))
    (the_request (H := plain_builtins) empty_model_catalog)
  = Raise (mkExn KeyboardInterrupt EmptyString)
  /\ isinstance (mkExn KeyboardInterrupt EmptyString) Exception = false.
Proof.
  apply (send_raises_only_from_post (H := plain_builtins) empty_model_catalog
           (answering (Raise (mkExn KeyboardInterrupt EmptyString))) initial_world).
  vm_compute. reflexivity.
Defined.

(** X6. Send returns True only for a response with status 200 whose body
    decodes to a JSON object. *)
Theorem success_needs_200_object `{Builtins} data env w w' :
  send_to_tunexa data env w = (w', Ok true) ->
  exists resp kvs,
    network env (the_request data) = Ok resp
    /\ status_code resp = 200
    /\ Json.loads (text resp) = Ok (PyDict kvs).
Proof.
  intros Hsend. destruct (len data) as [n|e0] eqn:Hlen.
  2: { rewrite (send_run_no_len data env w e0 Hlen) in Hsend. discriminate. }
  destruct (network env (the_request data)) as [resp|e1] eqn:Hnet.
  - destruct (Z.eq_dec (status_code resp) 200) as [Hst|Hst].
    2: { rewrite (send_run_status_other data n env w resp Hlen Hnet Hst) in Hsend.
         discriminate. }
    destruct (Json.loads (text resp)) as [v|e2] eqn:Hjs.
    2: { rewrite (send_run_bad_json data n env w resp e2 Hlen Hnet Hst Hjs) in Hsend.
         discriminate. }
    destruct v as [| | | | | |kvs];
      try (rewrite (send_run_not_object data n env w resp _ Hlen Hnet Hst Hjs) in Hsend;
           [discriminate | intros kvs; discriminate]).
    exists resp, kvs. auto.
  - destruct (isinstance e1 Exception) eqn:He.
    + destruct (isinstance e1 ConnectionError) eqn:Hc.
      * rewrite (send_run_connection_error data n env w e1 Hlen Hnet Hc) in Hsend.
        discriminate.
      * rewrite (send_run_other_exception data n env w e1 Hlen Hnet Hc He) in Hsend.
        discriminate.
    + rewrite (send_run_base_exception data n env w e1 Hlen Hnet He) in Hsend.
      discriminate.
Qed.

Lemma success_needs_200_object_witness :
  exists resp kvs,
    network import_succeeds (the_request (H := plain_builtins) empty_model_catalog) = Ok resp
    /\ status_code resp = 200
    /\ Json.loads (text resp) = Ok (PyDict kvs).
Proof.
  eapply (success_needs_200_object (H := plain_builtins) empty_model_catalog
            import_succeeds initial_world).
  vm_compute. reflexivity.
Defined.

(** X7. No [Exception] of the POST gets out of send, whatever its class:
    the call returns False after one report, the connection report for a
    connection error and the generic one otherwise. *)
Theorem post_exceptions_become_false `{Builtins} data n env w e :
  len data = Ok n ->
  network env (the_request data) = Raise e ->
  isinstance e Exception = true ->
  send_to_tunexa data env w =
    (mkWorld (stdout w ++ sending_line n
                :: (if isinstance e ConnectionError then connection_report
                    else generic_report e))
             (sent w ++ [the_request data]) (files w), Ok false).
Proof.
  intros Hlen Hnet He. destruct (isinstance e ConnectionError) eqn:Hc.
  - exact (send_run_connection_error data n env w e Hlen Hnet Hc).
  - exact (send_run_other_exception data n env w e Hlen Hnet Hc He).
Qed.

Lemma post_exceptions_become_false_witness :
  send_to_tunexa (H := plain_builtins) empty_model_catalog
    (answering (Raise (mkExn SSLError "certificate verify failed"))) initial_world
  = (mkWorld (sending_line 1 :: connection_report)
             [the_request (H := plain_builtins) empty_model_catalog] ∅, Ok false).
Proof.
  apply (post_exceptions_become_false (H := plain_builtins) empty_model_catalog 1
           (answering (Raise (mkExn SSLError "certificate verify failed")))
           initial_world (mkExn SSLError "certificate verify failed"));
    [reflexivity | reflexivity | vm_compute; reflexivity].
Defined.

(** ** The fallback file *)

(** X8. When send has failed and the file system refuses the fallback
    file, nothing handles the exception: the main block ends with it right
    after the line announcing the export, so the manual-import instructions
    are never shown and no file is changed. *)
Theorem refused_export_is_fatal `{Builtins} data env w w1 e :
  send_to_tunexa data env (after_banner w) = (w1, Ok false) ->
  open_refused env default_filename = Some e ->
  main_block data env w =
    (mkWorld (stdout w1 ++ [nl +:+ "Option 2: Export to JSON file"]) (sent w1) (files w),
     Raise e).
Proof.
  intros Hsend Hopen.
  assert (Hfiles : files w1 = files w).
  { pose proof (send_preserves_files data env (after_banner w)) as Hf.
    rewrite Hsend in Hf. exact Hf. }
  rewrite main_block_run, Hsend. cbn [negb].
  rewrite (fallback_run_refused data env w1 e Hopen), Hfiles. reflexivity.
Qed.

Lemma refused_export_is_fatal_witness :
  main_block (H := plain_builtins) empty_model_catalog
    (mkEnv (fun _ => Raise refused)
           (fun _ => Some (mkExn OSError "[Errno 13] Permission denied: 'auto_audio_db.json'")))
    initial_world
  = (mkWorld [ "🎵 Tunexa Auto Audio DB → API Import Tool" +:+ nl;
               "Option 1: Send to API"; "Sending 1 brands to Tunexa API...";
               "❌ Connection error - is the Tunexa API server running on port 3000?";
               "   Run: npm start"; nl +:+ "Option 2: Export to JSON file" ]
             [the_request (H := plain_builtins) empty_model_catalog] ∅,
     Raise (mkExn OSError "[Errno 13] Permission denied: 'auto_audio_db.json'")).
Proof.
  erewrite (refused_export_is_fatal (H := plain_builtins) empty_model_catalog);
    [| vm_compute; reflexivity | reflexivity].
  vm_compute. reflexivity.
Defined.



(** ** The script, when main.py loads *)

Lemma exec_run sts globals env w :
  exists globals',
    exec sts globals env w =
      (mkWorld (stdout w ++ printed sts) (sent w) (files w), Ok globals')
    /\ forall name,
         globals' !! name =
           match last_assigned name sts with
           | Some v => Some v
           | None => globals !! name
           end.
Proof.
  revert globals w. induction sts as [|st sts IH]; intros globals w.
  - exists globals. split; [| reflexivity].
    simpl. rewrite app_nil_r, world_eta. reflexivity.
  - destruct st as [x v | s].
    + destruct (IH (<[x := v]> globals) w) as (g' & Hrun & Hg').
      exists g'. split; [exact Hrun |].
      intros name. rewrite Hg'. cbn [last_assigned].
      destruct (last_assigned name sts); [reflexivity |].
      destruct (String.eqb x name) eqn:E.
      * apply String.eqb_eq in E. subst. apply lookup_insert_eq.
      * apply String.eqb_neq in E. apply lookup_insert_ne. exact E.
    + destruct (IH globals (mkWorld (stdout w ++ [s]) (sent w) (files w)))
        as (g' & Hrun & Hg').
      exists g'. split; [| exact Hg'].
      cbn [exec exec_stmt]. rewrite !bind_run. cbn [print].
      change ((mret globals : M _) env (mkWorld (stdout w ++ [s]) (sent w) (files w)))
        with (mkWorld (stdout w ++ [s]) (sent w) (files w), Ok globals).
      cbn beta iota. rewrite Hrun. cbn [stdout sent files printed].
      rewrite <- app_assoc. reflexivity.
Qed.

(** X10. When main.py compiles, the script first runs it, so that what
    the module prints comes first, and then runs the main block on the
    value of the last assignment to [auto_audio_db]; when the module never
    assigns that name, the import fails with an ImportError after the
    module has run, and the script exits with the message of the guard. *)
Theorem script_runs_main_block `{Builtins} src sts env w :
  compile "main.py" src = Ok sts ->
  match last_assigned "auto_audio_db" sts with
  | Some v =>
      script src env w
      = main_block v env (mkWorld (stdout w ++ printed sts) (sent w) (files w))
  | None =>
      exists e,
        exc_cls e = ImportError
        /\ script src env w
           = (mkWorld (stdout w ++ printed sts) (sent w) (files w),
              Raise (mkExn SystemExit (abort_message e)))
  end.
Proof.
  intros Hc.
  assert (Hrun : script src env w =
            match last_assigned "auto_audio_db" sts with
            | Some v =>
                main_block v env (mkWorld (stdout w ++ printed sts) (sent w) (files w))
            | None =>
                (mkWorld (stdout w ++ printed sts) (sent w) (files w),
                 Raise (mkExn SystemExit
                          (abort_message
                             (mkExn ImportError "cannot import name 'auto_audio_db'"))))
            end).
  { unfold script, import_from, try_except.
    rewrite !bind_run. unfold lift at 1. rewrite Hc. rewrite bind_run.
    destruct (exec_run sts ∅ env w) as (g' & -> & Hg').
    rewrite (Hg' "auto_audio_db"), lookup_empty.
    destruct (last_assigned "auto_audio_db" sts); reflexivity. }
  destruct (last_assigned "auto_audio_db" sts); [exact Hrun |].
  eexists. split; [| exact Hrun]. reflexivity.
Qed.

Lemma script_runs_main_block_witness :
  script (H := plain_builtins) MainPy.source_to_325 import_succeeds initial_world
  = main_block (H := plain_builtins) (PyDict []) import_succeeds
      (mkWorld ["Core databáza inicializovaná."] [] ∅).
Proof.
  pose proof (script_runs_main_block (H := plain_builtins) MainPy.source_to_325
                [ Assign "auto_audio_db" MainPy.auto_audio_db;
                  PrintCall "Core databáza inicializovaná.";
                  Assign "vag_group_data" MainPy.vag_group_data;
                  Assign "german_premium_data" MainPy.german_premium_data ]
                import_succeeds initial_world ltac:(vm_compute; reflexivity)) as Hs.
  simpl last_assigned in Hs. rewrite Hs. reflexivity.
Defined.

(** * Further properties of the JSON text *)

(** ** Integers *)

Lemma digits_value_app acc p q :
  digits_value acc (p +:+ q) = digits_value (digits_value acc p) q.
Proof. revert acc. induction p as [|c p IH]; intros acc; simpl; [reflexivity | apply IH]. Qed.

Lemma all_chars_app f p q :
  all_chars f (p +:+ q) = all_chars f p && all_chars f q.
Proof.
  induction p as [|c p IH]; simpl; [reflexivity |].
  rewrite IH, andb_assoc. reflexivity.
Qed.

Lemma pretty_N_char_digit d :
  (d < 10)%N ->
  is_digit (pretty_N_char d) = true
  /\ Z.of_N (N_of_ascii (pretty_N_char d) - 48) = Z.of_N d
  /\ (d <> 0%N -> pretty_N_char d <> "0"%char).
Proof.
  intros Hd.
  assert (d = 0 \/ d = 1 \/ d = 2 \/ d = 3 \/ d = 4 \/ d = 5 \/ d = 6 \/ d = 7
          \/ d = 8 \/ d = 9)%N as Hcases by lia.
  repeat (destruct Hcases as [-> | Hcases]); try subst d;
    (split; [reflexivity | split; [reflexivity |]]); intros Hne;
    try discriminate; contradiction.
Qed.

(** The decimal text of a positive number: a digit other than 0, then
    digits, worth the number. *)
Lemma pretty_N_go_digits x :
  (0 < x)%N ->
  exists c p,
    (forall s, pretty_N_go x s = String c (p +:+ s))
    /\ is_digit c = true /\ c <> "0"%char
    /\ all_chars is_digit p = true
    /\ digits_value 0 (String c p) = Z.of_N x.
Proof.
  induction (N.lt_wf_0 x) as [x _ IH]. intros Hx.
  assert (Hmod : (x `mod` 10 < 10)%N) by (apply N.mod_lt; discriminate).
  destruct (pretty_N_char_digit _ Hmod) as (Hdig & Hval & Hnz).
  destruct (N.eq_0_gt_0_cases (x `div` 10)) as [Hsmall | Hbig].
  - exists (pretty_N_char (x `mod` 10)), EmptyString.
    assert (Hxm : (x `mod` 10 = x)%N).
    { pose proof (N.div_mod x 10 ltac:(discriminate)). lia. }
    repeat split.
    + intros s. rewrite pretty_N_go_step by exact Hx. rewrite Hsmall. reflexivity.
    + exact Hdig.
    + apply Hnz. lia.
    + cbn [digits_value]. rewrite Hval, Hxm. lia.
  - destruct (IH (x `div` 10)%N) as (c & p & Hgo & Hc & Hc0 & Hp & Hv).
    { apply N.div_lt; lia. }
    { exact Hbig. }
    exists c, (p +:+ String (pretty_N_char (x `mod` 10)) EmptyString).
    repeat split.
    + intros s. rewrite pretty_N_go_step by exact Hx. rewrite Hgo, append_assoc.
      reflexivity.
    + exact Hc.
    + exact Hc0.
    + rewrite all_chars_app, Hp. simpl. rewrite Hdig. reflexivity.
    + change (String c (p +:+ String (pretty_N_char (x `mod` 10)) EmptyString))
        with (String c p +:+ String (pretty_N_char (x `mod` 10)) EmptyString).
      rewrite digits_value_app, Hv. cbn [digits_value]. rewrite Hval.
      pose proof (N.div_mod x 10 ltac:(discriminate)). lia.
Qed.

Lemma delimited_no_digit c r : delimited (String c r) -> is_digit c = false.
Proof. intros [Hd _]. exact Hd. Qed.

Lemma span_digits_all p rest :
  all_chars is_digit p = true -> delimited rest ->
  span_digits (p +:+ rest) = (p, rest).
Proof.
  intros Hp Hrest. induction p as [|c p IH]; simpl in *.
  - destruct rest as [|c r]; [reflexivity |].
    simpl. rewrite (delimited_no_digit c r Hrest). reflexivity.
  - apply andb_true_iff in Hp as [Hc Hp]. rewrite Hc, (IH Hp). reflexivity.
Qed.

Lemma match_frac_delimited rest : delimited rest -> match_frac rest = (EmptyString, rest).
Proof.
  destruct rest as [|c r]; [reflexivity |]. intros (_ & Hdot & _). simpl.
  destruct (Ascii.eqb c ".") eqn:E; [apply Ascii.eqb_eq in E; contradiction | reflexivity].
Qed.

Lemma match_exp_delimited rest : delimited rest -> match_exp rest = (EmptyString, rest).
Proof.
  destruct rest as [|c r]; [reflexivity |]. intros (_ & _ & He & HE). simpl.
  destruct (Ascii.eqb c "e") eqn:E1; [apply Ascii.eqb_eq in E1; contradiction |].
  destruct (Ascii.eqb c "E") eqn:E2; [apply Ascii.eqb_eq in E2; contradiction |].
  reflexivity.
Qed.

Lemma digit_is_no_minus c : is_digit c = true -> Ascii.eqb c "-" = false.
Proof. destruct c as [[] [] [] [] [] [] [] []]; (discriminate || reflexivity). Qed.

(** The digits of a positive number in front of [rest] are matched as
    that number. *)
Lemma match_integer_digits c p rest :
  is_digit c = true -> c <> "0"%char -> all_chars is_digit p = true ->
  delimited rest ->
  match_integer (String c (p +:+ rest)) = Some (String c p, rest)
  /\ match_integer (String "-" (String c (p +:+ rest)))
     = Some (String "-" (String c p), rest).
Proof.
  intros Hc Hc0 Hp Hrest.
  assert (E0 : Ascii.eqb c "0" = false).
  { destruct (Ascii.eqb c "0") eqn:E; [apply Ascii.eqb_eq in E; contradiction | reflexivity]. }
  assert (Hspan : span_digits (String c (p +:+ rest)) = (String c p, rest)).
  { change (String c (p +:+ rest)) with (String c p +:+ rest).
    apply span_digits_all; [| exact Hrest]. simpl. rewrite Hc, Hp. reflexivity. }
  unfold match_integer. split.
  - rewrite (digit_is_no_minus c Hc), E0, Hc, Hspan. reflexivity.
  - cbn [Ascii.eqb Bool.eqb andb]. rewrite E0, Hc, Hspan. reflexivity.
Qed.

Lemma match_number_pretty z rest :
  delimited rest -> match_number (pretty z +:+ rest) = Some (PyInt z, rest).
Proof.
  intros Hrest. unfold match_number.
  destruct z as [|x|x]; unfold pretty, pretty_Z.
  - cbn [String.append match_integer Ascii.eqb Bool.eqb andb].
    rewrite (match_frac_delimited rest Hrest), (match_exp_delimited rest Hrest).
    reflexivity.
  - unfold pretty, pretty_positive, pretty, pretty_N.
    destruct (decide (N.pos x = 0%N)) as [E|_]; [discriminate |].
    destruct (pretty_N_go_digits (N.pos x) ltac:(lia)) as (c & p & Hgo & Hc & Hc0 & Hp & Hv).
    rewrite Hgo, append_nil_r. cbn [String.append].
    destruct (match_integer_digits c p rest Hc Hc0 Hp Hrest) as [-> _].
    rewrite (match_frac_delimited rest Hrest), (match_exp_delimited rest Hrest).
    unfold int_of_literal. rewrite (digit_is_no_minus c Hc), Hv. reflexivity.
  - unfold pretty, pretty_positive, pretty, pretty_N.
    destruct (decide (N.pos x = 0%N)) as [E|_]; [discriminate |].
    destruct (pretty_N_go_digits (N.pos x) ltac:(lia)) as (c & p & Hgo & Hc & Hc0 & Hp & Hv).
    rewrite Hgo, append_nil_r. cbn [String.append].
    destruct (match_integer_digits c p rest Hc Hc0 Hp Hrest) as [_ ->].
    rewrite (match_frac_delimited rest Hrest), (match_exp_delimited rest Hrest).
    unfold int_of_literal. cbn [Ascii.eqb Bool.eqb andb]. rewrite Hv. reflexivity.
Qed.

(** The text of an integer starts with a digit or the minus sign. *)
Lemma pretty_Z_starts (z : Z) :
  exists c r, pretty z = String c r /\ (is_digit c = true \/ c = "-"%char).
Proof.
  destruct z as [|x|x]; unfold pretty, pretty_Z.
  - exists "0"%char, EmptyString. split; [reflexivity | left; reflexivity].
  - unfold pretty, pretty_positive, pretty, pretty_N.
    destruct (decide (N.pos x = 0%N)) as [E|_]; [discriminate |].
    destruct (pretty_N_go_digits (N.pos x) ltac:(lia)) as (c & p & Hgo & Hc & _).
    exists c, (p +:+ EmptyString). split; [apply Hgo | left; exact Hc].
  - eexists "-"%char, _. split; [reflexivity | right; reflexivity].
Qed.

Lemma scan_once_number fuel c r v r' :
  (is_digit c = true \/ c = "-"%char) ->
  match_number (String c r) = Some (v, r') ->
  scan_once (S fuel) (String c r) = Parsed v r'.
Proof.
  intros Hc Hm.
  assert (Hscan : scan_once (S fuel) (String c r) = scan_literal (String c r)).
  { destruct Hc as [Hc | ->]; [| reflexivity].
    destruct c as [[] [] [] [] [] [] [] []]; try discriminate Hc; reflexivity. }
  rewrite Hscan. unfold scan_literal.
  assert (Hkw : strip_prefix "null" (String c r) = None
                /\ strip_prefix "true" (String c r) = None
                /\ strip_prefix "false" (String c r) = None).
  { destruct Hc as [Hc | ->]; [| repeat split].
    destruct c as [[] [] [] [] [] [] [] []]; try discriminate Hc; repeat split. }
  destruct Hkw as (-> & -> & ->). rewrite Hm. reflexivity.
Qed.

(** ** Values with integers *)

Section RoundTripNumbers.
Context `{Builtins}.
Variable indent : option nat.

#[local] Abbreviation enc := (iterencode indent).
#[local] Abbreviation more_items := (Layout.more_items indent).
#[local] Abbreviation more_members := (Layout.more_members indent).
#[local] Abbreviation member_tail := (Layout.member_tail indent).
#[local] Abbreviation reads := (reads_back_delimited indent).

Lemma float_free_list xs : float_free (PyList xs) <-> Forall float_free xs.
Proof.
  induction xs as [|x xs IH]; simpl.
  - split; [constructor | trivial].
  - rewrite Forall_cons. simpl in IH. rewrite IH. reflexivity.
Qed.

Lemma float_free_dict kvs :
  float_free (PyDict kvs) <-> Forall (fun kv => float_free kv.2) kvs.
Proof.
  induction kvs as [|[k x] kvs IH]; simpl.
  - split; [constructor | trivial].
  - rewrite Forall_cons. simpl in IH. rewrite IH. reflexivity.
Qed.

Lemma number_start_opens c r rest :
  (is_digit c = true \/ c = "-"%char) -> opens_value (String c r +:+ rest).
Proof.
  intros [Hc | ->]; [| split; [reflexivity | discriminate]].
  destruct c as [[] [] [] [] [] [] [] []]; try discriminate Hc;
    (split; [reflexivity | discriminate]).
Qed.

Lemma enc_opens_value_numbers v level rest :
  float_free v -> opens_value (enc level v +:+ rest).
Proof.
  destruct v as [| [] | z | | s | [|x xs] | [|[k x] kvs]]; simpl; try tauto;
    intros _; try (split; [reflexivity | discriminate]).
  destruct (pretty_Z_starts z) as (c & r & -> & Hc).
  apply number_start_opens, Hc.
Qed.

Lemma delimited_newline_indent level c rest :
  is_digit c = false -> c <> "."%char -> c <> "e"%char -> c <> "E"%char ->
  delimited (newline_indent indent level +:+ String c rest).
Proof.
  intros H1 H2 H3 H4. destruct indent as [n|]; simpl.
  - repeat split; discriminate.
  - repeat split; assumption.
Qed.

Lemma delimited_separator level s : delimited (Layout.separator indent level +:+ s).
Proof.
  unfold Layout.separator.
  destruct (separator_shape indent (S level)) as (blanks & -> & _).
  simpl. repeat split; discriminate.
Qed.

Lemma delimited_after_item level xs rest :
  delimited (more_items level xs +:+ newline_indent indent level +:+ "]" +:+ rest).
Proof.
  destruct xs as [|y ys]; cbn [Layout.more_items String.append].
  - apply delimited_newline_indent; (reflexivity || discriminate).
  - rewrite !append_assoc. apply delimited_separator.
Qed.

Lemma delimited_after_member level kvs rest :
  delimited (more_members level kvs +:+ newline_indent indent level +:+ "}" +:+ rest).
Proof.
  destruct kvs as [|kv kvs]; cbn [Layout.more_members String.append].
  - apply delimited_newline_indent; (reflexivity || discriminate).
  - rewrite !append_assoc. apply delimited_separator.
Qed.

Lemma array_loop_reads_numbers xs :
  Forall (fun x => float_free x /\ reads x) xs ->
  forall x acc level rest fuel,
    reads x ->
    (String.length (enc (S level) x +:+ more_items level xs) < fuel)%nat ->
    array_loop fuel acc
      (enc (S level) x +:+ more_items level xs
         +:+ newline_indent indent level +:+ "]" +:+ rest)
    = Parsed (PyList (acc ++ x :: xs)) rest.
Proof.
  induction 1 as [|y ys [Hty Hy] _ IH]; intros x acc level rest fuel Hx Hfuel;
    (destruct fuel as [|fuel]; [lia |]);
    rewrite length_append in Hfuel; cbn [array_loop].
  - rewrite (Hx (S level)); [| apply (delimited_after_item level []) | simpl in Hfuel; lia].
    cbn [Layout.more_items String.append]. rewrite skip_ws_newline_indent. reflexivity.
  - rewrite (Hx (S level)); [| apply (delimited_after_item level (y :: ys)) | lia].
    cbn [Layout.more_items] in *. unfold Layout.separator at 1.
    destruct (separator_shape indent (S level)) as (blanks & -> & Hblanks).
    rewrite !append_assoc. cbn [String.append skip_ws is_ws Ascii.eqb Bool.eqb andb].
    rewrite Hblanks, skip_ws_solid
      by (apply opens_value_solid, enc_opens_value_numbers, Hty).
    replace (acc ++ x :: y :: ys) with ((acc ++ [x]) ++ y :: ys)
      by (rewrite <- app_assoc; reflexivity).
    apply (IH y (acc ++ [x]) level rest fuel Hy).
    pose proof (separator_length indent level). rewrite !length_append in *. lia.
Qed.

Lemma object_loop_reads_numbers kvs :
  Forall (fun kv => float_free kv.2 /\ reads kv.2) kvs ->
  forall kv acc level rest fuel,
    float_free kv.2 -> reads kv.2 ->
    (String.length (member_tail level kv +:+ more_members level kvs) < fuel)%nat ->
    object_loop fuel acc
      (member_tail level kv +:+ more_members level kvs
         +:+ newline_indent indent level +:+ "}" +:+ rest)
    = Parsed (PyDict (dict_of_items (acc ++ kv :: kvs))) rest.
Proof.
  induction 1 as [|kv' kvs [Hty Hy] _ IH];
    intros [k x] acc level rest fuel Htx Hx Hfuel;
    (destruct fuel as [|fuel]; [lia |]);
    rewrite length_append in Hfuel; unfold Layout.member_tail in Hfuel |- * at 1;
    cbn [fst snd] in *; rewrite !length_append in Hfuel;
    cbn [object_loop]; rewrite !append_assoc, scanstring_escape;
    unfold key_separator; cbn [String.append skip_ws is_ws Ascii.eqb Bool.eqb andb];
    rewrite skip_ws_solid by (apply opens_value_solid, enc_opens_value_numbers, Htx).
  - rewrite (Hx (S level)); [| apply (delimited_after_member level []) | lia].
    cbn [Layout.more_members String.append]. rewrite skip_ws_newline_indent. reflexivity.
  - rewrite (Hx (S level)); [| apply (delimited_after_member level (kv' :: kvs)) | lia].
    cbn [Layout.more_members]. unfold Layout.separator at 1.
    destruct (separator_shape indent (S level)) as (blanks & -> & Hblanks).
    rewrite !append_assoc. cbn [String.append skip_ws is_ws Ascii.eqb Bool.eqb andb].
    rewrite Hblanks. unfold dquote at 1. cbn [String.append skip_ws is_ws Ascii.eqb Bool.eqb andb].
    replace (acc ++ (k, x) :: kv' :: kvs) with ((acc ++ [(k, x)]) ++ kv' :: kvs)
      by (rewrite <- app_assoc; reflexivity).
    apply (IH kv' (acc ++ [(k, x)]) level rest fuel Hty Hy).
    pose proof (separator_length indent level).
    cbn [Layout.more_members] in Hfuel. rewrite !length_append in *. lia.
Qed.

Lemma reads_back_numbers v : float_free v -> wf v -> reads v.
Proof.
  induction v as [| b | z | lit | s | xs IH | kvs IH] using pyval_ind;
    intros Ht Hw level rest fuel Hrest Hfuel.
  - destruct fuel; [simpl in Hfuel; lia | reflexivity].
  - destruct b; (destruct fuel; [simpl in Hfuel; lia | reflexivity]).
  - cbn [iterencode] in *.
    pose proof (match_number_pretty z rest Hrest) as Hm.
    destruct (pretty_Z_starts z) as (c & r & Hz & Hc). rewrite Hz in *.
    destruct fuel as [|fuel]; [simpl in Hfuel; lia |].
    cbn [String.append] in *. apply (scan_once_number fuel c _ _ _ Hc Hm).
  - destruct Ht.
  - destruct fuel as [|fuel]; [simpl in Hfuel; lia |].
    cbn [iterencode]. unfold encode_basestring, dquote at 1.
    rewrite !append_assoc. cbn [String.append scan_once Ascii.eqb Bool.eqb andb].
    rewrite scanstring_escape. reflexivity.
  - apply float_free_list in Ht. apply wf_list in Hw.
    destruct xs as [|x xs].
    + destruct fuel as [|fuel]; [simpl in Hfuel; lia | reflexivity].
    + apply Forall_cons in Ht as [Htx Ht]. apply Forall_cons in Hw as [Hwx Hw].
      apply Forall_cons in IH as [IHx IH].
      rewrite enc_list_cons in *. rewrite !length_append in Hfuel.
      destruct fuel as [|fuel]; [simpl in Hfuel; lia |].
      rewrite !append_assoc. cbn [String.append scan_once Ascii.eqb Bool.eqb andb].
      rewrite skip_ws_newline_indent.
      rewrite (array_start _ (fun r1 => Parsed (PyList []) r1) (array_loop fuel []))
        by (apply enc_opens_value_numbers, Htx).
      assert (HF : Forall (fun x => float_free x /\ reads x) xs).
      { clear -Ht Hw IH. induction xs as [|y ys IHys]; constructor.
        - apply Forall_cons in Ht as [? _]. apply Forall_cons in Hw as [? _].
          apply Forall_cons in IH as [? _]. auto.
        - apply Forall_cons in Ht as [_ ?]. apply Forall_cons in Hw as [_ ?].
          apply Forall_cons in IH as [_ ?]. auto. }
      apply (array_loop_reads_numbers xs HF x [] level rest fuel (IHx Htx Hwx)).
      rewrite length_append. cbn [String.length] in Hfuel. lia.
  - apply float_free_dict in Ht. apply wf_dict in Hw as [Hnd Hw].
    destruct kvs as [|[k x] kvs].
    + destruct fuel as [|fuel]; [simpl in Hfuel; lia | reflexivity].
    + apply Forall_cons in Ht as [Htx Ht]. apply Forall_cons in Hw as [Hwx Hw].
      apply Forall_cons in IH as [IHx IH]. cbn [snd] in *.
      rewrite enc_dict_cons in *. rewrite !length_append in Hfuel.
      destruct fuel as [|fuel]; [simpl in Hfuel; lia |].
      rewrite !append_assoc. cbn [String.append scan_once Ascii.eqb Bool.eqb andb].
      rewrite skip_ws_newline_indent. unfold dquote at 1.
      cbn [String.append skip_ws is_ws Ascii.eqb Bool.eqb andb].
      rewrite <- (dict_of_items_nodup ((k, x) :: kvs) Hnd) at 1.
      assert (HF : Forall (fun kv => float_free kv.2 /\ reads kv.2) kvs).
      { clear -Ht Hw IH. induction kvs as [|kv kvs IHkvs]; constructor.
        - apply Forall_cons in Ht as [? _]. apply Forall_cons in Hw as [? _].
          apply Forall_cons in IH as [? _]. auto.
        - apply Forall_cons in Ht as [_ ?]. apply Forall_cons in Hw as [_ ?].
          apply Forall_cons in IH as [_ ?]. auto. }
      apply (object_loop_reads_numbers kvs HF (k, x) [] level rest fuel Htx
               (IHx Htx Hwx)).
      rewrite length_append. cbn [String.length] in Hfuel. lia.
Qed.

Lemma loads_iterencode_numbers v : float_free v -> wf v -> loads (enc 0 v) = Ok v.
Proof.
  intros Ht Hw. unfold loads.
  pose proof (enc_opens_value_numbers v 0 "" Ht) as Hopen.
  rewrite append_nil_r in Hopen.
  rewrite (skip_ws_solid _ (opens_value_solid _ Hopen)).
  rewrite <- (append_nil_r (enc 0 v)) at 2.
  rewrite (reads_back_numbers v Ht Hw O ""); [reflexivity | exact I | lia].
Qed.

End RoundTripNumbers.

(** X11. Every value made of strings, integers, booleans, None, lists and
    dicts with pairwise different keys, and within the limits of the
    interpreter, survives the trip through JSON text, in the compact form
    of the request body and in the indented form of the fallback file
    alike; so two such values with the same text are the same value. *)
Theorem json_round_trip `{Builtins} v :
  float_free v -> wf v -> within_limits v = true ->
  loads (dumps v) = Ok v
  /\ loads (dump_indent2 v) = Ok v
  /\ (forall v',
        float_free v' -> wf v' -> within_limits v' = true ->
        dumps v' = dumps v -> v' = v).
Proof.
  intros Hf Hw _. split; [| split].
  - exact (loads_iterencode_numbers None v Hf Hw).
  - exact (loads_iterencode_numbers (Some 2%nat) v Hf Hw).
  - intros v' Hf' Hw' _ Heq.
    pose proof (loads_iterencode_numbers None v' Hf' Hw') as H1.
    pose proof (loads_iterencode_numbers None v Hf Hw) as H2.
    unfold dumps in Heq. rewrite Heq, H2 in H1. congruence.
Qed.

Lemma json_round_trip_witness :
  loads (dumps (H := plain_builtins)
           (PyList [PyInt (-12); PyStr "Škoda"; PyNone; PyBool true;
                    PyDict [("n", PyInt 0)]]))
  = Ok (PyList [PyInt (-12); PyStr "Škoda"; PyNone; PyBool true; PyDict [("n", PyInt 0)]]).
Proof.
  apply (json_round_trip (H := plain_builtins)).
  - simpl. tauto.
  - simpl. repeat split; try exact I. apply (bool_decide_unpack _). vm_compute. exact I.
  - vm_compute. reflexivity.
Defined.



(** ** Dict displays *)

Lemma dict_lookup_app k kvs1 kvs2 :
  dict_lookup k (kvs1 ++ kvs2) =
    match dict_lookup k kvs1 with
    | Some v => Some v
    | None => dict_lookup k kvs2
    end.
Proof.
  induction kvs1 as [|[k' v'] kvs1 IH]; simpl; [reflexivity |].
  destruct (String.eqb k k'); [reflexivity | exact IH].
Qed.

Lemma dict_lookup_setitem k k' v kvs :
  dict_lookup k' (dict_setitem k v kvs) =
    if String.eqb k' k then Some v else dict_lookup k' kvs.
Proof.
  induction kvs as [|[k0 v0] kvs IH]; simpl.
  - reflexivity.
  - destruct (String.eqb k k0) eqn:E0; simpl.
    + apply String.eqb_eq in E0. subst k0.
      destruct (String.eqb k' k); reflexivity.
    + destruct (String.eqb k' k0) eqn:E1.
      * apply String.eqb_eq in E1. subst k0.
        rewrite String.eqb_sym, E0. reflexivity.
      * exact IH.
Qed.

Lemma dict_setitem_keys k v kvs :
  NoDup kvs.*1 -> NoDup (dict_setitem k v kvs).*1.
Proof.
  induction kvs as [|[k0 v0] kvs IH]; simpl; intros Hnd.
  - apply NoDup_singleton.
  - apply NoDup_cons in Hnd as [Hnotin Hnd].
    destruct (String.eqb k k0) eqn:E0; simpl.
    + apply NoDup_cons. split; assumption.
    + apply NoDup_cons. split; [| exact (IH Hnd)].
      intros Hin. apply Hnotin. clear -Hin E0.
      induction kvs as [|[k1 v1] kvs IH]; simpl in *.
      * apply list_elem_of_singleton in Hin. subst k0.
        rewrite String.eqb_refl in E0. discriminate.
      * destruct (String.eqb k k1); simpl in Hin; [exact Hin |].
        apply elem_of_cons in Hin as [-> | Hin]; [left | right; exact (IH Hin)].
Qed.

Lemma fold_setitem_spec items acc :
  NoDup acc.*1 ->
  NoDup (fold_left (fun d kv => dict_setitem kv.1 kv.2 d) items acc).*1
  /\ forall k,
       dict_lookup k (fold_left (fun d kv => dict_setitem kv.1 kv.2 d) items acc) =
         match dict_lookup k (reverse items) with
         | Some v => Some v
         | None => dict_lookup k acc
         end.
Proof.
  revert acc. induction items as [|[k0 v0] items IH]; intros acc Hacc; simpl.
  - split; [exact Hacc | reflexivity].
  - destruct (IH (dict_setitem k0 v0 acc) (dict_setitem_keys k0 v0 acc Hacc)) as [Hnd Hl].
    split; [exact Hnd |]. intros k. rewrite Hl, reverse_cons, dict_lookup_app.
    destruct (dict_lookup k (reverse items)); [reflexivity |].
    rewrite dict_lookup_setitem. simpl.
    destruct (String.eqb k k0); reflexivity.
Qed.

(** X14. A dict display keeps one entry for each key: its keys are
    pairwise different, and under a key written more than once it holds
    the value written last.  With well-formed values the dict is well
    formed. *)
Theorem display_keeps_last_value items :
  NoDup (dict_of_items items).*1
  /\ (forall k, dict_lookup k (dict_of_items items) = dict_lookup k (reverse items))
  /\ (Forall (fun kv => wf kv.2) items -> wf (display items)).
Proof.
  destruct (fold_setitem_spec items [] (NoDup_nil_2)) as [Hnd Hl].
  split; [exact Hnd | split].
  - intros k. unfold dict_of_items. rewrite Hl.
    destruct (dict_lookup k (reverse items)); reflexivity.
  - intros Hwf. unfold display. apply wf_dict. split; [exact Hnd |].
    unfold dict_of_items.
    assert (Hgen : forall acc,
              Forall (fun kv => wf kv.2) acc ->
              Forall (fun kv => wf kv.2)
                (fold_left (fun d kv => dict_setitem kv.1 kv.2 d) items acc)).
    { clear Hnd Hl. induction Hwf as [|[k0 v0] items Hv _ IH]; intros acc Hacc; simpl.
      - exact Hacc.
      - apply IH. clear IH. induction Hacc as [|[k1 v1] acc Hv1 Hacc IHacc]; simpl.
        + constructor; [exact Hv | constructor].
        + destruct (String.eqb k0 k1); constructor; assumption. }
    apply Hgen. constructor.
Qed.

Lemma display_keeps_last_value_witness :
  wf (display [ ("Octavia", PyList []); ("Fabia", PyList []);
                ("Octavia", PyList [PyStr "later"]) ])
  /\ getitem (display [ ("Octavia", PyList []); ("Fabia", PyList []);
                        ("Octavia", PyList [PyStr "later"]) ]) "Octavia"
     = Ok (PyList [PyStr "later"]).
Proof.
  destruct (display_keeps_last_value
              [ ("Octavia", PyList []); ("Fabia", PyList []);
                ("Octavia", PyList [PyStr "later"]) ]) as (_ & _ & Hwf).
  split; [| vm_compute; reflexivity].
  apply Hwf. repeat constructor; simpl; tauto.
Defined.

(** ** The characters of a str *)

Lemma utf8_chars_unit c k rest :
  all_chars is_continuation k = true ->
  starts_with_continuation rest = false ->
  utf8_chars (String c (k +:+ rest)) = String c k :: utf8_chars rest.
Proof.
  revert c. induction k as [|d k IH]; intros c Hk Hrest.
  - cbn [String.append utf8_chars]. rewrite Hrest. reflexivity.
  - cbn [all_chars] in Hk. apply andb_true_iff in Hk as [Hd Hk].
    cbn [String.append]. cbn [utf8_chars starts_with_continuation]. rewrite Hd.
    change (utf8_chars (String d (k +:+ rest)) ) with (utf8_chars (String d (k +:+ rest))).
    pose proof (IH d Hk Hrest) as E. cbn [utf8_chars] in E. rewrite E. reflexivity.
Qed.

Lemma utf8_chars_head d s :
  exists k us, utf8_chars (String d s) = String d k :: us.
Proof.
  cbn [utf8_chars]. destruct (starts_with_continuation s).
  - destruct (utf8_chars s) as [|u us]; eauto.
  - eauto.
Qed.

Lemma utf8_chars_in_a_row s : chars_in_a_row (utf8_chars s).
Proof.
  induction s as [|c s IH]; [exact I |].
  cbn [utf8_chars]. destruct (starts_with_continuation s) eqn:Es.
  - destruct s as [|d s']; [discriminate Es |].
    cbn [starts_with_continuation] in Es.
    destruct (utf8_chars_head d s') as (k & us & Eu). rewrite Eu in *.
    destruct IH as (Hu & Hnext & Hrow). split; [| split; assumption].
    cbn [is_char all_chars] in *. rewrite Es, Hu. reflexivity.
  - split; [reflexivity |]. split; [| exact IH].
    destruct s as [|d s']; [exact I |].
    destruct (utf8_chars_head d s') as (k & us & ->). exact Es.
Qed.

Lemma chars_in_a_row_take n us : chars_in_a_row us -> chars_in_a_row (take n us).
Proof.
  revert us. induction n as [|n IH]; intros us Hus; [exact I |].
  destruct us as [|u us]; [exact I |].
  destruct Hus as (Hu & Hnext & Hrow). cbn [take chars_in_a_row].
  split; [exact Hu |]. split; [| exact (IH us Hrow)].
  destruct n; [exact I |]. destruct us; [exact I | exact Hnext].
Qed.

Lemma starts_concat_str u us :
  is_char u -> starts_with_continuation (concat_str (u :: us)) = starts_with_continuation u.
Proof. destruct u as [|c k]; [intros [] |]. reflexivity. Qed.

(** Splitting what was joined gives the characters back. *)
Lemma utf8_chars_concat_str us :
  chars_in_a_row us -> utf8_chars (concat_str us) = us.
Proof.
  induction us as [|u us IH]; [reflexivity |].
  intros (Hu & Hnext & Hrow). destruct u as [|c k]; [destruct Hu |].
  cbn [concat_str String.append]. rewrite utf8_chars_unit.
  - rewrite (IH Hrow). reflexivity.
  - exact Hu.
  - destruct us as [|u' us']; [reflexivity |].
    destruct Hrow as (Hu' & _). rewrite (starts_concat_str u' us' Hu'). exact Hnext.
Qed.

Lemma utf8_chars_of_prefix n s :
  utf8_chars (concat_str (take n (utf8_chars s))) = take n (utf8_chars s).
Proof. apply utf8_chars_concat_str, chars_in_a_row_take, utf8_chars_in_a_row. Qed.



(** ** The request body is one line *)

Lemma all_chars_app_true f p q :
  all_chars f p = true -> all_chars f q = true -> all_chars f (p +:+ q) = true.
Proof.
  intros Hp Hq. induction p as [|c p IH]; [exact Hq |].
  simpl in *. apply andb_true_iff in Hp as [Hc Hp]. rewrite Hc, (IH Hp). reflexivity.
Qed.

Lemma all_chars_weaken (f g : ascii -> bool) s :
  (forall c, f c = true -> g c = true) -> all_chars f s = true -> all_chars g s = true.
Proof.
  intros Hfg. induction s as [|c s IH]; [reflexivity |].
  simpl. intros Hs. apply andb_true_iff in Hs as [Hc Hs].
  rewrite (Hfg c Hc), (IH Hs). reflexivity.
Qed.

Lemma digit_printable c : is_digit c = true -> printable c = true.
Proof. destruct c as [[] [] [] [] [] [] [] []]; (discriminate || reflexivity). Qed.

Lemma escape_printable s : all_chars printable (escape s) = true.
Proof.
  induction s as [|c s IH]; [reflexivity |].
  cbn [escape]. apply all_chars_app_true; [| exact IH].
  destruct c as [[] [] [] [] [] [] [] []]; reflexivity.
Qed.

Lemma pretty_Z_printable (z : Z) : all_chars printable (pretty z) = true.
Proof.
  assert (Hpos : forall x, all_chars printable (pretty (N.pos x)) = true).
  { intros x. unfold pretty, pretty_N.
    destruct (decide (N.pos x = 0%N)) as [E|_]; [discriminate |].
    destruct (pretty_N_go_digits (N.pos x) ltac:(lia)) as (c & p & Hgo & Hc & _ & Hp & _).
    rewrite Hgo, append_nil_r. simpl. rewrite (digit_printable c Hc).
    apply (all_chars_weaken is_digit); [apply digit_printable | exact Hp]. }
  destruct z as [|x|x]; unfold pretty, pretty_Z; [reflexivity | apply Hpos |].
  apply all_chars_app_true; [reflexivity | apply Hpos].
Qed.

Lemma join_printable sep l :
  all_chars printable sep = true ->
  Forall (fun t => all_chars printable t = true) l ->
  all_chars printable (join sep l) = true.
Proof.
  intros Hsep. induction 1 as [|t l Ht Hl IH]; [reflexivity |].
  destruct l as [|t' l']; [exact Ht |].
  change (join sep (t :: t' :: l')) with (t +:+ sep +:+ join sep (t' :: l')).
  repeat apply all_chars_app_true; assumption.
Qed.

Lemma compact_printable `{Builtins} v :
  float_free v -> forall level, all_chars printable (iterencode None level v) = true.
Proof.
  induction v as [| b | z | lit | s | xs IH | kvs IH] using pyval_ind; intros Hf level.
  - reflexivity.
  - destruct b; reflexivity.
  - apply pretty_Z_printable.
  - destruct Hf.
  - cbn [iterencode]. unfold encode_basestring.
    repeat apply all_chars_app_true; [reflexivity | apply escape_printable | reflexivity].
  - destruct xs as [|x xs]; [reflexivity |].
    change (iterencode None level (PyList (x :: xs))) with
      ("[" +:+ newline_indent None (S level)
           +:+ join (item_separator None +:+ newline_indent None (S level))
                 (map (iterencode None (S level)) (x :: xs))
           +:+ newline_indent None level +:+ "]").
    repeat apply all_chars_app_true; try reflexivity.
    apply join_printable; [reflexivity |].
    apply Forall_map. apply float_free_list in Hf.
    revert Hf IH. generalize (x :: xs). intros l Hf IH.
    induction l as [|y l IHl]; constructor.
    + apply Forall_cons in Hf as [Hy _]. apply Forall_cons in IH as [IHy _].
      apply (IHy Hy).
    + apply Forall_cons in Hf as [_ Hl]. apply Forall_cons in IH as [_ IHl'].
      exact (IHl Hl IHl').
  - destruct kvs as [|[k x] kvs]; [reflexivity |].
    change (iterencode None level (PyDict ((k, x) :: kvs))) with
      ("{" +:+ newline_indent None (S level)
           +:+ join (item_separator None +:+ newline_indent None (S level))
                 (map (fun '(k, x) => encode_basestring k +:+ key_separator
                                        +:+ iterencode None (S level) x)
                    ((k, x) :: kvs))
           +:+ newline_indent None level +:+ "}").
    repeat apply all_chars_app_true; try reflexivity.
    apply join_printable; [reflexivity |].
    apply Forall_map. apply float_free_dict in Hf.
    revert Hf IH. generalize ((k, x) :: kvs). intros l Hf IH.
    induction l as [|[k' y] l IHl]; constructor.
    + apply Forall_cons in Hf as [Hy _]. apply Forall_cons in IH as [IHy _].
      cbn [snd] in *. unfold encode_basestring.
      repeat apply all_chars_app_true;
        [reflexivity | apply escape_printable | reflexivity | reflexivity | apply (IHy Hy)].
    + apply Forall_cons in Hf as [_ Hl]. apply Forall_cons in IH as [_ IHl'].
      exact (IHl Hl IHl').
Qed.

(** X16. The body of the request holds no control character, hence no
    line break: whatever control characters the strings of the catalog
    contain are sent as escapes. *)
Theorem request_body_is_one_line `{Builtins} data :
  float_free data ->
  all_chars printable (req_data (the_request data)) = true.
Proof. intros Hf. exact (compact_printable data Hf O). Qed.

Lemma request_body_is_one_line_witness :
  all_chars printable
    (req_data (the_request (H := plain_builtins)
                 (display [("Skoda", PyStr (String "010" (String "009" EmptyString)))])))
  = true.
Proof.
  apply (request_body_is_one_line (H := plain_builtins)
           (display [("Skoda", PyStr (String "010" (String "009" EmptyString)))])).
  simpl. tauto.
Defined.


(** ** A defect anywhere in main.py *)

Lemma compile_defect file src :
  forallb simple_at_margin src = false ->
  exists e,
    (exc_cls e = IndentationError \/ exc_cls e = SyntaxError)
    /\ compile file src = Raise e.
Proof.
  induction src as [|l src IH]; [discriminate |].
  intros Hall. destruct (simple_at_margin l) eqn:Hl.
  - cbn [forallb] in Hall. rewrite Hl in Hall.
    destruct (IH Hall) as (e & Hcls & Hc). exists e. split; [exact Hcls |].
    unfold simple_at_margin in Hl. apply andb_true_iff in Hl as [Hcol Hform].
    apply negb_true_iff in Hcol. cbn [compile]. rewrite Hcol.
    destruct (form l); try discriminate. rewrite Hc. reflexivity.
  - unfold simple_at_margin in Hl. cbn [compile].
    destruct (0 <? column l)%nat eqn:Hcol.
    + eexists. split; [| reflexivity]. left. reflexivity.
    + destruct (form l) eqn:Hform; try discriminate;
        (eexists; split; [| reflexivity]; right; reflexivity).
Qed.



(** ** How the main block can end *)


